(* ===== verification/_CoqProject ===== *)
-Q . S2P
Prelude.v
Workbook.v
Quota.v
World.v
Sender.v
Retry.v
TestMode.v
Scheduler.v
Dispatcher.v
Completion.v
SheetCheck.v
Main.v
Persistence.v
CLI.v
QuotaRun.v
