(* ===== verification/Prelude.v ===== *)
(** * A verification development of sheetmail (src/sheetmail.py)

    sheetmail is a Python 2 script that reads rows (recipient, subject,
    body, status) from a spreadsheet and sends one mail per pending row
    through a pool of SMTP accounts, each with a rate limit ("quota") kept
    in a JSON configuration file.  This development models the core of the
    script, the parts that decide when and through which account a mail
    is sent, how transport failures are retried and what status each row
    receives, and proves what makes them correct, together with the places
    where the code departs from its specification (spec.md).

    ** The program and how its parts interact

    - [Mail_sender] (sheetmail.py lines 26-156) owns one account: the
      account's JSON dictionary (shared, by reference, with the loaded
      configuration), the connection state and the next permitted send
      time.  [_update_quotas] is the quota tracker, [connect_to_server],
      [_send_mail] and [close] the transport session, [send_mail] the
      retry/reconnect loop.
    - [Excel_Mail_Sender] (lines 160-255) owns the pool of senders and the
      workbook.  [_find_free_server] is the account scheduler, [run] the
      dispatcher, [_persist_config] writes the whole configuration back to
      disk, and it is called by the senders as a callback (so a send
      mutates a dictionary that the persisted file then reflects).

    ** Files, and what each models

    - [Prelude] (this file): Python exceptions ([exn]) with the smtplib
      class hierarchy, spreadsheet cell values with Python 2 truthiness and
      mixed-type comparison, Python's integer floor division and the
      ceiling of a true division on integers, and the state-and-exception
      monad [PyM] in which every stateful method is written: a computation
      maps a state to a result ([Ok] or [Exc]) and a new state, and, as in
      Python, the state changes made before an exception are kept.
      Notations [let* x := m in k] and [m ;; k] live in [py_scope].
    - [Workbook]: the openpyxl workbook of [init] and of the start-up
      check with all its sheets, each cell's value and comment and the
      active index; the comment cleaning of [--cleancomments] (lines
      176-184 and 286-293) and the selection of [--sheetindex].
    - [Quota]: the account dictionary ([account]) and the arithmetic of
      [_update_quotas] as pure functions (window rollover, decrement,
      next-send computation in fixed and adaptive pacing); the pacing
      discipline as an invariant and the quota-safety theorems.
    - [World]: the program's heap and environment: the clock, the heap of
      account dictionaries, the heap of [Mail_sender] objects, the
      worksheet as a [gmap] from (row, column) to cells, the last saved
      workbook and the last persisted configuration, and the SMTP server
      as a script of replies consumed by each library call, with a trace
      of the calls made.
    - [Sender]: the methods of [Mail_sender], each a [PyM] computation on
      the world, line by line, and the theorems on the retry loop.
    - [Scheduler]: [_find_free_server] as the head of a stable sort by
      (next_send, object identity), its equivalence with a linear scan and
      its minimality and tie-breaking properties.
    - [Retry]: the loop of [send_mail] again, as a labelled transition
      system on loop configurations, proved equal to the monadic loop,
      and the retry state machine of spec.md section 4.3 ([Spec]) that
      it refines.
    - [Dispatcher]: [excel_data_iterator], [Excel_Mail_Sender.run], the
      [KeyboardInterrupt] handler of the main block and the creation of
      the pool in [Excel_Mail_Sender.init]; the theorems on row statuses,
      re-runs and the workbook on disk.
    - [TestMode]: [test_mail], the connectivity test of [--test].
    - [Completion]: [run] when nothing fails (it goes through the whole
      sheet, also right after the pool is created), and the data error
      that stops it (a number as recipient).
    - [SheetCheck]: [test_spreadsheet_file] (lines 276-312), the start-up
      check of the workbook, with what openpyxl does as an input
      ([book_io]).
    - [Main]: [Excel_Mail_Sender.init] on the results of loading the
      workbook and the configuration (inputs of the model), and the main
      block of lines 355-370 with the start-up check and the test mode.
    - [CLI]: the command line as argparse builds it (lines 318-334), the
      keys of the parameter dictionary, the logging set-up (lines
      342-353) and the whole program from the options given ([program]).
    - [QuotaRun]: the quota invariants of [Quota] carried through the
      whole program: every sender of the pool keeps [adaptive_inv], or
      [fixed_inv] in fixed pacing, across [run], and from the
      configuration file on.
    - [Persistence]: the configuration file across a run (its static
      fields never change) and a restart (what is persisted is what the
      next start loads).

    ** What is modelled, and how

    Time is an integer number of seconds read from the world's clock; only
    [sleep] advances it (library calls are taken to be instantaneous,
    which can only make sends earlier, never later, than in reality).  The
    SMTP server, the network and the user (Ctrl-C) are the environment: a
    list of replies, one consumed by each smtplib call, each either a
    success or an exception of the smtplib hierarchy (or a
    KeyboardInterrupt); when the list is exhausted every further call
    succeeds.  Every theorem quantifies over this list, so it holds for
    every behaviour of the server.  Python 2 integer division is floor
    division ([Z.div]) and raises [ZeroDivisionError] on zero.

    Every loop of the program is a structural recursion of the model, so
    no fuel is needed: [send_mail_loop] recurses on the iterations left
    ([xrange(retries)]), [run_rows] on the row numbers of the sheet,
    [test_connections] on the accounts, [paced] on the send requests.
    Termination is therefore by construction.  What is proved beyond it is
    how many attempts, connections, sends and sleeps a call performs
    ([Sender.send_mail_bounded], [TestMode.test_mail_checks_each_account])
    and that [run] returns normally in the conditions of
    [Completion.run_completes].

    ** The theorems, by group

    - Rows and runs ([Dispatcher], [Completion]): the status a row gets for
      each outcome of [send_mail]; an invalid row is marked without SMTP
      traffic but after the wait; a run that went through the sheet
      leaves nothing to do for a second run; however the program stops,
      the workbook on disk is the sheet in memory; with the default
      command line ([staticsubject] present as [None]) nothing is sent;
      with accepting servers and rows whose recipient, subject and body
      are not numbers the run completes; a number as recipient, subject
      or body makes the message raise [TypeError], which escapes the run.
    - Quotas ([Quota], [QuotaRun]): adaptive pacing never drives the
      counter below zero, on paced sequences of sends and in the program
      itself, whatever the servers answer: the dispatcher waits for the
      chosen sender and only a delivery counts; fixed pacing is safe,
      also in the program, when the allowance divides the timeframe and
      no window is left uncovered at start, overruns every account whose
      allowance does not, and overruns every account across a restart
      made before [next_send]; the delay of adaptive pacing spreads the
      rest of the allowance over the rest of the window.
    - The retry loop ([Sender], [Retry]): the bounds on attempts, sends
      and sleeps; the outcome for each exception class; [--nosend] sends
      nothing but counts every mail as sent; the loop, as a small-step
      relation, refines the spec's retry state machine.
    - Scheduling ([Scheduler]): the chosen sender has the least
      next_send, ties going to the smallest [id()].
    - Test mode ([TestMode], [Main]): an account with [update_config]
      makes the test raise [TypeError]; otherwise each account is tried
      once; the test mode never sends mail nor touches the workbook.
    - The workbook ([Workbook]): the cleaning loop, which moves the
      active sheet as it goes, is the map clearing every comment of every
      sheet, the sheet of [--sheetindex] ends up active, and no cell value
      changes, so [run] reads the same sheet with or without
      [--cleancomments].
    - The program ([SheetCheck], [Main], [CLI]): the start-up check on
      every branch, never touching the world; [init] on every branch of
      its error handling; an invalid workbook stops the program through
      the check but escapes [init] under [--notest]; from valid files and
      accepting servers the program marks every row; the log-level chain
      binds a level for every accepted command line; without
      [--staticsubject] the program sends nothing in any mode.
    - The configuration file ([Persistence]): a run rewrites only the two
      counters of each dictionary; persisting then reloading gives the
      persisted counters back, after the constructor's window check.

    ** Not modelled

    Loading the workbook and the JSON file and the openpyxl calls of the
    start-up check (library I/O): their results are inputs of the model
    ([Main.excel_init], [SheetCheck.book_io]).  The comment cleaning of
    [init] and of the check is modelled on a workbook of its own
    ([Workbook]); the world of the other files holds only the values of
    the selected sheet, which [Workbook.init_book_values] shows the
    cleaning does not change, and in the check the cleaning shows
    through the outcome of the reload.  argparse itself (usage messages,
    the parsing of integers, which the model takes non-negative, and the
    two file arguments it opens), the renaming of [params['excel_file']]
    (lines 336-339) and the output of logging are not represented; log
    calls have no effect on the state and are dropped.  Of the MIME
    encoding of a message only whether it raises is modelled
    ([Sender.mime_text], [Sender.as_string]: [TypeError] for a number as
    body or subject, from Python 2.7's [email] package); its bytes are
    not. *)

From stdpp Require Export base list gmap strings.
From Stdlib Require Export ZArith Lia.

Set Default Goal Selector "!".

Declare Scope py_scope.
Delimit Scope py_scope with py.

Create HintDb sheetmail discriminated.
Create Rewrite HintDb sheetmail_rw.

(** ** Python exceptions met by the code

    The smtplib classes that [send_mail] distinguishes, the other
    subclasses of [smtplib.SMTPException] (e.g. [SMTPServerDisconnected],
    "STARTTLS extension not supported"), [socket.error], and the
    non-SMTP exceptions that the code raises itself or meets while
    loading its files ([ValueError] from [json.load], [KeyError] from a
    missing dictionary key, the openpyxl
    exceptions of [load_workbook]), and [NameError] for a name left
    unbound. *)
Inductive exn :=
| SMTPRecipientsRefused
| SMTPSenderRefused
| SMTPAuthenticationError
| SMTPHeloError
| SMTPDataError
| SMTPConnectError
| SMTPServerDisconnected
| SMTPOtherException
| SocketError
| TypeError
| IndexError
| ZeroDivisionError
| KeyboardInterrupt
| ValueError
| KeyError
| CellCoordinatesException
| InvalidFileException
| NameError.

#[export] Instance exn_eq_dec : EqDecision exn.
Proof. solve_decision. Defined.

(** [isinstance(e, smtplib.SMTPException)]. *)
Definition is_smtp_exception (e : exn) : bool :=
  match e with
  | SMTPRecipientsRefused | SMTPSenderRefused | SMTPAuthenticationError
  | SMTPHeloError | SMTPDataError | SMTPConnectError
  | SMTPServerDisconnected | SMTPOtherException => true
  | _ => false
  end.

(** ** Spreadsheet cell values (openpyxl with [data_only=True]) *)
Inductive cell :=
| CNone
| CNum (z : Z)
| CStr (s : string).

#[export] Instance cell_eq_dec : EqDecision cell.
Proof. solve_decision. Defined.

(** Python truthiness: [None], [0] and [""] are false. *)
Definition py_truthy (c : cell) : bool :=
  match c with
  | CNone => false
  | CNum z => negb (z =? 0)%Z
  | CStr s => negb (String.eqb s "")
  end.

(** Python 2's [c >= 1]: [None] is smaller than every number, and a
    number is smaller than every string. *)
Definition py_ge_one (c : cell) : bool :=
  match c with
  | CNone => false
  | CNum z => (1 <=? z)%Z
  | CStr _ => true
  end.

(** ** Python arithmetic on integers *)

(** [math.ceil(a / b)] for a true division of integers. *)
Definition ceil_div (a b : Z) : Z := - ((- a) / b).

Lemma ceil_div_lower (a b : Z) : (0 < b)%Z -> (a <= b * ceil_div a b)%Z.
Proof.
  intros Hb. unfold ceil_div.
  pose proof (Z.mul_div_le (- a) b Hb). lia.
Qed.

Lemma ceil_div_upper (a b : Z) : (0 < b)%Z -> (b * ceil_div a b < a + b)%Z.
Proof.
  intros Hb. unfold ceil_div.
  pose proof (Z.mod_pos_bound (- a) b Hb).
  pose proof (Z.div_mod (- a) b ltac:(lia)). lia.
Qed.

Lemma ceil_div_pos (a b : Z) : (0 < a)%Z -> (0 < b)%Z -> (0 < ceil_div a b)%Z.
Proof.
  intros Ha Hb. pose proof (ceil_div_lower a b Hb). nia.
Qed.

Lemma ceil_div_exact (a b : Z) : (0 < b)%Z -> (a mod b = 0)%Z -> ceil_div a b = (a / b)%Z.
Proof.
  intros Hb Hm. unfold ceil_div.
  rewrite Z.div_opp_l_z by lia. lia.
Qed.

(** ** The state-and-exception monad of Python methods *)

Inductive res (A : Type) :=
| Ok (a : A)
| Exc (e : exn).
Arguments Ok {A} a.
Arguments Exc {A} e.

Definition PyM (S A : Type) : Type := S -> res A * S.

Section Monad.
Context {S : Type}.

Definition ret {A} (a : A) : PyM S A := fun s => (Ok a, s).

Definition bind {A B} (m : PyM S A) (k : A -> PyM S B) : PyM S B :=
  fun s => match m s with
           | (Ok a, s') => k a s'
           | (Exc e, s') => (Exc e, s')
           end.

Definition raise {A} (e : exn) : PyM S A := fun s => (Exc e, s).

(** [try: m except: h(e)]; the state reached by [m] is kept. *)
Definition try_ {A} (m : PyM S A) (h : exn -> PyM S A) : PyM S A :=
  fun s => match m s with
           | (Ok a, s') => (Ok a, s')
           | (Exc e, s') => h e s'
           end.

Definition get : PyM S S := fun s => (Ok s, s).
Definition gets {A} (f : S -> A) : PyM S A := fun s => (Ok (f s), s).
Definition modify (f : S -> S) : PyM S unit := fun s => (Ok tt, f s).

(** Observers of a run. *)
Definition result_of {A} (m : PyM S A) (s : S) : res A := fst (m s).
Definition state_of {A} (m : PyM S A) (s : S) : S := snd (m s).
End Monad.

Notation "'let*' x ':=' m 'in' k" := (bind m (fun x => k))
  (at level 10, x name, m at level 100, k at level 200) : py_scope.
Notation "m ;; k" := (bind m (fun _ => k))
  (at level 100, k at level 200, right associativity) : py_scope.

Open Scope py_scope.

Section MonadLaws.
Context {S : Type}.

Lemma bind_ret_l {A B} (a : A) (k : A -> PyM S B) s :
  bind (ret a) k s = k a s.
Proof. reflexivity. Qed.

Lemma bind_assoc {A B C} (m : PyM S A) (k : A -> PyM S B) (k' : B -> PyM S C) s :
  bind (bind m k) k' s = bind m (fun a => bind (k a) k') s.
Proof. unfold bind. destruct (m s) as [[a|e] s']; reflexivity. Qed.

Lemma bind_ok {A B} (m : PyM S A) (k : A -> PyM S B) s a s' :
  m s = (Ok a, s') -> bind m k s = k a s'.
Proof. unfold bind. intros ->. reflexivity. Qed.

Lemma bind_exc {A B} (m : PyM S A) (k : A -> PyM S B) s e s' :
  m s = (Exc e, s') -> bind m k s = (Exc e, s').
Proof. unfold bind. intros ->. reflexivity. Qed.

Lemma try_ok {A} (m : PyM S A) h s a s' :
  m s = (Ok a, s') -> try_ m h s = (Ok a, s').
Proof. unfold try_. intros ->. reflexivity. Qed.

Lemma try_exc {A} (m : PyM S A) h s e s' :
  m s = (Exc e, s') -> try_ m h s = h e s'.
Proof. unfold try_. intros ->. reflexivity. Qed.

(** An invariant of the state that a computation preserves, whatever
    its result. *)
Definition preserves {A} (I : S -> Prop) (m : PyM S A) : Prop :=
  forall s, I s -> I (snd (m s)).

Lemma preserves_ret {A} I (a : A) : preserves I (ret a).
Proof. intros s Hs. exact Hs. Qed.

Lemma preserves_raise {A} I e : preserves I (@raise S A e).
Proof. intros s Hs. exact Hs. Qed.

Lemma preserves_get I : preserves I get.
Proof. intros s Hs. exact Hs. Qed.

Lemma preserves_gets {A} I (f : S -> A) : preserves I (gets f).
Proof. intros s Hs. exact Hs. Qed.

Lemma preserves_bind {A B} I (m : PyM S A) (k : A -> PyM S B) :
  preserves I m -> (forall a, preserves I (k a)) -> preserves I (bind m k).
Proof.
  intros Hm Hk s Hs. unfold bind.
  specialize (Hm s Hs). destruct (m s) as [[a|e] s']; simpl in *; auto.
  apply Hk, Hm.
Qed.

Lemma preserves_try {A} I (m : PyM S A) h :
  preserves I m -> (forall e, preserves I (h e)) -> preserves I (try_ m h).
Proof.
  intros Hm Hh s Hs. unfold try_.
  specialize (Hm s Hs). destruct (m s) as [[a|e] s']; simpl in *; auto.
  apply Hh, Hm.
Qed.

Lemma preserves_if {A} I (b : bool) (m1 m2 : PyM S A) :
  preserves I m1 -> preserves I m2 -> preserves I (if b then m1 else m2).
Proof. destruct b; auto. Qed.
End MonadLaws.

#[export] Hint Resolve preserves_ret preserves_raise preserves_get preserves_gets
  preserves_bind preserves_try preserves_if : sheetmail.

(** Symbolic execution of a [PyM] computation: unfold the combinators
    and reduce; the remaining matches are on the state's data. *)
Ltac py_unfold :=
  unfold bind, ret, raise, try_, get, gets, modify, result_of, state_of in *.

(** Preservation goals are solved by the combinator lemmas; [tac]
    discharges the primitive steps it can, the others are left. *)
Ltac py_preserves_with tac :=
  repeat (intros; first
    [ apply preserves_bind
    | apply preserves_try
    | apply preserves_if
    | apply preserves_ret
    | apply preserves_raise
    | apply preserves_get
    | apply preserves_gets
    | solve [tac]
    | match goal with |- preserves _ (match ?x with _ => _ end) => destruct x end ]).

Ltac py_preserves := py_preserves_with fail.

(** ** Generic list lemmas shared by the components *)

Lemma list_insert_lookup_same {A} (l : list A) i (x : A) :
  i < length l -> <[i := x]> l !! i = Some x.
Proof. intros H. by apply list_lookup_insert_eq. Qed.

Lemma list_lookup_default_insert_ne {A} (d : A) (l : list A) i j x :
  i <> j -> default d (<[i := x]> l !! j) = default d (l !! j).
Proof. intros H. by rewrite list_lookup_insert_ne. Qed.

(** Replacing an element by one with the same image keeps the image of
    the list. *)
Lemma map_insert_same {A B} (g : A -> B) (l : list A) i (x : A) :
  (forall a, l !! i = Some a -> g x = g a) -> map g (<[i := x]> l) = map g l.
Proof.
  intros Hx. destruct (l !! i) as [a|] eqn:Hi.
  - rewrite list_fmap_insert, (Hx a eq_refl). apply list_insert_id.
    by rewrite list_lookup_fmap, Hi.
  - rewrite list_insert_ge; [done|]. by apply lookup_ge_None.
Qed.

#[export] Hint Rewrite @list_lookup_default_insert_ne using congruence : sheetmail_rw.
