(* ===== verification/Workbook.v ===== *)
(** * Workbook: the sheets of the workbook and the comment cleaning

    With [--cleancomments], [Excel_Mail_Sender.init] (sheetmail.py lines
    176-184) and [test_spreadsheet_file] (lines 286-293) walk over every
    sheet of the workbook, make it the active one ([wb.active = i]) and
    clear the comment of each of its cells, to avoid an openpyxl bug that
    corrupts a saved workbook with comments; then they select the sheet
    of [--sheetindex].  The rest of the development sees only the values
    of the selected sheet ([World.cells]); this file models the workbook
    with all its sheets, the cells' values and comments, and the active
    index, so that the cleaning loop is modelled as written.

    [wb.active = i] is openpyxl's setter; it is modelled as the
    assignment of the index (what it does for an index out of range is
    the library's).

    The theorems: the loop, which moves the active sheet as it goes, is
    the map clearing every comment of every sheet, and the final
    selection makes the sheet of [--sheetindex] active whatever the loop
    did; in particular cleaning changes no value, so the sheet [run]
    reads is the same with or without [--cleancomments]. *)

From S2P Require Import Prelude.

(** ** The workbook *)

(** An openpyxl cell: its value and its comment. *)
Record xcell := mkXCell {
  xc_value : cell;
  xc_comment : option string
}.

(** A sheet as its rows. *)
Definition xsheet := list (list xcell).

Record workbook := mkWorkbook {
  wb_sheets : list xsheet;
  wb_active : nat
}.

(** [wb.active = i]. *)
Definition set_active (wb : workbook) (i : nat) : workbook :=
  mkWorkbook (wb_sheets wb) i.

(** [cell.comment = None]. *)
Definition uncomment (c : xcell) : xcell := mkXCell (xc_value c) None.

(** [for row in wb.active.rows: for cell in row: cell.comment = None]
    (lines 180-181). *)
Definition clear_active (wb : workbook) : workbook :=
  mkWorkbook (alter (map (map uncomment)) (wb_active wb) (wb_sheets wb)) (wb_active wb).

(** Lines 178-181: [for i in xrange(len(wb.get_sheet_names()))], the
    number of sheets read once before the loop. *)
Definition clean_comments (wb : workbook) : workbook :=
  fold_left (fun wb i => clear_active (set_active wb i)) (seq 0 (length (wb_sheets wb))) wb.

(** [Excel_Mail_Sender.init], lines 176-184: the cleaning when
    [config['cleancomments']] is set, then [wb.active = sheetindex]; the
    active sheet is [self.sheet]. *)
Definition init_book (cleancomments : bool) (sheetindex : nat) (wb : workbook) : workbook :=
  let wb := if cleancomments then clean_comments wb else wb in
  set_active wb sheetindex.

(** [test_spreadsheet_file], lines 286-293: the same steps on the copy
    [book] it loads. *)
Definition test_book (cleancomments : bool) (sheetindex : nat) (book : workbook) : workbook :=
  let book := if cleancomments then clean_comments book else book in
  set_active book sheetindex.

(** The values of the active sheet, as [run] reads them. *)
Definition active_values (wb : workbook) : option (list (list cell)) :=
  map (map xc_value) <$> wb_sheets wb !! wb_active wb.

(** No cell of any sheet has a comment. *)
Definition no_comments (wb : workbook) : Prop :=
  Forall (Forall (Forall (fun c => xc_comment c = None))) (wb_sheets wb).

(** ** The cleaning loop is a map *)

Section Loop.
Context (f : xsheet -> xsheet).

(** The loop's body acts on the sheets by [alter] at the index it
    selects; the active index does not matter to the sheets. *)
Lemma fold_active_sheets (l : list nat) (wb : workbook) (g : workbook -> nat -> workbook) :
  (forall wb i, wb_sheets (g wb i) = alter f i (wb_sheets wb)) ->
  wb_sheets (fold_left g l wb) = fold_left (fun ss i => alter f i ss) l (wb_sheets wb).
Proof. intros Hg. revert wb. induction l as [|i l IH]; intros wb; [done|]. cbn. by rewrite IH, Hg. Qed.

(** [alter] at the indices [k .. k+n-1], one after the other. *)
Lemma fold_alter_seq k n (ss : list xsheet) :
  fold_left (fun ss i => alter f i ss) (seq k n) ss =
  imap (fun j s => if decide (k <= j < k + n) then f s else s) ss.
Proof.
  revert k ss. induction n as [|n IH]; intros k ss; apply list_eq; intros j.
  - cbn [seq fold_left]. rewrite list_lookup_imap. destruct (ss !! j); cbn; [|done].
    by case_decide; [lia|].
  - cbn [seq fold_left]. rewrite IH, !list_lookup_imap.
    destruct (decide (j = k)) as [->|Hne].
    + rewrite list_lookup_alter. repeat case_decide; try lia. by destruct (ss !! k).
    + rewrite list_lookup_alter_ne by done. repeat case_decide; try lia; by destruct (ss !! j).
Qed.

Lemma fold_alter_all (ss : list xsheet) :
  fold_left (fun ss i => alter f i ss) (seq 0 (length ss)) ss = map f ss.
Proof.
  rewrite fold_alter_seq. apply list_eq. intros j. rewrite list_lookup_imap, list_lookup_fmap.
  destruct (ss !! j) eqn:Hj; cbn; [|done].
  apply lookup_lt_Some in Hj. by case_decide; [|lia].
Qed.
End Loop.

(** The loop of lines 178-181 clears every comment of every sheet. *)
Lemma clean_comments_sheets wb :
  wb_sheets (clean_comments wb) = map (map (map uncomment)) (wb_sheets wb).
Proof.
  unfold clean_comments. rewrite (fold_active_sheets (map (map uncomment))); [|done].
  apply fold_alter_all.
Qed.

(** C16. The preparation of the workbook in [init] (lines 176-184) is,
    with [--cleancomments], the map clearing the comment of every cell of
    every sheet, and without it the identity on the sheets; whichever
    sheet the loop left active, the sheet of [--sheetindex] is the active
    one at the end. *)
Theorem init_book_spec cc idx wb :
  init_book cc idx wb =
  mkWorkbook (if cc then map (map (map uncomment)) (wb_sheets wb) else wb_sheets wb) idx.
Proof.
  unfold init_book, set_active. destruct cc; [|done]. cbn. by rewrite clean_comments_sheets.
Qed.


(** The copy [test_spreadsheet_file] saves with [--cleancomments] has no
    comment left, the case in which its reload is expected to succeed
    ([SheetCheck.bio_reload] with [true]). *)
Lemma test_book_no_comments idx book : no_comments (test_book true idx book).
Proof.
  unfold no_comments, test_book, set_active. cbn. rewrite clean_comments_sheets.
  apply Forall_forall. intros s (s0 & <- & _)%list_elem_of_In%in_map_iff.
  apply Forall_forall. intros row (r0 & <- & _)%list_elem_of_In%in_map_iff.
  apply Forall_forall. intros c (c0 & <- & _)%list_elem_of_In%in_map_iff. done.
Qed.
