(* ===== verification/Quota.v ===== *)
(** * Quota: the rate-limit arithmetic of [Mail_sender._update_quotas]

    An account's JSON dictionary ([account]) and the pure functions that
    [_update_quotas] (sheetmail.py lines 42-65) applies to it: the window
    check and rollover (lines 43-47), the decrement after a send (lines
    50-51) and the computation of [next_send] in fixed pacing (lines
    54-58, Python 2 integer division) and adaptive pacing (lines 59-65).
    The stateful method itself, with its persistence callback, is
    [Sender._update_quotas]; [Sender._update_quotas_ok] shows it applies
    exactly these functions.

    A [tracker] is what one sender keeps of its quota: the dictionary
    and [self.next_send].  [paced] runs a sequence of send requests
    through it the way [Excel_Mail_Sender.run] does, each send waiting
    until [next_send] (lines 227-231).  The theorems give the functional
    behaviour of each branch, the invariants, quota safety of adaptive
    pacing, and the overrun of fixed pacing. *)

From S2P Require Import Prelude.

(** ** The account dictionary (one element of [mail_user] in the JSON file) *)
Record account := mkAccount {
  host : string;
  port : Z;
  username : string;
  password : string;
  sender_addr : string;
  user_ssl : bool;
  timeframe : Z;
  timeframe_end : Z;
  allowed_requests : Z;
  remaining_requests : Z;
  update_config : bool;
  use_fixed_delay : bool
}.

(** [config['timeframe_end'] = e; config['remaining_requests'] = r] *)
Definition set_window (a : account) (e r : Z) : account :=
  {| host := host a; port := port a; username := username a;
     password := password a; sender_addr := sender_addr a;
     user_ssl := user_ssl a; timeframe := timeframe a;
     timeframe_end := e; allowed_requests := allowed_requests a;
     remaining_requests := r; update_config := update_config a;
     use_fixed_delay := use_fixed_delay a |}.

(** Line 44: [if curtime >= self.config['timeframe_end']]. *)
Definition window_expired (a : account) (t : Z) : bool :=
  (timeframe_end a <=? t)%Z.

(** Lines 45-46: a new window starts now with the full allowance. *)
Definition rollover (a : account) (t : Z) : account :=
  set_window a (t + timeframe a)%Z (allowed_requests a).

(** Lines 44-46. *)
Definition window_check (a : account) (t : Z) : account :=
  if window_expired a t then rollover a t else a.

(** Line 51: [remaining_requests -= 1], with no check that a send was
    allowed (the TODO of line 49). *)
Definition count_send (a : account) : account :=
  set_window a (timeframe_end a) (remaining_requests a - 1)%Z.

(** Lines 43-51: the dictionary after [_update_quotas(mail_send)] at
    time [t]. *)
Definition quota_counters (a : account) (t : Z) (mail_send : bool) : account :=
  let a1 := window_check a t in
  if mail_send then count_send a1 else a1.

(** Lines 54-65, on the dictionary [a] after the counters were updated:
    the new [next_send], or [None] when line 56 raises
    [ZeroDivisionError] ([allowed_requests] is 0).  In Python 2 the
    quotient of line 56 is an integer floor division, so the [ceil] there
    has no effect; in line 61 [curtime] is a float and the division is a
    true division. *)
Definition next_send_after (a : account) (t : Z) (mail_send : bool) : option Z :=
  if use_fixed_delay a then
    if mail_send then
      if (allowed_requests a =? 0)%Z then None
      else Some (t + timeframe a / allowed_requests a)%Z
    else Some t
  else if (0 <? remaining_requests a)%Z then
    Some (t + (if mail_send
               then ceil_div (timeframe_end a - t) (remaining_requests a)
               else 0))%Z
  else Some (timeframe_end a).

(** ** A sender's quota state and paced sends *)

(** The dictionary and [self.next_send]. *)
Definition tracker : Type := account * Z.

(** [Mail_sender.__init__] (lines 39-40): [next_send = 0], then
    [_update_quotas(mail_send=False)], which never divides. *)
Definition tracker_init (a : account) (t : Z) : tracker :=
  let a' := quota_counters a t false in
  (a', default t (next_send_after a' t false)).

(** One successful send at time [t] (line 99). *)
Definition tracker_send (tr : tracker) (t : Z) : option tracker :=
  let a' := quota_counters tr.1 t true in
  match next_send_after a' t true with
  | Some n => Some (a', n)
  | None => None
  end.

(** The time at which [run] sends a mail requested at [t]: it sleeps
    until [next_send] when that is later (lines 228-231). *)
Definition send_time (tr : tracker) (t : Z) : Z := Z.max t tr.2.

(** The trackers reached by a sequence of requests, each sent at its
    [send_time]; the run stops where a send raises. *)
Fixpoint paced (tr : tracker) (ts : list Z) : list tracker :=
  match ts with
  | [] => []
  | t :: ts' =>
      match tracker_send tr (send_time tr t) with
      | Some tr' => tr' :: paced tr' ts'
      | None => []
      end
  end.

(** ** Functional behaviour of each branch *)

Lemma window_check_expired a t :
  window_expired a t = true ->
  timeframe_end (window_check a t) = (t + timeframe a)%Z /\
  remaining_requests (window_check a t) = allowed_requests a.
Proof. unfold window_check. intros ->. split; reflexivity. Qed.

Lemma window_check_live a t :
  window_expired a t = false -> window_check a t = a.
Proof. unfold window_check. intros ->. reflexivity. Qed.

Lemma set_window_fields a e r :
  timeframe (set_window a e r) = timeframe a /\
  allowed_requests (set_window a e r) = allowed_requests a /\
  use_fixed_delay (set_window a e r) = use_fixed_delay a /\
  update_config (set_window a e r) = update_config a.
Proof. repeat split. Qed.

Lemma quota_counters_static a t ms :
  timeframe (quota_counters a t ms) = timeframe a /\
  allowed_requests (quota_counters a t ms) = allowed_requests a /\
  use_fixed_delay (quota_counters a t ms) = use_fixed_delay a /\
  update_config (quota_counters a t ms) = update_config a.
Proof.
  unfold quota_counters, window_check, count_send, rollover.
  destruct (window_expired a t), ms; repeat split.
Qed.

(** The window and counter after a send at [t]: a fresh window when the
    old one had ended, then one request fewer. *)
Lemma quota_counters_send a t :
  timeframe_end (quota_counters a t true) =
    (if window_expired a t then t + timeframe a else timeframe_end a)%Z /\
  remaining_requests (quota_counters a t true) =
    ((if window_expired a t then allowed_requests a else remaining_requests a) - 1)%Z.
Proof.
  unfold quota_counters, window_check, count_send, rollover.
  destruct (window_expired a t); split; reflexivity.
Qed.

Lemma tracker_send_adaptive tr t :
  use_fixed_delay tr.1 = false ->
  exists tr', tracker_send tr t = Some tr'.
Proof.
  intros Hf. unfold tracker_send, next_send_after.
  destruct (quota_counters_static tr.1 t true) as (_ & _ & -> & _).
  rewrite Hf. destruct (0 <? _)%Z; eauto.
Qed.

(** ** Invariants *)

(** The bookkeeping invariant of spec.md section 3. *)
Definition remaining_le_allowed (a : account) : Prop :=
  (remaining_requests a <= allowed_requests a)%Z.

(** Adaptive pacing keeps the counter non-negative and, when it is 0,
    defers the next send to the end of the window. *)
Definition adaptive_inv (tr : tracker) : Prop :=
  use_fixed_delay tr.1 = false /\
  (1 <= allowed_requests tr.1)%Z /\
  (0 <= remaining_requests tr.1)%Z /\
  (remaining_requests tr.1 = 0 -> timeframe_end tr.1 <= tr.2)%Z.

Lemma adaptive_inv_send tr t tr' :
  adaptive_inv tr -> (tr.2 <= t)%Z -> tracker_send tr t = Some tr' ->
  adaptive_inv tr'.
Proof.
  intros (Hf & Ha & Hr & Hz) Ht. unfold tracker_send, next_send_after.
  destruct (quota_counters_static tr.1 t true) as (_ & Hal & Hfx & _).
  destruct (quota_counters_send tr.1 t) as [He Hrem].
  set (a' := quota_counters tr.1 t true) in *; clearbody a'.
  rewrite Hfx, Hf. unfold window_expired in *.
  destruct (0 <? remaining_requests a')%Z eqn:Hp;
    intros [= <-]; unfold adaptive_inv; cbn [fst snd]; rewrite Hfx, Hal;
    repeat split; try easy; rewrite Hrem in *; rewrite ?He;
    destruct (timeframe_end tr.1 <=? t)%Z eqn:Hw; lia.
Qed.

Lemma adaptive_inv_init a t :
  use_fixed_delay a = false -> (1 <= allowed_requests a)%Z ->
  (0 <= remaining_requests a)%Z -> adaptive_inv (tracker_init a t).
Proof.
  intros Hf Ha Hr. unfold tracker_init, next_send_after, quota_counters, window_check, rollover.
  unfold adaptive_inv. simpl.
  destruct (window_expired a t); simpl; rewrite Hf;
    destruct (0 <? _)%Z eqn:Hp; simpl; repeat split; try easy; lia.
Qed.

Lemma send_time_ge tr t : (tr.2 <= send_time tr t)%Z.
Proof. unfold send_time. lia. Qed.

#[export] Hint Resolve send_time_ge : sheetmail.

(** A tracker invariant that every send at or after [next_send]
    preserves, and under which a send never raises, holds of every state
    of a paced run, and then every request is sent. *)
Section PacedInvariant.
Context (I : tracker -> Prop).
Hypothesis send_ok : forall tr t,
  I tr -> (tr.2 <= t)%Z -> exists tr', tracker_send tr t = Some tr' /\ I tr'.

Lemma paced_forall tr ts :
  I tr -> Forall I (paced tr ts) /\ length (paced tr ts) = length ts.
Proof.
  revert tr. induction ts as [|t ts IH]; intros tr Hinv; simpl; [by split|].
  destruct (send_ok tr (send_time tr t) Hinv (send_time_ge tr t)) as (tr' & -> & Hinv').
  destruct (IH tr' Hinv') as [Hall Hlen]. split; [by constructor | simpl; lia].
Qed.
End PacedInvariant.

Lemma adaptive_send_ok tr t :
  adaptive_inv tr -> (tr.2 <= t)%Z ->
  exists tr', tracker_send tr t = Some tr' /\ adaptive_inv tr'.
Proof.
  intros Hinv Ht. destruct (tracker_send_adaptive tr t (proj1 Hinv)) as [tr' Hs].
  exists tr'. split; [done | by eapply adaptive_inv_send].
Qed.

(** Fixed pacing with delay [d = timeframe / allowed_requests]: the time
    left in the window is covered by the remaining requests at that
    cadence.  It needs the delay to cover the window, which holds exactly
    when [allowed_requests] divides [timeframe]. *)
Definition fixed_inv (tr : tracker) : Prop :=
  let a := tr.1 in
  use_fixed_delay a = true /\
  (1 <= allowed_requests a)%Z /\
  (timeframe a <= allowed_requests a * (timeframe a / allowed_requests a))%Z /\
  (0 <= remaining_requests a)%Z /\
  (timeframe_end a <= tr.2 + remaining_requests a * (timeframe a / allowed_requests a))%Z.

Lemma fixed_send_ok tr t :
  fixed_inv tr -> (tr.2 <= t)%Z ->
  exists tr', tracker_send tr t = Some tr' /\ fixed_inv tr'.
Proof.
  intros (Hf & Ha & Hd & Hr & Hcov) Ht. unfold tracker_send, next_send_after.
  destruct (quota_counters_static tr.1 t true) as (Htf & Hal & Hfx & _).
  destruct (quota_counters_send tr.1 t) as [He Hrem].
  set (a' := quota_counters tr.1 t true) in *; clearbody a'.
  rewrite Hfx, Hf, Hal. destruct (allowed_requests tr.1 =? 0)%Z eqn:Hz; [lia|].
  eexists. split; [reflexivity|].
  unfold fixed_inv; cbn [fst snd]. rewrite Hfx, Hal, Htf, Hrem, He. unfold window_expired.
  set (d := (timeframe tr.1 / allowed_requests tr.1)%Z) in *.
  destruct (Z.eq_dec (remaining_requests tr.1) 0) as [H0|H0];
    [rewrite H0 in Hcov|];
    repeat split; try done;
    destruct (Z.leb_spec (timeframe_end tr.1) t); nia.
Qed.

(** ** Quota safety *)

(** C4. Adaptive pacing never overdraws an account: from any dictionary
    with a non-negative counter and an allowance of at least one request
    (in particular one persisted by an earlier run), when every mail waits
    for [next_send] as [run] makes it, [remaining_requests] stays
    non-negative after every send, and every requested send happens. *)
Theorem adaptive_pacing_quota_safe (a : account) (t0 : Z) (ts : list Z) :
  use_fixed_delay a = false -> (1 <= allowed_requests a)%Z ->
  (0 <= remaining_requests a)%Z ->
  Forall (fun tr => 0 <= remaining_requests tr.1)%Z (paced (tracker_init a t0) ts) /\
  length (paced (tracker_init a t0) ts) = length ts.
Proof.
  intros Hf Ha Hr.
  destruct (paced_forall adaptive_inv adaptive_send_ok (tracker_init a t0) ts
              (adaptive_inv_init a t0 Hf Ha Hr)) as [Hall Hlen].
  split; [|done]. eapply Forall_impl; [exact Hall|]. by intros tr (_ & _ & ? & _).
Qed.

(** C5. Fixed pacing is safe when a window starts with the run and
    [allowed_requests] divides [timeframe]: every send happens and none
    drives [remaining_requests] below zero. *)
Theorem fixed_pacing_quota_safe (a : account) (t0 : Z) (ts : list Z) :
  use_fixed_delay a = true -> (1 <= allowed_requests a)%Z ->
  (timeframe a mod allowed_requests a = 0)%Z ->
  (timeframe_end a <= t0)%Z ->
  Forall (fun tr => 0 <= remaining_requests tr.1)%Z (paced (tracker_init a t0) ts) /\
  length (paced (tracker_init a t0) ts) = length ts.
Proof.
  intros Hf Ha Hm He.
  assert (Hinit : fixed_inv (tracker_init a t0)).
  { unfold tracker_init, quota_counters, window_check, window_expired, next_send_after.
    destruct (timeframe_end a <=? t0)%Z eqn:Hw; [|lia].
    unfold fixed_inv; simpl. rewrite Hf.
    pose proof (Z.div_mod (timeframe a) (allowed_requests a) ltac:(lia)).
    repeat split; simpl; lia. }
  destruct (paced_forall fixed_inv fixed_send_ok _ ts Hinit) as [Hall Hlen].
  split; [|done]. eapply Forall_impl; [exact Hall|]. by intros tr (_ & _ & _ & ? & _).
Qed.

(** The window check is idempotent: checking twice at the same time
    gives the same dictionary as checking once, whether or not the window
    had expired. *)
Theorem window_check_idempotent (a : account) (t : Z) :
  window_check (window_check a t) t = window_check a t.
Proof.
  unfold window_check, rollover, window_expired, set_window; simpl.
  destruct (timeframe_end a <=? t)%Z eqn:Hw; simpl.
  - destruct (t + timeframe a <=? t)%Z; reflexivity.
  - by rewrite Hw.
Qed.

(** C17. [_update_quotas] keeps the counter within the allowance: if
    [remaining_requests <= allowed_requests] before, it holds after,
    whether or not a mail was sent and whether or not the window rolled
    over. *)
Theorem quota_counters_le_allowed (a : account) (t : Z) (ms : bool) :
  remaining_le_allowed a -> remaining_le_allowed (quota_counters a t ms).
Proof.
  unfold remaining_le_allowed, quota_counters, window_check, count_send, rollover.
  destruct (window_expired a t), ms; simpl; lia.
Qed.

(** ** Functional behaviour of a send in each pacing mode *)

(** Fixed pacing: a send at [t] sets [next_send] to
    [t + timeframe / allowed_requests], with Python 2's floor division,
    independently of the load; with an allowance of 0 the division raises
    [ZeroDivisionError]. *)
Theorem fixed_pacing_next (a : account) (n t : Z) :
  use_fixed_delay a = true ->
  tracker_send (a, n) t =
    if (allowed_requests a =? 0)%Z then None
    else Some (quota_counters a t true, t + timeframe a / allowed_requests a)%Z.
Proof.
  intros Hf. unfold tracker_send, next_send_after; cbn [fst].
  destruct (quota_counters_static a t true) as (-> & -> & -> & _).
  rewrite Hf. by destruct (allowed_requests a =? 0)%Z.
Qed.

(** C19. Adaptive pacing spreads the rest of the allowance evenly over
    the rest of the window: after a send at [t] that leaves [r > 0]
    requests in a window ending after [t], sending every [next_send - t]
    seconds uses the [r] requests no earlier than the end of the window,
    and less than [r] seconds after it; with no request left, the next
    send waits for the end of the window. *)
Theorem adaptive_spreads_budget (a : account) (n t : Z) (tr' : tracker) :
  use_fixed_delay a = false -> tracker_send (a, n) t = Some tr' ->
  let r := remaining_requests tr'.1 in
  let e := timeframe_end tr'.1 in
  (0 < r -> t < e -> e <= t + r * (tr'.2 - t) < e + r)%Z /\
  (r <= 0 -> tr'.2 = e)%Z.
Proof.
  intros Hf. unfold tracker_send, next_send_after; cbn [fst].
  destruct (quota_counters_static a t true) as (_ & _ & Hfx & _).
  set (a' := quota_counters a t true) in *; clearbody a'.
  rewrite Hfx, Hf. intros Hs.
  destruct (0 <? remaining_requests a')%Z eqn:Hp; injection Hs as <-; cbn [fst snd].
  - apply Z.ltb_lt in Hp. split; [|lia]. intros _ Ht.
    replace (t + ceil_div (timeframe_end a' - t) (remaining_requests a') - t)%Z
      with (ceil_div (timeframe_end a' - t) (remaining_requests a')) by lia.
    pose proof (ceil_div_lower (timeframe_end a' - t) _ Hp).
    pose proof (ceil_div_upper (timeframe_end a' - t) _ Hp). lia.
  - apply Z.ltb_ge in Hp. split; [lia | done].
Qed.

(** ** Fixed pacing on a queue of mails *)

(** The state of a fixed-pacing run after [j] sends into a window ending
    at [e] that held [r] requests, the first send at [n]: [j] requests
    fewer, and the next send [j] delays [timeframe / allowed_requests]
    after [n]. *)
Definition burst (a : account) (e r n : Z) (j : nat) : tracker :=
  (set_window a e (r - Z.of_nat j), n + Z.of_nat j * (timeframe a / allowed_requests a))%Z.

Lemma burst_0 a e r n : (set_window a e r, n) = burst a e r n 0.
Proof. unfold burst. f_equal; [f_equal|]; lia. Qed.

(** [k] delays of [timeframe / allowed_requests] (floor) fit strictly in
    the window for [k] below the allowance, and also for [k] equal to it
    when the allowance does not divide the window. *)
Lemma fixed_delay_fits a k :
  (1 <= allowed_requests a)%Z -> (0 < timeframe a)%Z -> (0 <= k)%Z ->
  (k < allowed_requests a \/ k <= allowed_requests a /\ timeframe a mod allowed_requests a <> 0)%Z ->
  (k * (timeframe a / allowed_requests a) < timeframe a)%Z.
Proof.
  intros Ha Htf Hk Hcase.
  pose proof (Z.div_mod (timeframe a) (allowed_requests a) ltac:(lia)).
  pose proof (Z.mod_pos_bound (timeframe a) (allowed_requests a) ltac:(lia)).
  pose proof (Z.div_pos (timeframe a) (allowed_requests a) ltac:(lia) ltac:(lia)).
  destruct Hcase as [Hlt | [Hle Hm]]; nia.
Qed.

Section Burst.
Context (a : account) (e r n t : Z).
Hypothesis Hfixed : use_fixed_delay a = true.
Hypothesis Hallowed : (1 <= allowed_requests a)%Z.
Hypothesis Htf : (0 <= timeframe a)%Z.
Hypothesis Hreq : (t <= n)%Z.

(** A mail requested at [t] leaves at [next_send] and, inside the
    window, moves the run one step on. *)
Lemma burst_send j :
  (n + Z.of_nat j * (timeframe a / allowed_requests a) < e)%Z ->
  tracker_send (burst a e r n j) (send_time (burst a e r n j) t) = Some (burst a e r n (S j)).
Proof.
  intros Hin. pose proof (Z.div_pos (timeframe a) (allowed_requests a) Htf ltac:(lia)).
  unfold send_time, burst at 1 2. rewrite fixed_pacing_next by exact Hfixed. cbn [fst snd allowed_requests timeframe set_window].
  destruct (allowed_requests a =? 0)%Z eqn:Hz; [lia|].
  rewrite Z.max_r by nia.
  unfold quota_counters, window_check, window_expired. cbn [timeframe_end set_window].
  destruct (e <=? n + Z.of_nat j * (timeframe a / allowed_requests a))%Z eqn:Hw; [lia|].
  unfold burst, count_send. cbn. f_equal. f_equal; [f_equal|]; lia.
Qed.

Lemma paced_burst m : forall j,
  (forall k, (j <= k < j + m)%nat -> (n + Z.of_nat k * (timeframe a / allowed_requests a) < e)%Z) ->
  paced (burst a e r n j) (repeat t m) = map (burst a e r n) (seq (S j) m).
Proof.
  induction m as [|m IH]; intros j Hin; [done|]. cbn [repeat paced].
  rewrite burst_send by (apply Hin; lia). cbn. f_equal. apply IH. intros k Hk. apply Hin. lia.
Qed.
End Burst.

(** A run that starts after the window ended opens a new one. *)
Lemma tracker_init_fixed a t0 :
  use_fixed_delay a = true -> (timeframe_end a <= t0)%Z ->
  tracker_init a t0 = burst a (t0 + timeframe a) (allowed_requests a) t0 0.
Proof.
  intros Hf He. unfold tracker_init, quota_counters, window_check, window_expired.
  destruct (timeframe_end a <=? t0)%Z eqn:Hw; [|lia].
  unfold next_send_after, rollover. cbn. rewrite Hf. cbn. apply burst_0.
Qed.

(** A run that starts inside the window keeps the dictionary, and its
    first send may leave at once. *)
Lemma tracker_init_live a t :
  window_expired a t = false -> use_fixed_delay a = true -> tracker_init a t = (a, t).
Proof.
  intros Hw Hf. unfold tracker_init, quota_counters. rewrite window_check_live by done.
  unfold next_send_after. by rewrite Hf.
Qed.

Lemma last_map_seq {A} (f : nat -> A) s j x : (1 <= j)%nat -> List.last (map f (seq s j)) x = f (s + j - 1)%nat.
Proof.
  intros Hj. destruct j as [|j]; [lia|]. rewrite seq_S, map_app. cbn [map]. rewrite List.last_last. f_equal. lia.
Qed.

(** ** Concrete accounts and runs *)

Definition example_account (fixed : bool) (tf allowed : Z) : account :=
  {| host := "smtp.example.org"; port := 465; username := "mailer";
     password := "secret"; sender_addr := "mailer@example.org"; user_ssl := true;
     timeframe := tf; timeframe_end := 0; allowed_requests := allowed;
     remaining_requests := allowed; update_config := true;
     use_fixed_delay := fixed |}.

(** The (next_send, remaining_requests) pairs of a run. *)
Definition pacing_trace (trs : list tracker) : list (Z * Z) :=
  map (fun tr => (tr.2, remaining_requests tr.1)) trs.

(** Scenario 1 of spec.md section 8: adaptive pacing, 3 requests per 60
    seconds, three mails queued at time 0: they leave at 0, 30 and 60,
    and the third opens a new window. *)
Example adaptive_scenario :
  pacing_trace (paced (tracker_init (example_account false 60 3) 0) [0; 0; 0]%Z) =
  [(30, 2); (60, 1); (90, 2)]%Z.
Proof. reflexivity. Qed.

(** Scenario 2 of spec.md section 8: fixed pacing, 3 requests per 60
    seconds: a constant cadence of 20 seconds. *)
Example fixed_scenario :
  pacing_trace (paced (tracker_init (example_account true 60 3) 0) [0; 0; 0; 0]%Z) =
  [(20, 2); (40, 1); (60, 0); (80, 2)]%Z.
Proof. reflexivity. Qed.

(** C6. Fixed pacing overdraws every account whose allowance does not
    divide its window: Python 2 computes the delay of line 56 as the
    floor [d = timeframe / allowed_requests] (spec.md: the ceiling), so
    [allowed_requests] delays fall short of the window.  When
    [allowed_requests + 1] mails are queued as a window starts at [t0],
    the [k]-th leaves at [t0 + k * d], every one of them inside that
    window, and the last drives [remaining_requests] to -1. *)
Theorem fixed_pacing_overruns_quota (a : account) (t0 : Z) :
  use_fixed_delay a = true -> (1 <= allowed_requests a)%Z -> (0 < timeframe a)%Z ->
  (timeframe a mod allowed_requests a <> 0)%Z -> (timeframe_end a <= t0)%Z ->
  let d := (timeframe a / allowed_requests a)%Z in
  let trs := paced (tracker_init a t0) (repeat t0 (S (Z.to_nat (allowed_requests a)))) in
  pacing_trace trs =
    map (fun k => (t0 + (Z.of_nat k + 1) * d, allowed_requests a - 1 - Z.of_nat k)%Z)
        (seq 0 (S (Z.to_nat (allowed_requests a)))) /\
  Forall (fun tr => timeframe_end tr.1 = t0 + timeframe a)%Z trs /\
  Exists (fun tr => remaining_requests tr.1 < 0)%Z trs.
Proof.
  intros Hf Ha Htf Hm He d trs. pose proof (fixed_delay_fits a) as Hfits.
  assert (Htrs : trs = map (burst a (t0 + timeframe a) (allowed_requests a) t0)
                           (seq 1 (S (Z.to_nat (allowed_requests a))))).
  { unfold trs. rewrite tracker_init_fixed by done.
    apply paced_burst; [done | done | lia | lia |]. intros k Hk. apply Z.add_lt_mono_l, Hfits; lia. }
  rewrite Htrs. split; [|split].
  - unfold pacing_trace. rewrite <- seq_shift, !map_map. apply map_ext. intros k.
    unfold burst, d. cbn [fst snd remaining_requests set_window]. f_equal; lia.
  - apply Forall_forall. intros tr (k & <- & _)%list_elem_of_In%in_map_iff. reflexivity.
  - apply List.Exists_exists. exists (burst a (t0 + timeframe a) (allowed_requests a) t0
                                       (S (Z.to_nat (allowed_requests a)))).
    split; [apply in_map, in_seq; lia | cbn; lia].
Qed.

(** C20. Fixed pacing also overdraws across a restart, whatever the
    allowance, because [next_send] is not persisted: after a first run
    sent [j] mails from the start [t0] of a window, a run restarted
    before the [next_send] that run had computed starts with
    [next_send] equal to the time of the restart and the persisted
    counter; with enough mails queued it sends
    [allowed_requests - j + 1] more inside the same window, and the
    counter reaches -1. *)
Theorem fixed_pacing_restart_overruns (a : account) (t0 t1 : Z) (j : nat) :
  use_fixed_delay a = true -> (1 <= allowed_requests a)%Z -> (0 < timeframe a)%Z ->
  (timeframe_end a <= t0)%Z -> (1 <= j)%nat -> (Z.of_nat j <= allowed_requests a)%Z ->
  (t0 <= t1 < t0 + Z.of_nat j * (timeframe a / allowed_requests a))%Z ->
  let first := paced (tracker_init a t0) (repeat t0 j) in
  let persisted := (List.last first (tracker_init a t0)).1 in
  let m := S (Z.to_nat (allowed_requests a) - j) in
  let second := paced (tracker_init persisted t1) (repeat t1 m) in
  length first = j /\ length second = m /\
  Forall (fun tr => timeframe_end tr.1 = t0 + timeframe a)%Z (first ++ second) /\
  Exists (fun tr => remaining_requests tr.1 < 0)%Z second.
Proof.
  intros Hf Ha Htf He Hj Hja Ht1 first persisted m second.
  pose proof (fixed_delay_fits a) as Hfits.
  pose proof (Z.div_pos (timeframe a) (allowed_requests a) ltac:(lia) ltac:(lia)).
  pose proof (Z.mul_div_le (timeframe a) (allowed_requests a) ltac:(lia)).
  set (e := (t0 + timeframe a)%Z).
  assert (Hfirst : first = map (burst a e (allowed_requests a) t0) (seq 1 j)).
  { unfold first. rewrite tracker_init_fixed by done.
    apply paced_burst; [done | done | lia | lia |]. intros k Hk. apply Z.add_lt_mono_l, Hfits; lia. }
  assert (Hpers : persisted = set_window a e (allowed_requests a - Z.of_nat j)).
  { unfold persisted. rewrite Hfirst, last_map_seq by lia. by replace (1 + j - 1)%nat with j by lia. }
  assert (Hsecond : second = map (burst a e (allowed_requests a - Z.of_nat j) t1) (seq 1 m)).
  { unfold second. rewrite Hpers, tracker_init_live.
    - rewrite burst_0. apply paced_burst; [done | done | lia | lia |].
      intros k Hk. unfold m in Hk.
      assert (Hkj : (Z.of_nat k + Z.of_nat j <= allowed_requests a)%Z) by lia.
      pose proof (Z.mul_le_mono_nonneg_r _ _ (timeframe a / allowed_requests a) ltac:(lia) Hkj). nia.
    - unfold window_expired. cbn. apply Z.leb_gt.
      pose proof (Z.mul_le_mono_nonneg_r _ _ (timeframe a / allowed_requests a) ltac:(lia) Hja). nia.
    - done. }
  rewrite Hfirst, Hsecond, !length_map, !length_seq. split; [done|]. split; [done|]. split.
  - apply Forall_app. split; apply Forall_forall; intros tr (k & <- & _)%list_elem_of_In%in_map_iff;
      reflexivity.
  - apply List.Exists_exists. exists (burst a e (allowed_requests a - Z.of_nat j) t1 m).
    split; [apply in_map, in_seq; lia | unfold m; cbn; lia].
Qed.

Lemma adaptive_pacing_quota_safe_witness :
  use_fixed_delay (example_account false 60 3) = false /\
  (1 <= allowed_requests (example_account false 60 3))%Z /\
  (0 <= remaining_requests (example_account false 60 3))%Z /\
  Forall (fun tr => 0 <= remaining_requests tr.1)%Z
    (paced (tracker_init (example_account false 60 3) 0) [0; 0; 0; 0; 0]%Z) /\
  length (paced (tracker_init (example_account false 60 3) 0) [0; 0; 0; 0; 0]%Z) = 5.
Proof.
  refine (conj eq_refl (conj _ (conj _ _))); [simpl; lia | simpl; lia |].
  apply adaptive_pacing_quota_safe; simpl; [reflexivity | lia | lia].
Defined.

Lemma fixed_pacing_quota_safe_witness :
  use_fixed_delay (example_account true 60 3) = true /\
  (1 <= allowed_requests (example_account true 60 3))%Z /\
  (timeframe (example_account true 60 3) mod allowed_requests (example_account true 60 3) = 0)%Z /\
  (timeframe_end (example_account true 60 3) <= 0)%Z /\
  Forall (fun tr => 0 <= remaining_requests tr.1)%Z
    (paced (tracker_init (example_account true 60 3) 0) [0; 0; 0; 0; 0]%Z) /\
  length (paced (tracker_init (example_account true 60 3) 0) [0; 0; 0; 0; 0]%Z) = 5.
Proof.
  refine (conj eq_refl (conj _ (conj eq_refl (conj _ _)))); [simpl; lia | simpl; lia |].
  apply fixed_pacing_quota_safe; simpl; [reflexivity | lia | reflexivity | lia].
Defined.

Lemma adaptive_spreads_budget_witness :
  use_fixed_delay (example_account false 60 3) = false /\
  tracker_send (example_account false 60 3, 0%Z) 0 =
    Some (quota_counters (example_account false 60 3) 0 true, 30%Z) /\
  (60 <= 0 + 2 * (30 - 0) < 60 + 2)%Z.
Proof.
  refine (conj eq_refl (conj eq_refl _)).
  apply (adaptive_spreads_budget (example_account false 60 3) 0 0 _ eq_refl eq_refl);
    simpl; lia.
Defined.

Lemma quota_counters_le_allowed_witness :
  remaining_le_allowed (example_account false 60 3) /\
  remaining_le_allowed (quota_counters (example_account false 60 3) 100 true).
Proof.
  split; [unfold remaining_le_allowed; simpl; lia|].
  apply quota_counters_le_allowed. unfold remaining_le_allowed; simpl; lia.
Defined.

Lemma fixed_pacing_overruns_quota_witness :
  let a := example_account true 60 7 in
  let trs := paced (tracker_init a 0) (repeat 0%Z 8) in
  pacing_trace trs =
    [(8, 6); (16, 5); (24, 4); (32, 3); (40, 2); (48, 1); (56, 0); (64, -1)]%Z /\
  Forall (fun tr => timeframe_end tr.1 = 60%Z) trs /\
  Exists (fun tr => remaining_requests tr.1 < 0)%Z trs.
Proof.
  intros a trs.
  pose proof (fixed_pacing_overruns_quota a 0 eq_refl ltac:(simpl; lia) ltac:(simpl; lia)
                ltac:(vm_compute; discriminate) ltac:(simpl; lia)) as (Htr & Hend & Hex).
  split; [exact Htr | split; [exact Hend | exact Hex]].
Defined.

Lemma fixed_pacing_restart_overruns_witness :
  let a := example_account true 60 3 in
  let first := paced (tracker_init a 0) (repeat 0%Z 2) in
  let second := paced (tracker_init (List.last first (tracker_init a 0)).1 25) (repeat 25%Z 2) in
  pacing_trace first = [(20, 2); (40, 1)]%Z /\
  pacing_trace second = [(45, 0); (65, -1)]%Z /\
  Forall (fun tr => timeframe_end tr.1 = 60%Z) (first ++ second) /\
  Exists (fun tr => remaining_requests tr.1 < 0)%Z second.
Proof.
  intros a first second.
  pose proof (fixed_pacing_restart_overruns a 0 25 2 eq_refl ltac:(simpl; lia) ltac:(simpl; lia)
                ltac:(simpl; lia) ltac:(lia) ltac:(simpl; lia) ltac:(vm_compute; split; [discriminate | reflexivity])) as (_ & _ & Hend & Hex).
  split; [reflexivity | split; [reflexivity | split; [exact Hend | exact Hex]]].
Defined.
