(* ===== verification/World.v ===== *)
(** * World: the heap and the environment of sheetmail

    The state every method of the program reads and writes:
    - the heap of account dictionaries ([dicts]): the elements of
      [server_config['mail_user']] after [json.load], shared by reference
      with the [Mail_sender] objects ([self.config = server_config],
      sheetmail.py line 34) and dumped whole by [_persist_config]
      (lines 204-208);
    - the heap of [Mail_sender] objects ([objs]) with their identities
      ([obj_id], Python's [id()], which orders objects that compare
      equal otherwise);
    - the active worksheet ([cells], 0-based (row, column) to value; its
      dimensions [dims]), the last saved workbook ([saved]) and the last
      persisted configuration ([config_file]);
    - the clock, advanced by [sleep] only;
    - the SMTP servers: the script of [replies], one consumed by every
      smtplib call, and the [trace] of calls and sleeps made.
    Each primitive is a [PyM world] computation; the lemmas say what each
    changes and what it leaves alone. *)

From S2P Require Import Prelude Quota.

(** ** [Mail_sender] objects (lines 27-40) *)
Record mail_sender := mkMailSender {
  ms_host : string;
  ms_port : Z;
  ms_username : string;
  ms_password : string;
  ms_sender : string;
  ms_use_ssl : bool;
  (** [self.config]: a reference into the heap of dictionaries. *)
  ms_config : nat;
  ms_nosend : bool;
  ms_connected : bool;
  (** [self.quota_persist]: [Some refs] is the bound method
      [_persist_config] of the owner whose [mail_user] list holds the
      dictionaries [refs]; [None] is Python's [None] ([test_mail]). *)
  ms_quota_persist : option (list nat);
  ms_next_send : Z;
  (** Whether [self.server] has been assigned. *)
  ms_server : bool
}.

(** ** The SMTP environment *)

Inductive smtp_op :=
| OpOpen (ssl : bool) (host : string) (port : Z)
| OpEhlo
| OpStarttls
| OpLogin (user password : string)
| OpSendmail (from : string) (to : list string) (subject body : cell)
| OpQuit.

(** What the server (or the user) does with one call: succeed, accept
    the mail for some recipients only ([sendmail] then returns the
    refused ones instead of raising), or raise. *)
Inductive reply :=
| ROk
| RSomeRefused (rcpts : list string)
| RRaise (e : exn).

Inductive event :=
| EvSmtp (obj : nat) (op : smtp_op)
| EvSleep (d : Z).

Record world := mkWorld {
  clock : Z;
  dicts : list account;
  objs : list mail_sender;
  obj_id : nat -> Z;
  cells : gmap (nat * nat) cell;
  dims : nat * nat;
  saved : option (gmap (nat * nat) cell);
  config_file : option (list account);
  replies : list reply;
  trace : list event
}.

Abbreviation M := (PyM world).

(** ** Heap access *)

Definition dummy_sender : mail_sender :=
  mkMailSender "" 0 "" "" "" false 0 false false None 0 false.
Definition dummy_account : account :=
  mkAccount "" 0 "" "" "" false 0 0 0 0 false false.

Definition obj (w : world) (i : nat) : mail_sender := default dummy_sender (objs w !! i).
Definition dict (w : world) (r : nat) : account := default dummy_account (dicts w !! r).

Definition with_objs (w : world) (os : list mail_sender) : world :=
  {| clock := clock w; dicts := dicts w; objs := os; obj_id := obj_id w;
     cells := cells w; dims := dims w; saved := saved w;
     config_file := config_file w; replies := replies w; trace := trace w |}.

Definition with_dicts (w : world) (ds : list account) : world :=
  {| clock := clock w; dicts := ds; objs := objs w; obj_id := obj_id w;
     cells := cells w; dims := dims w; saved := saved w;
     config_file := config_file w; replies := replies w; trace := trace w |}.

Definition with_io (w : world) (c : Z) (rs : list reply) (tr : list event) : world :=
  {| clock := c; dicts := dicts w; objs := objs w; obj_id := obj_id w;
     cells := cells w; dims := dims w; saved := saved w;
     config_file := config_file w; replies := rs; trace := tr |}.

Definition with_files (w : world) (cs : gmap (nat * nat) cell)
    (sv : option (gmap (nat * nat) cell)) (cf : option (list account)) : world :=
  {| clock := clock w; dicts := dicts w; objs := objs w; obj_id := obj_id w;
     cells := cs; dims := dims w; saved := sv;
     config_file := cf; replies := replies w; trace := trace w |}.

(** [self.<attr> = ...] on object [i]. *)
Definition update_obj (i : nat) (f : mail_sender -> mail_sender) : M unit :=
  modify (fun w => with_objs w (<[i := f (obj w i)]> (objs w))).

(** [self.config[...] = ...] through the reference [r]. *)
Definition update_dict (r : nat) (f : account -> account) : M unit :=
  modify (fun w => with_dicts w (<[r := f (dict w r)]> (dicts w))).

Definition set_connected (b : bool) (s : mail_sender) : mail_sender :=
  {| ms_host := ms_host s; ms_port := ms_port s; ms_username := ms_username s;
     ms_password := ms_password s; ms_sender := ms_sender s;
     ms_use_ssl := ms_use_ssl s; ms_config := ms_config s;
     ms_nosend := ms_nosend s; ms_connected := b;
     ms_quota_persist := ms_quota_persist s; ms_next_send := ms_next_send s;
     ms_server := ms_server s |}.

Definition set_next_send (n : Z) (s : mail_sender) : mail_sender :=
  {| ms_host := ms_host s; ms_port := ms_port s; ms_username := ms_username s;
     ms_password := ms_password s; ms_sender := ms_sender s;
     ms_use_ssl := ms_use_ssl s; ms_config := ms_config s;
     ms_nosend := ms_nosend s; ms_connected := ms_connected s;
     ms_quota_persist := ms_quota_persist s; ms_next_send := n;
     ms_server := ms_server s |}.

Definition set_server (s : mail_sender) : mail_sender :=
  {| ms_host := ms_host s; ms_port := ms_port s; ms_username := ms_username s;
     ms_password := ms_password s; ms_sender := ms_sender s;
     ms_use_ssl := ms_use_ssl s; ms_config := ms_config s;
     ms_nosend := ms_nosend s; ms_connected := ms_connected s;
     ms_quota_persist := ms_quota_persist s; ms_next_send := ms_next_send s;
     ms_server := true |}.

(** ** Primitives of the environment *)

(** [time.time()] *)
Definition now : M Z := gets clock.

(** [time.sleep(d)] *)
Definition sleep (d : Z) : M unit :=
  modify (fun w => with_io w (clock w + d) (replies w) (trace w ++ [EvSleep d])).

(** One smtplib call made by object [i]: it is recorded, consumes the
    next reply, and raises when the reply is an exception; an exhausted
    script answers [ROk]. *)
Definition smtp (i : nat) (op : smtp_op) : M reply :=
  fun w =>
    let r := default ROk (head (replies w)) in
    let w' := with_io w (clock w) (tail (replies w)) (trace w ++ [EvSmtp i op]) in
    match r with
    | RRaise e => (Exc e, w')
    | _ => (Ok r, w')
    end.

(** [_persist_config] (lines 204-208): the whole configuration, that is
    the current contents of every dictionary of [mail_user], is written. *)
Definition persist_config (mail_user : list nat) : M unit :=
  modify (fun w => with_files w (cells w) (saved w) (Some (map (dict w) mail_user))).

(** [self.quota_persist()]: calling [None] raises [TypeError]. *)
Definition call_quota_persist (p : option (list nat)) : M unit :=
  match p with
  | Some mail_user => persist_config mail_user
  | None => raise TypeError
  end.

(** [sheet.cell(row=r+1, column=c+1).value = v] (0-based [r], [c]). *)
Definition write_cell (r c : nat) (v : cell) : M unit :=
  modify (fun w => with_files w (<[(r, c) := v]> (cells w)) (saved w) (config_file w)).

(** [wb.save(excel_file)] *)
Definition save_workbook : M unit :=
  modify (fun w => with_files w (cells w) (Some (cells w)) (config_file w)).

Definition cell_at (w : world) (r c : nat) : cell := default CNone (cells w !! (r, c)).

(** ** Effects of the primitives *)

Lemma obj_update_same w i f :
  i < length (objs w) -> obj (with_objs w (<[i := f (obj w i)]> (objs w))) i = f (obj w i).
Proof. intros H. unfold obj at 1; simpl. by rewrite list_lookup_insert_eq. Qed.

Lemma obj_update_other w i j f :
  i <> j -> obj (with_objs w (<[i := f (obj w i)]> (objs w))) j = obj w j.
Proof. intros H. unfold obj at 1; simpl. by rewrite list_lookup_insert_ne. Qed.

Lemma dict_update_same w r f :
  r < length (dicts w) -> dict (with_dicts w (<[r := f (dict w r)]> (dicts w))) r = f (dict w r).
Proof. intros H. unfold dict at 1; simpl. by rewrite list_lookup_insert_eq. Qed.

Lemma dict_update_other w r q f :
  r <> q -> dict (with_dicts w (<[r := f (dict w r)]> (dicts w))) q = dict w q.
Proof. intros H. unfold dict at 1; simpl. by rewrite list_lookup_insert_ne. Qed.

Lemma cell_at_write w r c v r' c' :
  cell_at (with_files w (<[(r, c) := v]> (cells w)) (saved w) (config_file w)) r' c' =
  if decide ((r, c) = (r', c')) then v else cell_at w r' c'.
Proof.
  unfold cell_at; simpl. case_decide as Heq.
  - by rewrite Heq, lookup_insert_eq.
  - by rewrite lookup_insert_ne.
Qed.

#[export] Hint Rewrite obj_update_other dict_update_other using congruence : sheetmail_rw.

(** ** Cost of a computation in trace events

    [bounded_by f k m]: whatever the world, [m] only appends to the
    trace, and the events it appends weigh at most [k] under [f].  With
    [f] counting connection attempts, sends or sleeps, this bounds the
    I/O a method performs.  The combinator lemmas compose the bounds
    along the program's structure. *)

Definition bounded_by {A} (f : event -> nat) (k : nat) (m : M A) : Prop :=
  forall w, exists l, trace (snd (m w)) = trace w ++ l /\ sum_list_with f l <= k.

Section Bounded.
Context (f : event -> nat).

Lemma bounded_quiet {A} (m : M A) :
  (forall w, trace (snd (m w)) = trace w) -> bounded_by f 0 m.
Proof. intros H w. exists []. rewrite H, app_nil_r. split; [reflexivity | simpl; lia]. Qed.

Lemma bounded_ret {A} (a : A) : bounded_by f 0 (ret a).
Proof. by apply bounded_quiet. Qed.

Lemma bounded_raise {A} e : bounded_by f 0 (@raise world A e).
Proof. by apply bounded_quiet. Qed.

Lemma bounded_gets {A} (g : world -> A) : bounded_by f 0 (gets g).
Proof. by apply bounded_quiet. Qed.

Lemma bounded_get : bounded_by f 0 get.
Proof. by apply bounded_quiet. Qed.

Lemma bounded_mono {A} k k' (m : M A) : k <= k' -> bounded_by f k m -> bounded_by f k' m.
Proof. intros Hk H w. destruct (H w) as (l & ? & ?). exists l. split; [done | lia]. Qed.

Lemma bounded_bind {A B} k1 k2 k (m : M A) (h : A -> M B) :
  bounded_by f k1 m -> (forall a, bounded_by f k2 (h a)) -> k1 + k2 <= k ->
  bounded_by f k (bind m h).
Proof.
  intros Hm Hh Hk w. unfold bind. destruct (Hm w) as (l1 & Ht1 & Hl1).
  destruct (m w) as [[a|e] w1]; simpl in *.
  - destruct (Hh a w1) as (l2 & Ht2 & Hl2). exists (l1 ++ l2).
    rewrite Ht2, Ht1, app_assoc, sum_list_with_app. split; [done | lia].
  - exists l1. split; [done | lia].
Qed.

Lemma bounded_try {A} k1 k2 k (m : M A) (h : exn -> M A) :
  bounded_by f k1 m -> (forall e, bounded_by f k2 (h e)) -> k1 + k2 <= k ->
  bounded_by f k (try_ m h).
Proof.
  intros Hm Hh Hk w. unfold try_. destruct (Hm w) as (l1 & Ht1 & Hl1).
  destruct (m w) as [[a|e] w1]; simpl in *.
  - exists l1. split; [done | lia].
  - destruct (Hh e w1) as (l2 & Ht2 & Hl2). exists (l1 ++ l2).
    rewrite Ht2, Ht1, app_assoc, sum_list_with_app. split; [done | lia].
Qed.

Lemma bounded_bind_exact {A B} k1 k2 (m : M A) (h : A -> M B) :
  bounded_by f k1 m -> (forall a, bounded_by f k2 (h a)) ->
  bounded_by f (k1 + k2) (bind m h).
Proof. intros Hm Hh. by eapply bounded_bind. Qed.

Lemma bounded_try_exact {A} k1 k2 (m : M A) (h : exn -> M A) :
  bounded_by f k1 m -> (forall e, bounded_by f k2 (h e)) ->
  bounded_by f (k1 + k2) (try_ m h).
Proof. intros Hm Hh. by eapply bounded_try. Qed.

Lemma bounded_if {A} k1 k2 (b : bool) (m1 m2 : M A) :
  bounded_by f k1 m1 -> bounded_by f k2 m2 ->
  bounded_by f (Nat.max k1 k2) (if b then m1 else m2).
Proof.
  intros H1 H2. destruct b; (eapply bounded_mono; [|eassumption]); lia.
Qed.

Lemma bounded_update_obj i g : bounded_by f 0 (update_obj i g).
Proof. by apply bounded_quiet. Qed.

Lemma bounded_update_dict r g : bounded_by f 0 (update_dict r g).
Proof. by apply bounded_quiet. Qed.

Lemma bounded_modify_objs g : bounded_by f 0 (modify (fun w => with_objs w (g w))).
Proof. by apply bounded_quiet. Qed.

Lemma bounded_persist_config rs : bounded_by f 0 (persist_config rs).
Proof. by apply bounded_quiet. Qed.

Lemma bounded_call_quota_persist p : bounded_by f 0 (call_quota_persist p).
Proof. destruct p; by apply bounded_quiet. Qed.

Lemma bounded_write_cell r c v : bounded_by f 0 (write_cell r c v).
Proof. by apply bounded_quiet. Qed.

Lemma bounded_save_workbook : bounded_by f 0 save_workbook.
Proof. by apply bounded_quiet. Qed.

Lemma bounded_sleep d : bounded_by f (f (EvSleep d)) (sleep d).
Proof. intros w. exists [EvSleep d]. split; [reflexivity | simpl; lia]. Qed.

Lemma bounded_smtp i op : bounded_by f (f (EvSmtp i op)) (smtp i op).
Proof.
  intros w. exists [EvSmtp i op]. unfold smtp.
  destruct (default ROk (head (replies w))); (split; [reflexivity | simpl; lia]).
Qed.
End Bounded.

#[export] Hint Resolve bounded_ret bounded_raise bounded_gets bounded_get
  bounded_update_obj bounded_update_dict bounded_modify_objs bounded_persist_config
  bounded_call_quota_persist bounded_write_cell bounded_save_workbook
  bounded_sleep bounded_smtp : sheetmail.

(** Follows the structure of a computation, collecting the bounds of its
    parts (the methods it calls are found in the hint database), and
    closes the arithmetic. *)
Ltac bounded_solve :=
  repeat first
    [ match goal with
      | |- bounded_by ?f _ (smtp ?i ?op) =>
          let v := eval cbn in (f (EvSmtp i op)) in
          eapply (bounded_mono f (f (EvSmtp i op)) v); [cbn; lia | apply bounded_smtp]
      | |- bounded_by ?f _ (sleep ?d) =>
          let v := eval cbn in (f (EvSleep d)) in
          eapply (bounded_mono f (f (EvSleep d)) v); [cbn; lia | apply bounded_sleep]
      end
    | eassumption
    | solve [eauto with sheetmail]
    | match goal with
      | |- bounded_by _ ?k (bind _ _) => is_evar k; eapply bounded_bind_exact; [ | intros ? ]
      | |- bounded_by _ ?k (try_ _ _) => is_evar k; eapply bounded_try_exact; [ | intros ? ]
      end
    | eapply bounded_bind; [ | intros ? | ]
    | eapply bounded_try; [ | intros ? | ]
    | eapply bounded_if
    | progress case_match
    | eapply bounded_mono; [ | solve [eauto with sheetmail] ] ];
  cbn; lia.

(** The events counted by the theorems on [send_mail]. *)
Definition is_sleep (ev : event) : nat :=
  match ev with EvSleep _ => 1 | _ => 0 end.
Definition is_connect (ev : event) : nat :=
  match ev with EvSmtp _ (OpOpen _ _ _) => 1 | _ => 0 end.
Definition is_sendmail (ev : event) : nat :=
  match ev with EvSmtp _ (OpSendmail _ _ _ _) => 1 | _ => 0 end.

(** ** A concrete world for the examples: one account (adaptive pacing,
    3 requests per minute), one sender object referring to it, a sheet
    with [nrows] rows and the columns of the default command line
    (recipient 0, subject 1, body 2, status 3). *)
Definition example_sender : mail_sender :=
  mkMailSender "smtp.example.org" 465 "mailer" "secret" "mailer@example.org"
    true 0 false false (Some [0]) 0 false.

Definition example_world (rs : list reply) (cs : gmap (nat * nat) cell) (nrows : nat) : world :=
  {| clock := 0; dicts := [example_account false 60 3]; objs := [example_sender];
     obj_id := fun n => Z.of_nat n; cells := cs; dims := (nrows, 4); saved := None;
     config_file := None; replies := rs; trace := [] |}.

(** ** Computations that leave the workbook alone

    The worksheet, its dimensions and the saved file are written only by
    [write_cell] and [save_workbook]; every other primitive keeps them. *)
Definition sheet_of (w : world) : gmap (nat * nat) cell * (nat * nat) * option (gmap (nat * nat) cell) :=
  (cells w, dims w, saved w).

Definition keeps_sheet {A} (m : M A) : Prop :=
  forall c, preserves (fun w => sheet_of w = c) m.

Lemma keeps_sheet_elim {A} (m : M A) c :
  keeps_sheet m -> preserves (fun w => sheet_of w = c) m.
Proof. intros H. apply H. Qed.

Lemma keeps_sheet_modify (g : world -> world) :
  (forall w, sheet_of (g w) = sheet_of w) -> keeps_sheet (modify g).
Proof. intros Hg c w Hw. simpl. by rewrite Hg. Qed.

Lemma keeps_sheet_update_obj i g : keeps_sheet (update_obj i g).
Proof. by apply keeps_sheet_modify. Qed.

Lemma keeps_sheet_update_dict r g : keeps_sheet (update_dict r g).
Proof. by apply keeps_sheet_modify. Qed.

Lemma keeps_sheet_modify_objs g : keeps_sheet (modify (fun w => with_objs w (g w))).
Proof. by apply keeps_sheet_modify. Qed.

Lemma keeps_sheet_sleep d : keeps_sheet (sleep d).
Proof. by apply keeps_sheet_modify. Qed.

Lemma keeps_sheet_persist_config rs : keeps_sheet (persist_config rs).
Proof. by apply keeps_sheet_modify. Qed.

Lemma keeps_sheet_call_quota_persist p : keeps_sheet (call_quota_persist p).
Proof. destruct p; [by apply keeps_sheet_modify | intros c w Hw; exact Hw]. Qed.

Lemma keeps_sheet_smtp i op : keeps_sheet (smtp i op).
Proof. intros c w Hw. unfold smtp. by destruct (default ROk (head (replies w))). Qed.

#[export] Hint Resolve keeps_sheet_update_obj keeps_sheet_update_dict keeps_sheet_modify_objs
  keeps_sheet_sleep keeps_sheet_persist_config keeps_sheet_call_quota_persist
  keeps_sheet_smtp : sheetmail.

(** Follows the structure of a computation; the methods it calls are
    found in the hint database. *)
Ltac keeps_sheet_solve :=
  let c := fresh "c" in
  intros c; py_preserves_with ltac:(apply keeps_sheet_elim; eauto with sheetmail).

(** ** Which exceptions a computation raises

    [raises_only Q P m]: when every exception in the reply script
    satisfies [Q], [m] leaves such a script and raises only exceptions
    satisfying [P].  The primitives raise only through [smtp] (the
    script) and [call_quota_persist None]. *)
Definition reply_ok (Q : exn -> bool) (rp : reply) : bool :=
  match rp with RRaise e => Q e | _ => true end.

Definition script_ok (Q : exn -> bool) (w : world) : Prop :=
  Forall (fun rp => reply_ok Q rp = true) (replies w).

Definition raises_only (Q P : exn -> bool) {A} (m : M A) : Prop :=
  forall w, script_ok Q w ->
    script_ok Q (snd (m w)) /\ forall e, fst (m w) = Exc e -> P e = true.

Section RaisesOnly.
Context (Q : exn -> bool).

Lemma raises_only_pure {A} P (m : M A) :
  (forall w, exists a, m w = (Ok a, w)) -> raises_only Q P m.
Proof. intros Hm w Hw. destruct (Hm w) as [a ->]. by split. Qed.

Lemma raises_only_modify P g :
  (forall w, replies (g w) = replies w) -> raises_only Q P (modify g).
Proof. intros Hg w Hw. unfold script_ok. cbn. rewrite Hg. by split. Qed.

Lemma raises_only_raise P e {A} : P e = true -> raises_only Q P (@raise world A e).
Proof. intros He w Hw. split; [done|]. by intros e' [= <-]. Qed.

Lemma raises_only_bind P {A B} (m : M A) (h : A -> M B) :
  raises_only Q P m -> (forall a, raises_only Q P (h a)) -> raises_only Q P (bind m h).
Proof.
  intros Hm Hh w Hw. unfold bind. destruct (Hm w Hw) as [Hw1 He].
  destruct (m w) as [[a|e] w1]; cbn in *; [by apply Hh | split; [done | intros ? [= <-]; auto]].
Qed.

Lemma raises_only_try P1 P2 {A} (m : M A) (h : exn -> M A) :
  raises_only Q P1 m -> (forall e, P1 e = true -> raises_only Q P2 (h e)) ->
  raises_only Q P2 (try_ m h).
Proof.
  intros Hm Hh w Hw. unfold try_. destruct (Hm w Hw) as [Hw1 He].
  destruct (m w) as [[a|e] w1]; cbn in *; [by split | by apply Hh; [apply He|]].
Qed.

Lemma raises_only_if P {A} (b : bool) (m1 m2 : M A) :
  raises_only Q P m1 -> raises_only Q P m2 -> raises_only Q P (if b then m1 else m2).
Proof. by destruct b. Qed.

Lemma raises_only_smtp P i op :
  (forall e, Q e = true -> P e = true) -> raises_only Q P (smtp i op).
Proof.
  intros HQ w Hw. unfold smtp, script_ok in *. cbn.
  destruct (replies w) as [|rp rs]; cbn in *.
  - split; [constructor | discriminate].
  - apply Forall_cons in Hw as [Hrp Hrs].
    destruct rp; cbn in *; (split; [done|]); try discriminate. intros e' [= <-]. auto.
Qed.
End RaisesOnly.

Lemma raises_only_update_obj Q P i g : raises_only Q P (update_obj i g).
Proof. by apply raises_only_modify. Qed.

Lemma raises_only_sleep Q P d : raises_only Q P (sleep d).
Proof. by apply raises_only_modify. Qed.

Lemma raises_only_gets Q P {A} (g : world -> A) : raises_only Q P (gets g).
Proof. apply raises_only_pure. intros w. by eexists. Qed.

Lemma raises_only_ret Q P {A} (a : A) : raises_only Q P (ret a).
Proof. apply raises_only_pure. intros w. by eexists. Qed.

#[export] Hint Resolve raises_only_update_obj raises_only_sleep raises_only_gets
  raises_only_ret : sheetmail.

(** Follows the structure of a computation down to the primitives. *)
Ltac raises_only_solve :=
  repeat (intros; first
    [ eapply raises_only_bind
    | eapply raises_only_if
    | solve [eauto with sheetmail]
    | eapply raises_only_smtp; intros ? ?; assumption
    | match goal with |- raises_only _ _ (match ?x with _ => _ end) => destruct x end ]).

(** ** Lower bounds on the I/O performed *)

(** [m] performs, whatever its outcome, events of weight at least [k]. *)
Definition emits_at_least {A} (f : event -> nat) (k : nat) (m : M A) : Prop :=
  forall w, exists l, trace (snd (m w)) = trace w ++ l /\ k <= sum_list_with f l.

Section AtLeast.
Context (f : event -> nat).

Lemma at_least_smtp i op : emits_at_least f (f (EvSmtp i op)) (smtp i op).
Proof.
  intros w. exists [EvSmtp i op]. unfold smtp.
  destruct (default ROk (head (replies w))); (split; [reflexivity | cbn; lia]).
Qed.

(** The rest of a computation only adds events. *)
Lemma at_least_bind {A B} g k k' (m : M A) (h : A -> M B) :
  emits_at_least f k m -> (forall a, bounded_by g k' (h a)) -> emits_at_least f k (bind m h).
Proof.
  intros Hm Hh w. destruct (Hm w) as (l1 & Ht1 & Hk). unfold bind.
  destruct (m w) as [[a|e] w1]; cbn in *; [|by exists l1].
  destruct (Hh a w1) as (l2 & Ht2 & _). exists (l1 ++ l2).
  rewrite Ht2, Ht1, app_assoc, sum_list_with_app. split; [done | lia].
Qed.

Lemma at_least_gets_bind {A B} k (g : world -> A) (h : A -> M B) :
  (forall a, emits_at_least f k (h a)) -> emits_at_least f k (bind (gets g) h).
Proof. intros Hh w. apply Hh. Qed.

Lemma at_least_if {A} k (b : bool) (m1 m2 : M A) :
  emits_at_least f k m1 -> emits_at_least f k m2 -> emits_at_least f k (if b then m1 else m2).
Proof. by destruct b. Qed.

Lemma at_least_try {A} g k k' (m : M A) (h : exn -> M A) :
  emits_at_least f k m -> (forall e, bounded_by g k' (h e)) -> emits_at_least f k (try_ m h).
Proof.
  intros Hm Hh w. destruct (Hm w) as (l1 & Ht1 & Hk). unfold try_.
  destruct (m w) as [[a|e] w1]; cbn in *; [by exists l1|].
  destruct (Hh e w1) as (l2 & Ht2 & _). exists (l1 ++ l2).
  rewrite Ht2, Ht1, app_assoc, sum_list_with_app. split; [done | lia].
Qed.
End AtLeast.

(** Lower and upper bounds meet on the same events. *)
Lemma emits_exactly {A} f k (m : M A) w :
  emits_at_least f k m -> bounded_by f k m ->
  exists l, trace (snd (m w)) = trace w ++ l /\ sum_list_with f l = k.
Proof.
  intros Hl Hu. destruct (Hl w) as (l & Ht & Hk). destruct (Hu w) as (l' & Ht' & Hk').
  rewrite Ht in Ht'. apply app_inv_head in Ht' as <-. exists l. split; [done | lia].
Qed.
