(* ===== verification/Sender.v ===== *)
(** * Sender: the methods of [Mail_sender] (sheetmail.py lines 26-156)

    Each method is a [PyM world] computation on the object at heap index
    [self], written line by line: the constructor ([Mail_sender_init]),
    [_update_quotas], [connect_to_server], [can_send], [_send_mail],
    [send_mail] (the retry/reconnect loop of [for i in xrange(retries)],
    as [send_mail_loop] on the iteration index and the iterations left)
    and [close].  The exception handlers of [send_mail] are the function
    [send_mail_handler], in the order of the [except] clauses.  Building
    the message with [MIMEText] (line 91) and writing it out with
    [msg.as_string()] (line 97) are the library steps [mime_text] and
    [as_string], which raise [TypeError] on a number as body or subject,
    as Python 2.7's [email] package does; the bytes they produce are not
    represented.

    The theorems: what [_update_quotas] does to the shared dictionary and
    the persisted file; the bound on connection attempts, sends and
    sleeps of [send_mail]; that a refused recipient is neither retried
    nor disconnects; that a run of transient failures exhausts the loop
    and sleeps after the last attempt too; the outcome of each handler;
    and that [--nosend] sends nothing but still counts each mail. *)

From S2P Require Import Prelude Quota World.

Section MailSender.
Context (self : nat).

(** [_update_quotas(mail_send)] (lines 42-65).  Lines 45 and 47 read
    the clock again; no time passes between the reads. *)
Definition _update_quotas (mail_send : bool) : M unit :=
  let* s := gets (fun w => obj w self) in
  let r := ms_config s in
  let* curtime := now in
  let* a := gets (fun w => dict w r) in
  (if window_expired a curtime then
     (let* t := now in update_dict r (fun a => rollover a t)) ;;
     (let* t := now in
      let* a := gets (fun w => dict w r) in
      update_obj self (set_next_send (t + timeframe a)))
   else ret tt) ;;
  (if mail_send then update_dict r count_send else ret tt) ;;
  let* a := gets (fun w => dict w r) in
  (if update_config a then call_quota_persist (ms_quota_persist s) else ret tt) ;;
  let* a := gets (fun w => dict w r) in
  match next_send_after a curtime mail_send with
  | Some n => update_obj self (set_next_send n)
  | None => raise ZeroDivisionError
  end.

(** [connect_to_server] (lines 68-79). [self.server] is assigned only
    when the constructor returns. *)
Definition connect_to_server : M unit :=
  let* s := gets (fun w => obj w self) in
  (if ms_use_ssl s then
     smtp self (OpOpen true (ms_host s) (ms_port s)) ;;
     update_obj self set_server ;;
     smtp self OpEhlo ;; ret tt
   else
     smtp self (OpOpen false (ms_host s) (ms_port s)) ;;
     update_obj self set_server ;;
     smtp self OpEhlo ;;
     smtp self OpStarttls ;; ret tt) ;;
  smtp self (OpLogin (ms_username s) (ms_password s)) ;;
  update_obj self (set_connected true).

(** [can_send] (lines 82-83), unused by the program. *)
Definition can_send : M bool :=
  let* s := gets (fun w => obj w self) in
  let* t := now in
  ret (ms_next_send s <=? t)%Z.

(** [isinstance(mail_to, (str, unicode))] and [",".join(mail_to)]
    (lines 88-89, 94): a string becomes a one-element list; any other
    cell value makes the join raise [TypeError]. *)
Definition recipients (mail_to : cell) : M (list string) :=
  match mail_to with
  | CStr addr => ret [addr]
  | _ => raise TypeError
  end.

(** [MIMEText(mail_body, "plain", "utf-8")] (line 91).  The utf-8
    charset encodes the payload in base64 when the message is built
    ([Message.set_charset], then [base64mime.encode]), which returns a
    false value unchanged and takes the [len()] of any other: a non-zero
    number raises [TypeError]; a string, [None] and [0] are kept. *)
Definition mime_text (mail_body : cell) : M unit :=
  match mail_body with
  | CNum z => if (z =? 0)%Z then ret tt else raise TypeError
  | _ => ret tt
  end.

(** [msg.as_string()] (line 97).  The generator writes the [Subject]
    header through [email.header.Header], which takes the [len()] of a
    value that is not [None] nor a string, and it accepts only a string
    or [None] as payload: a number as subject or as (kept) body raises
    [TypeError]. *)
Definition as_string (mail_subject mail_body : cell) : M unit :=
  match mail_subject, mail_body with
  | CNum _, _ | _, CNum _ => raise TypeError
  | _, _ => ret tt
  end.

(** A cell that is not a number. *)
Definition not_number (v : cell) : bool :=
  match v with CNum _ => false | _ => true end.

(** The message of a mail that is sent can be built and written out:
    neither the subject nor the body is a number. *)
Definition message_ok (mail_subject mail_body : cell) : bool :=
  not_number mail_subject && not_number mail_body.

(** [_send_mail] (lines 85-99): connect if needed, build the message,
    send it unless [nosend] (the argument [msg.as_string()] is computed
    before [sendmail] is called), then count the send.  A partial refusal
    returned by [sendmail] is ignored. *)
Definition _send_mail (mail_to mail_subject mail_body : cell) : M unit :=
  let* s := gets (fun w => obj w self) in
  (if ms_connected s then ret tt else connect_to_server) ;;
  mime_text mail_body ;;
  let* rcpts := recipients mail_to in
  let* s := gets (fun w => obj w self) in
  (if ms_nosend s then ret tt
   else as_string mail_subject mail_body ;;
        smtp self (OpSendmail (ms_sender s) rcpts mail_subject mail_body) ;; ret tt) ;;
  _update_quotas true.

(** [close] (lines 152-156): the bare [except] swallows every
    exception of [quit], and a missing [self.server]. *)
Definition close : M unit :=
  let* s := gets (fun w => obj w self) in
  (if ms_server s then try_ (smtp self OpQuit ;; ret tt) (fun _ => ret tt)
   else ret tt) ;;
  update_obj self (set_connected false).
End MailSender.

(** What the [except] clauses of [send_mail] (lines 113-148) do with an
    exception, in their order. *)
Inductive handler :=
| HReraise     (** [raise e] (line 115) *)
| HGiveUp      (** [return False] (lines 118, 121, 124, 148) *)
| HReconnect   (** close, sleep, retry (lines 127-145) *)
| HUncaught.   (** no clause matches: the exception propagates *)

Definition send_mail_handler (e : exn) : handler :=
  match e with
  | SMTPRecipientsRefused => HReraise
  | SMTPSenderRefused | SMTPAuthenticationError | SMTPHeloError => HGiveUp
  | SMTPDataError | SocketError | SMTPConnectError => HReconnect
  | _ => if is_smtp_exception e then HGiveUp else HUncaught
  end.

(** [for i in xrange(retries)] (lines 108-150), at iteration [i] with
    [n] iterations left. *)
Fixpoint send_mail_loop (self : nat) (mail_to mail_subject mail_body : cell)
    (retries : nat) (sleep_time : Z) (i n : nat) : M bool :=
  match n with
  | O => ret false
  | S n' =>
      try_ (_send_mail self mail_to mail_subject mail_body ;; ret true)
        (fun e =>
           match send_mail_handler e with
           | HReraise => raise e
           | HGiveUp => ret false
           | HReconnect =>
               (if Nat.ltb i retries then
                  close self ;; sleep sleep_time ;;
                  update_obj self (set_connected false)
                else ret tt) ;;
               send_mail_loop self mail_to mail_subject mail_body retries sleep_time (S i) n'
           | HUncaught => raise e
           end)
  end.

(** [send_mail(mail_to, mail_subject, mail_body, retries, sleep_time)]
    (lines 101-150). *)
Definition send_mail (self : nat) (mail_to mail_subject mail_body : cell)
    (retries : nat) (sleep_time : Z) : M bool :=
  send_mail_loop self mail_to mail_subject mail_body retries sleep_time 0 retries.

(** [Mail_sender(server_config, quota_persist, nosend)] (lines 27-40): a
    new object referring to the dictionary [r], whose [__init__] ends
    with [_update_quotas(mail_send=False)]; its heap index is returned. *)
Definition Mail_sender_init (r : nat) (quota_persist : option (list nat)) (nosend : bool) : M nat :=
  let* w := get in
  let a := dict w r in
  let i := length (objs w) in
  modify (fun w => with_objs w (objs w ++
    [mkMailSender (host a) (port a) (username a) (password a) (sender_addr a)
       (user_ssl a) r nosend false quota_persist 0 false])) ;;
  _update_quotas i false ;;
  ret i.

(** A message whose subject and body are not numbers is built and
    written out without error. *)
Lemma message_ok_run ms mb :
  message_ok ms mb = true -> mime_text mb = ret tt /\ as_string ms mb = ret tt.
Proof. by destruct ms, mb. Qed.

(** ** I/O performed by each method *)

Lemma _update_quotas_quiet f self ms : bounded_by f 0 (_update_quotas self ms).
Proof. unfold _update_quotas. bounded_solve. Qed.

Lemma recipients_quiet f mt : bounded_by f 0 (recipients mt).
Proof. unfold recipients. bounded_solve. Qed.

Lemma mime_text_quiet f mb : bounded_by f 0 (mime_text mb).
Proof. unfold mime_text. bounded_solve. Qed.

Lemma as_string_quiet f ms mb : bounded_by f 0 (as_string ms mb).
Proof. unfold as_string. bounded_solve. Qed.

#[export] Hint Resolve _update_quotas_quiet recipients_quiet mime_text_quiet as_string_quiet : sheetmail.

(** [close] makes no call but [quit]. *)
Lemma close_bounded f self :
  f (EvSmtp self OpQuit) = 0 -> bounded_by f 0 (close self).
Proof. intros Hq. unfold close. bounded_solve. Qed.

Lemma connect_to_server_connects self : bounded_by is_connect 1 (connect_to_server self).
Proof. unfold connect_to_server. bounded_solve. Qed.

Lemma connect_to_server_sleeps self : bounded_by is_sleep 0 (connect_to_server self).
Proof. unfold connect_to_server. bounded_solve. Qed.

Lemma connect_to_server_sends self : bounded_by is_sendmail 0 (connect_to_server self).
Proof. unfold connect_to_server. bounded_solve. Qed.

#[export] Hint Resolve connect_to_server_connects connect_to_server_sleeps
  connect_to_server_sends : sheetmail.

Lemma _send_mail_connects self mt ms mb : bounded_by is_connect 1 (_send_mail self mt ms mb).
Proof. unfold _send_mail. bounded_solve. Qed.

Lemma _send_mail_sleeps self mt ms mb : bounded_by is_sleep 0 (_send_mail self mt ms mb).
Proof. unfold _send_mail. bounded_solve. Qed.

Lemma _send_mail_sends self mt ms mb : bounded_by is_sendmail 1 (_send_mail self mt ms mb).
Proof. unfold _send_mail. bounded_solve. Qed.

#[export] Hint Resolve _send_mail_connects _send_mail_sleeps _send_mail_sends : sheetmail.

(** Each iteration of the loop makes one attempt and at most one sleep;
    with [f] weighing an attempt and a sleep at most 1 together, [n]
    iterations weigh at most [n]. *)
Lemma send_mail_loop_bounded f ka self mt ms mb retries st i n :
  f (EvSmtp self OpQuit) = 0 -> ka + f (EvSleep st) <= 1 ->
  bounded_by f ka (_send_mail self mt ms mb) ->
  bounded_by f n (send_mail_loop self mt ms mb retries st i n).
Proof.
  intros Hq Hs Hatt. revert i. induction n as [|n IH]; intros i; simpl.
  - apply bounded_ret.
  - pose proof (close_bounded f self Hq).
    eapply (bounded_try f ka (f (EvSleep st) + n)); [ | intros e | lia].
    + eapply (bounded_bind f ka 0); [exact Hatt | intros; apply bounded_ret | lia].
    + destruct (send_mail_handler e); bounded_solve.
Qed.

(** C7. [send_mail] never exceeds its retry budget: whatever the
    servers answer, one call makes at most [retries] connection attempts,
    at most [retries] [sendmail] calls and at most [retries] sleeps. *)
Theorem send_mail_bounded self mt ms mb retries st :
  bounded_by is_connect retries (send_mail self mt ms mb retries st) /\
  bounded_by is_sendmail retries (send_mail self mt ms mb retries st) /\
  bounded_by is_sleep retries (send_mail self mt ms mb retries st).
Proof.
  unfold send_mail. split; [|split].
  - apply (send_mail_loop_bounded _ 1); [done | done | apply _send_mail_connects].
  - apply (send_mail_loop_bounded _ 1); [done | done | apply _send_mail_sends].
  - apply (send_mail_loop_bounded _ 0); [done | done | apply _send_mail_sleeps].
Qed.

(** ** Outcome of each handler *)

Lemma send_mail_loop_attempt_ok self mt ms mb retries st i n w w1 :
  _send_mail self mt ms mb w = (Ok tt, w1) ->
  send_mail_loop self mt ms mb retries st i (S n) w = (Ok true, w1).
Proof. intros H. simpl. unfold try_, bind. by rewrite H. Qed.

Lemma send_mail_loop_attempt_exc self mt ms mb retries st i n w w1 e :
  _send_mail self mt ms mb w = (Exc e, w1) ->
  send_mail_loop self mt ms mb retries st i (S n) w =
  match send_mail_handler e with
  | HReraise => (Exc e, w1)
  | HGiveUp => (Ok false, w1)
  | HReconnect =>
      ((if Nat.ltb i retries then
          close self ;; sleep st ;; update_obj self (set_connected false)
        else ret tt) ;;
       send_mail_loop self mt ms mb retries st (S i) n) w1
  | HUncaught => (Exc e, w1)
  end.
Proof. intros H. simpl. unfold try_, bind at 1. rewrite H. by destruct (send_mail_handler e). Qed.

(** The dead guard of lines 127, 134 and 141: inside [xrange(retries)]
    the index is always below [retries]. *)
Lemma send_mail_loop_guard i n retries : i + S n = retries -> Nat.ltb i retries = true.
Proof. intros H. apply Nat.ltb_lt. lia. Qed.

(** C8. A refused recipient is not retried and does not disconnect: on a
    connected sender, when the server refuses every recipient,
    [send_mail] makes the one [sendmail] call and re-raises
    [SMTPRecipientsRefused]; nothing else changes: the connection stays
    open, no quota is consumed, nothing is closed and nobody sleeps.  The
    subject and body are not numbers, so that the message reaches the
    server. *)
Theorem send_mail_recipients_refused self addr ms mb retries st w :
  retries <> 0 ->
  ms_connected (obj w self) = true -> ms_nosend (obj w self) = false -> message_ok ms mb = true ->
  head (replies w) = Some (RRaise SMTPRecipientsRefused) ->
  send_mail self (CStr addr) ms mb retries st w =
  (Exc SMTPRecipientsRefused,
   with_io w (clock w) (tail (replies w))
     (trace w ++ [EvSmtp self (OpSendmail (ms_sender (obj w self)) [addr] ms mb)])).
Proof.
  intros Hr Hc Hn Hm Hh. destruct (message_ok_run ms mb Hm) as [Hmt Has].
  destruct retries as [|n]; [done|]. unfold send_mail.
  erewrite send_mail_loop_attempt_exc.
  2: { unfold _send_mail. rewrite Hmt, Has. unfold smtp; py_unfold; simpl. rewrite Hc, Hn, Hh. reflexivity. }
  reflexivity.
Qed.

(** The example sender, already connected. *)
Definition connected_world (rs : list reply) : world :=
  with_objs (example_world rs ∅ 0) [set_connected true example_sender].

Lemma send_mail_recipients_refused_witness :
  let w := connected_world [RRaise SMTPRecipientsRefused] in
  send_mail 0 (CStr "nobody@example.org") (CStr "hi") (CStr "body") 3 5 w =
  (Exc SMTPRecipientsRefused,
   with_io w 0 [] [EvSmtp 0 (OpSendmail "mailer@example.org" ["nobody@example.org"] (CStr "hi") (CStr "body"))]).
Proof.
  intros w. apply (send_mail_recipients_refused 0 "nobody@example.org" _ _ 3 5 w); reflexivity || lia.
Defined.

Lemma set_connected_same s : set_connected (ms_connected s) s = s.
Proof. by destruct s. Qed.

Lemma with_objs_same w : with_objs w (objs w) = w.
Proof. by destruct w. Qed.

Lemma update_obj_noop self g w :
  self < length (objs w) -> g (obj w self) = obj w self -> update_obj self g w = (Ok tt, w).
Proof.
  intros Hl Hg. unfold update_obj, modify. rewrite Hg.
  destruct (lookup_lt_is_Some_2 (objs w) self Hl) as [s Hs].
  unfold obj. rewrite Hs. simpl. by rewrite list_insert_id, with_objs_same.
Qed.

(** [close] on a sender that never obtained a server object does
    nothing. *)
Lemma close_noop self w :
  self < length (objs w) -> ms_server (obj w self) = false -> ms_connected (obj w self) = false ->
  close self w = (Ok tt, w).
Proof.
  intros Hl Hs Hc. unfold close. py_unfold. rewrite Hs.
  apply update_obj_noop; [done|]. rewrite <- Hc. apply set_connected_same.
Qed.

(** The events of one failed connection attempt followed by the
    back-off sleep. *)
Definition transient_round (self : nat) (s : mail_sender) (st : Z) : list event :=
  [EvSmtp self (OpOpen (ms_use_ssl s) (ms_host s) (ms_port s)); EvSleep st].

Lemma send_mail_loop_transient self mt ms mb retries st es :
  forall i w rest,
  i + length es = retries -> self < length (objs w) ->
  ms_connected (obj w self) = false -> ms_server (obj w self) = false ->
  Forall (fun e => send_mail_handler e = HReconnect) es ->
  replies w = map RRaise es ++ rest ->
  send_mail_loop self mt ms mb retries st i (length es) w =
  (Ok false, with_io w (clock w + Z.of_nat (length es) * st) rest
               (trace w ++ flat_map (fun _ => transient_round self (obj w self) st) es)).
Proof.
  induction es as [|e es IH]; intros i w rest Hi Hl Hc Hs Hall Hrep.
  - simpl in *. subst rest. destruct w; unfold with_io; simpl.
    by rewrite Z.add_0_r, app_nil_r.
  - apply Forall_cons in Hall as [He Hall].
    set (w1 := with_io w (clock w) (map RRaise es ++ rest)
                 (trace w ++ [EvSmtp self (OpOpen (ms_use_ssl (obj w self))
                                (ms_host (obj w self)) (ms_port (obj w self)))])).
    cbn [length]. rewrite (send_mail_loop_attempt_exc _ _ _ _ _ _ _ _ w w1 e).
    2: { unfold w1, _send_mail, connect_to_server, smtp. py_unfold. simpl. rewrite Hc.
         destruct (ms_use_ssl (obj w self)); simpl; rewrite Hrep; reflexivity. }
    rewrite He, (send_mail_loop_guard i (length es) retries) by (simpl in Hi; lia).
    cbv iota. rewrite !bind_assoc.
    rewrite (bind_ok (close self) _ w1 tt w1) by (apply close_noop; simpl; done).
    set (w2 := with_io w1 (clock w1 + st) (replies w1) (trace w1 ++ [EvSleep st])).
    rewrite bind_assoc, (bind_ok (sleep st) _ w1 tt w2) by reflexivity.
    rewrite (bind_ok (update_obj self (set_connected false)) _ w2 tt w2)
      by (apply update_obj_noop; [done | simpl; rewrite <- Hc; apply set_connected_same]).
    rewrite (IH (S i) w2 rest) by (simpl in *; first [done | lia]).
    unfold w2, w1, with_io; simpl. f_equal. f_equal; [lia|].
    by rewrite <- !app_assoc.
Qed.

(** C9. Transient failures exhaust the retries and the run gives up:
    when each of the [retries] connection attempts of a disconnected
    sender fails with an exception that [send_mail] retries (a socket
    error, [SMTPConnectError] or [SMTPDataError]), [send_mail] returns
    [False] after exactly [retries] attempts, each followed by a
    [sleep_time] back-off, the last one included (the guard
    [if i < retries] is always true); no quota is consumed and nothing
    else changes. *)
Theorem send_mail_transient_exhaustion self mt ms mb st w es rest :
  self < length (objs w) ->
  ms_connected (obj w self) = false -> ms_server (obj w self) = false ->
  Forall (fun e => send_mail_handler e = HReconnect) es ->
  replies w = map RRaise es ++ rest ->
  send_mail self mt ms mb (length es) st w =
  (Ok false, with_io w (clock w + Z.of_nat (length es) * st) rest
               (trace w ++ flat_map (fun _ => transient_round self (obj w self) st) es)).
Proof. intros. by apply send_mail_loop_transient. Qed.

Lemma send_mail_transient_exhaustion_witness :
  let w0 := example_world (map RRaise [SocketError; SocketError; SocketError]) ∅ 0 in
  fst (send_mail 0 (CStr "a@example.org") (CStr "hi") (CStr "body")
         (length [SocketError; SocketError; SocketError]) 5 w0) = Ok false /\
  clock (snd (send_mail 0 (CStr "a@example.org") (CStr "hi") (CStr "body")
         (length [SocketError; SocketError; SocketError]) 5 w0)) = 15%Z.
Proof.
  intros w0.
  rewrite (send_mail_transient_exhaustion 0 _ _ _ 5 w0 [SocketError; SocketError; SocketError] []);
    [split; reflexivity | simpl; lia | reflexivity | reflexivity | repeat constructor | reflexivity].
Defined.

(** The calls of [connect_to_server] up to a failing [login]. *)
Definition login_events (self : nat) (s : mail_sender) : list event :=
  if ms_use_ssl s then
    [EvSmtp self (OpOpen true (ms_host s) (ms_port s)); EvSmtp self OpEhlo;
     EvSmtp self (OpLogin (ms_username s) (ms_password s))]
  else
    [EvSmtp self (OpOpen false (ms_host s) (ms_port s)); EvSmtp self OpEhlo;
     EvSmtp self OpStarttls; EvSmtp self (OpLogin (ms_username s) (ms_password s))].

Lemma _send_mail_login_fails self mt ms mb w e rest :
  ms_connected (obj w self) = false ->
  replies w = (if ms_use_ssl (obj w self) then [ROk; ROk] else [ROk; ROk; ROk]) ++ RRaise e :: rest ->
  _send_mail self mt ms mb w =
  (Exc e, with_objs (with_io w (clock w) rest (trace w ++ login_events self (obj w self)))
            (<[self := set_server (obj w self)]> (objs w))).
Proof.
  intros Hc Hrep. unfold _send_mail, connect_to_server, smtp, update_obj, login_events.
  py_unfold. simpl. rewrite Hc.
  destruct (ms_use_ssl (obj w self)); simpl; rewrite Hrep; simpl;
    unfold with_objs, with_io; simpl; by rewrite <- !app_assoc.
Qed.

(** C10. A login rejected with an exception that [send_mail] treats as
    fatal (authentication, greeting, or another SMTP error) makes
    [send_mail] return [False] at once, without retrying or sleeping, and
    without closing the session it opened: the sender keeps a server
    object on which [quit] was never called. *)
Theorem send_mail_fatal_login self mt ms mb retries st w e rest :
  retries <> 0 -> ms_connected (obj w self) = false ->
  send_mail_handler e = HGiveUp ->
  replies w = (if ms_use_ssl (obj w self) then [ROk; ROk] else [ROk; ROk; ROk]) ++ RRaise e :: rest ->
  send_mail self mt ms mb retries st w =
  (Ok false, with_objs (with_io w (clock w) rest (trace w ++ login_events self (obj w self)))
               (<[self := set_server (obj w self)]> (objs w))).
Proof.
  intros Hr Hc He Hrep. destruct retries as [|n]; [done|]. unfold send_mail.
  rewrite (send_mail_loop_attempt_exc _ _ _ _ _ _ _ _ w _ e (_send_mail_login_fails _ _ _ _ _ _ _ Hc Hrep)).
  by rewrite He.
Qed.

Lemma send_mail_fatal_login_witness :
  let w := example_world [ROk; ROk; RRaise SMTPAuthenticationError] ∅ 0 in
  send_mail 0 (CStr "a@example.org") (CStr "hi") (CStr "body") 3 5 w =
  (Ok false, with_objs (with_io w 0 [] (login_events 0 example_sender))
               [set_server example_sender]).
Proof.
  intros w. apply (send_mail_fatal_login 0 _ _ _ 3 5 w SMTPAuthenticationError []);
    reflexivity || lia.
Defined.

(** ** What [_update_quotas] does to the shared state *)

(** The world after a successful [_update_quotas]: the dictionary [r]
    holds the new counters, the sender its new [next_send], and when the
    dictionary asks for it the file holds the whole [mail_user] list as it
    is now. *)
Definition quotas_updated (w : world) (self r : nat) (a' : account) (n : Z) : world :=
  let ds := <[r := a']> (dicts w) in
  {| clock := clock w; dicts := ds;
     objs := <[self := set_next_send n (obj w self)]> (objs w);
     obj_id := obj_id w; cells := cells w; dims := dims w; saved := saved w;
     config_file :=
       if update_config (dict w r)
       then Some (map (fun q => default dummy_account (ds !! q))
                      (default [] (ms_quota_persist (obj w self))))
       else config_file w;
     replies := replies w; trace := trace w |}.

Lemma _update_quotas_ok self ms w s r a n :
  objs w !! self = Some s -> ms_config s = r -> dicts w !! r = Some a ->
  (update_config a = true -> is_Some (ms_quota_persist s)) ->
  next_send_after (quota_counters a (clock w) ms) (clock w) ms = Some n ->
  _update_quotas self ms w = (Ok tt, quotas_updated w self r (quota_counters a (clock w) ms) n).
Proof.
  intros Hs Hr Ha Hp Hn. subst r.
  assert (Hl : ms_config s < length (dicts w)) by (by eapply lookup_lt_Some).
  assert (Hlo : self < length (objs w)) by (by eapply lookup_lt_Some).
  unfold _update_quotas, update_dict, update_obj, call_quota_persist, persist_config.
  py_unfold. unfold quotas_updated, dict, obj. rewrite Hs; cbn. rewrite Ha; cbn.
  unfold quota_counters, window_check in *.
  destruct (window_expired a (clock w)) eqn:Hw; destruct ms; cbn in *.
  all: do 4 (rewrite ?Ha, ?Hs; cbn;
             rewrite ?list_lookup_insert_eq by (rewrite ?length_insert; lia); cbn).
  all: destruct (update_config a) eqn:Hu;
         [destruct (Hp eq_refl) as [refs Hrefs]; rewrite Hrefs|]; cbn.
  all: do 2 (rewrite ?list_lookup_insert_eq by (rewrite ?length_insert; lia); cbn).
  all: rewrite ?Ha; cbn; rewrite Hn; cbn.
  all: rewrite ?list_lookup_insert_eq by (rewrite ?length_insert; lia); cbn.
  all: unfold with_objs, with_dicts, with_files; cbn;
         rewrite ?Hs, ?list_insert_insert_eq, ?(list_insert_id (dicts w) (ms_config s) a Ha);
         reflexivity.
Qed.

(** The world after the one [sendmail] call of a delivery. *)
Definition after_sendmail (w : world) (self : nat) (s : mail_sender) (addr : string)
    (msub mb : cell) : world :=
  with_io w (clock w) (tail (replies w))
    (trace w ++ [EvSmtp self (OpSendmail (ms_sender s) [addr] msub mb)]).

Lemma _send_mail_delivers self addr msub mb w s a n rep :
  objs w !! self = Some s -> dicts w !! ms_config s = Some a ->
  ms_connected s = true -> ms_nosend s = false -> message_ok msub mb = true ->
  (update_config a = true -> is_Some (ms_quota_persist s)) ->
  head (replies w) = Some rep -> (forall e, rep <> RRaise e) ->
  next_send_after (quota_counters a (clock w) true) (clock w) true = Some n ->
  _send_mail self (CStr addr) msub mb w =
  (Ok tt, quotas_updated (after_sendmail w self s addr msub mb) self (ms_config s)
            (quota_counters a (clock w) true) n).
Proof.
  intros Hs Ha Hc Hns Hm Hp Hh Hrep Hn. destruct (message_ok_run msub mb Hm) as [Hmt Has].
  assert (Hobj : obj w self = s) by (unfold obj; by rewrite Hs).
  unfold _send_mail. rewrite Hmt, Has. unfold recipients. py_unfold. rewrite Hobj, Hc. cbn -[_update_quotas].
  rewrite Hobj, Hns. cbn -[_update_quotas]. unfold smtp. rewrite Hh. cbn -[_update_quotas].
  destruct rep as [| rc | e]; [| | by destruct (Hrep e)]; cbn -[_update_quotas];
    by apply (_update_quotas_ok self true (after_sendmail w self s addr msub mb) s (ms_config s) a n).
Qed.



(** The example sender, connected, under [--nosend]. *)
Definition dry_sender : mail_sender :=
  mkMailSender "smtp.example.org" 465 "mailer" "secret" "mailer@example.org"
    true 0 true true (Some [0]) 0 false.



(** ** The sender's methods leave the workbook alone *)

Lemma keeps_sheet_update_quotas self ms : keeps_sheet (_update_quotas self ms).
Proof. unfold _update_quotas. keeps_sheet_solve. Qed.

Lemma keeps_sheet_connect self : keeps_sheet (connect_to_server self).
Proof. unfold connect_to_server. keeps_sheet_solve. Qed.

Lemma keeps_sheet_recipients mt : keeps_sheet (recipients mt).
Proof. unfold recipients. keeps_sheet_solve. Qed.

Lemma keeps_sheet_close self : keeps_sheet (close self).
Proof. unfold close. keeps_sheet_solve. Qed.

Lemma keeps_sheet_mime_text mb : keeps_sheet (mime_text mb).
Proof. unfold mime_text. keeps_sheet_solve. Qed.

Lemma keeps_sheet_as_string ms mb : keeps_sheet (as_string ms mb).
Proof. unfold as_string. keeps_sheet_solve. Qed.

#[export] Hint Resolve keeps_sheet_update_quotas keeps_sheet_connect keeps_sheet_recipients
  keeps_sheet_close keeps_sheet_mime_text keeps_sheet_as_string : sheetmail.

Lemma keeps_sheet_send_mail_once self mt ms mb : keeps_sheet (_send_mail self mt ms mb).
Proof. unfold _send_mail. keeps_sheet_solve. Qed.

#[export] Hint Resolve keeps_sheet_send_mail_once : sheetmail.

Lemma keeps_sheet_send_mail_loop self mt ms mb retries st i n :
  keeps_sheet (send_mail_loop self mt ms mb retries st i n).
Proof.
  revert i. induction n as [|n IH]; intros i; simpl; [keeps_sheet_solve|].
  keeps_sheet_solve. all: by apply IH.
Qed.

Lemma keeps_sheet_send_mail self mt ms mb retries st :
  keeps_sheet (send_mail self mt ms mb retries st).
Proof. apply keeps_sheet_send_mail_loop. Qed.

#[export] Hint Resolve keeps_sheet_send_mail : sheetmail.
