(* ===== verification/Retry.v ===== *)
(** * Retry: the retry/reconnect loop of [send_mail] as a state machine

    [Sender.send_mail_loop] is the [for i in xrange(retries)] loop of
    [Mail_sender.send_mail] (sheetmail.py lines 108-150) written as a
    recursive monadic function.  Here the same loop is a labelled
    small-step relation [step] on configurations [LRun i n w] (about to
    run iteration [i], [n] iterations left, in world [w]) and [LDone r w]
    (the method returned or raised [r]); each step is one attempt, labelled
    with its result, or the exit of an exhausted loop.  [run_equiv] shows
    that the relation and the function agree.

    [Spec] is the retry state machine of spec.md section 4.3 with the
    error taxonomy of section 7: its states are [Ready k] (k attempts
    consumed) and [Finished o], its events a success or a failure of one
    of the seven kinds the spec names.  [exn_to_spec] maps the Python
    exceptions onto those kinds, and [send_mail_refines_spec] is the
    refinement: every execution of the code whose failures all fall in
    the spec's taxonomy is an execution of the spec machine on the same
    events, ending in the outcome the code returns. *)

From S2P Require Import Prelude Quota World Sender.

(** ** The code's loop as a labelled transition system *)

(** The result of one attempt, [self._send_mail(...)]. *)
Inductive attempt :=
| AOk
| AFail (e : exn).

Inductive conf :=
| LRun (i n : nat) (w : world)
| LDone (r : res bool) (w : world).

(** What an attempt that failed with [e] and is not retried makes
    [send_mail] return (lines 115, 118, 121, 124, 148; an exception no
    clause catches propagates). *)
Definition stop_result (e : exn) : res bool :=
  match send_mail_handler e with
  | HGiveUp => Ok false
  | _ => Exc e
  end.

Section Loop.
Context (self : nat) (mail_to mail_subject mail_body : cell) (retries : nat) (sleep_time : Z).

(** Lines 127-131 (and 134-138, 141-145): [if i < retries:] close,
    sleep, mark disconnected. *)
Definition reconnect (i : nat) : M unit :=
  if Nat.ltb i retries then
    close self ;; sleep sleep_time ;; update_obj self (set_connected false)
  else ret tt.

Inductive step : conf -> option attempt -> conf -> Prop :=
| step_ok i n w w1 :
    _send_mail self mail_to mail_subject mail_body w = (Ok tt, w1) ->
    step (LRun i (S n) w) (Some AOk) (LDone (Ok true) w1)
| step_stop i n w e w1 :
    _send_mail self mail_to mail_subject mail_body w = (Exc e, w1) ->
    send_mail_handler e <> HReconnect ->
    step (LRun i (S n) w) (Some (AFail e)) (LDone (stop_result e) w1)
| step_retry i n w e w1 :
    _send_mail self mail_to mail_subject mail_body w = (Exc e, w1) ->
    send_mail_handler e = HReconnect ->
    step (LRun i (S n) w) (Some (AFail e)) (LRun (S i) n (snd (reconnect i w1)))
| step_exhausted i w :
    step (LRun i 0 w) None (LDone (Ok false) w).

(** Executions, with the attempts they make; the exit step has no label. *)
Inductive run : conf -> list attempt -> conf -> Prop :=
| run_refl c : run c [] c
| run_attempt c a c' l c'' : step c (Some a) c' -> run c' l c'' -> run c (a :: l) c''
| run_exit c c' l c'' : step c None c' -> run c' l c'' -> run c l c''.

(** What a configuration computes: the rest of the loop, or its result. *)
Definition denote (c : conf) : res bool * world :=
  match c with
  | LRun i n w => send_mail_loop self mail_to mail_subject mail_body retries sleep_time i n w
  | LDone r w => (r, w)
  end.

End Loop.

(** ** The specification: spec.md sections 4.3 and 7 *)

Module Spec.

(** The failures the spec names. *)
Inductive failure :=
| AuthFailure
| GreetingFailure
| SenderRejected
| RecipientRejected
| ConnectFailure
| TransientProtocolError
| NetworkFailure.

(** Section 7: fatal configuration errors, per-message errors, transient
    transport errors. *)
Inductive class := Fatal | PerMessage | Transient.

Definition classify (f : failure) : class :=
  match f with
  | AuthFailure | GreetingFailure | SenderRejected => Fatal
  | RecipientRejected => PerMessage
  | ConnectFailure | TransientProtocolError | NetworkFailure => Transient
  end.

(** The outcomes of [attemptDelivery] (section 2). *)
Inductive outcome := Delivered | SkippedRecipientRejected | FatalAbortRun.

Inductive state :=
| Ready (k : nat)
| Finished (o : outcome).

Inductive event :=
| Success
| Failure (f : failure).

(** Section 4.3, with [max_retries] attempts. *)
Inductive sstep (max_retries : nat) : state -> option event -> state -> Prop :=
| s_success k : k < max_retries -> sstep max_retries (Ready k) (Some Success) (Finished Delivered)
| s_fatal k f : k < max_retries -> classify f = Fatal ->
    sstep max_retries (Ready k) (Some (Failure f)) (Finished FatalAbortRun)
| s_skip k f : k < max_retries -> classify f = PerMessage ->
    sstep max_retries (Ready k) (Some (Failure f)) (Finished SkippedRecipientRejected)
| s_retry k f : k < max_retries -> classify f = Transient ->
    sstep max_retries (Ready k) (Some (Failure f)) (Ready (S k))
| s_exhausted : sstep max_retries (Ready max_retries) None (Finished FatalAbortRun).

Inductive srun (max_retries : nat) : state -> list event -> state -> Prop :=
| srun_refl s : srun max_retries s [] s
| srun_event s ev s' l s'' :
    sstep max_retries s (Some ev) s' -> srun max_retries s' l s'' -> srun max_retries s (ev :: l) s''
| srun_silent s s' l s'' :
    sstep max_retries s None s' -> srun max_retries s' l s'' -> srun max_retries s l s''.

End Spec.

(** ** The abstraction from the code to the spec *)

(** The smtplib and socket exceptions the spec's failures stand for;
    [None] for the exceptions the spec does not name. *)
Definition exn_to_spec (e : exn) : option Spec.failure :=
  match e with
  | SMTPAuthenticationError => Some Spec.AuthFailure
  | SMTPHeloError => Some Spec.GreetingFailure
  | SMTPSenderRefused => Some Spec.SenderRejected
  | SMTPRecipientsRefused => Some Spec.RecipientRejected
  | SMTPConnectError => Some Spec.ConnectFailure
  | SMTPDataError => Some Spec.TransientProtocolError
  | SocketError => Some Spec.NetworkFailure
  | _ => None
  end.

(** An attempt of the code is the spec event [ev]. *)
Definition abstracts (a : attempt) (ev : Spec.event) : Prop :=
  match a, ev with
  | AOk, Spec.Success => True
  | AFail e, Spec.Failure f => exn_to_spec e = Some f
  | _, _ => False
  end.

(** The outcome a result of [send_mail] reports to its caller. *)
Definition observe (r : res bool) : option Spec.outcome :=
  match r with
  | Ok true => Some Spec.Delivered
  | Exc SMTPRecipientsRefused => Some Spec.SkippedRecipientRejected
  | Ok false => Some Spec.FatalAbortRun
  | Exc _ => None
  end.

(** The simulation relation: iteration [i] of the code is the spec's
    [Ready i]; a finished call is the outcome it reports. *)
Definition matches (retries : nat) (c : conf) (s : Spec.state) : Prop :=
  match c, s with
  | LRun i n _, Spec.Ready k => k = i /\ i + n = retries
  | LDone r _, Spec.Finished o => observe r = Some o
  | _, _ => False
  end.

(** ** The relation computes [send_mail_loop] *)

Section LoopFacts.
Context (self : nat) (mt ms mb : cell) (retries : nat) (st : Z).

Lemma reconnect_run i w :
  reconnect self retries st i w = (Ok tt, snd (reconnect self retries st i w)).
Proof.
  unfold reconnect, close, update_obj, sleep. py_unfold.
  destruct (Nat.ltb i retries); [|done]. cbn.
  destruct (ms_server (obj w self)); [destruct (smtp self OpQuit w) as [[]]|]; reflexivity.
Qed.

Lemma step_denote c a c' :
  step self mt ms mb retries st c a c' ->
  denote self mt ms mb retries st c = denote self mt ms mb retries st c'.
Proof.
  destruct 1 as [i n w w1 H | i n w e w1 H Hh | i n w e w1 H Hh | i w]; cbn [denote].
  - by apply send_mail_loop_attempt_ok.
  - rewrite (send_mail_loop_attempt_exc _ _ _ _ _ _ _ _ _ _ _ H). unfold stop_result.
    by destruct (send_mail_handler e).
  - rewrite (send_mail_loop_attempt_exc _ _ _ _ _ _ _ _ _ _ _ H), Hh.
    exact (bind_ok (reconnect self retries st i) _ w1 tt _ (reconnect_run i w1)).
  - reflexivity.
Qed.

Lemma run_denote c l c' :
  run self mt ms mb retries st c l c' ->
  denote self mt ms mb retries st c = denote self mt ms mb retries st c'.
Proof. induction 1 as [| ? ? ? ? ? Hs _ IH | ? ? ? ? Hs _ IH]; [done | |]; by rewrite (step_denote _ _ _ Hs). Qed.

Lemma run_exists n : forall i w,
  exists l, run self mt ms mb retries st (LRun i n w) l
              (LDone (fst (send_mail_loop self mt ms mb retries st i n w))
                     (snd (send_mail_loop self mt ms mb retries st i n w))).
Proof.
  induction n as [|n IH]; intros i w.
  { exists []. eapply run_exit; [constructor | constructor]. }
  destruct (_send_mail self mt ms mb w) as [[[]|e] w1] eqn:H.
  - exists [AOk]. rewrite (send_mail_loop_attempt_ok _ _ _ _ _ _ _ _ _ _ H).
    eapply run_attempt; [apply step_ok; exact H | apply run_refl].
  - destruct (send_mail_handler e) eqn:Hh.
    1,2,4: exists [AFail e]; eapply run_attempt; [apply step_stop; [exact H | by rewrite Hh] |];
      unfold stop_result; rewrite (send_mail_loop_attempt_exc _ _ _ _ _ _ _ _ _ _ _ H), Hh; constructor.
    destruct (IH (S i) (snd (reconnect self retries st i w1))) as [l Hl].
    exists (AFail e :: l). eapply run_attempt; [by apply step_retry|].
    rewrite (send_mail_loop_attempt_exc _ _ _ _ _ _ _ _ _ _ _ H), Hh.
    rewrite (bind_ok (reconnect self retries st i) _ w1 tt _ (reconnect_run i w1)). exact Hl.
Qed.

End LoopFacts.

(** The small-step relation and the monadic loop agree: iteration
    [i] with [n] iterations left returns [r] in world [w'] exactly when
    the relation runs from [LRun i n w] to [LDone r w']. *)
Theorem run_equiv self mt ms mb retries st i n w r w' :
  send_mail_loop self mt ms mb retries st i n w = (r, w') <->
  exists l, run self mt ms mb retries st (LRun i n w) l (LDone r w').
Proof.
  split.
  - intros Hl. destruct (run_exists self mt ms mb retries st n i w) as [l Hr].
    rewrite Hl in Hr. by exists l.
  - intros [l Hr]. exact (run_denote self mt ms mb retries st _ _ _ Hr).
Qed.

(** ** The code refines the spec machine *)

(** The [except] clauses classify the spec's failures as section 7 does. *)
Lemma handler_classify e f :
  exn_to_spec e = Some f ->
  send_mail_handler e =
  match Spec.classify f with
  | Spec.Fatal => HGiveUp
  | Spec.PerMessage => HReraise
  | Spec.Transient => HReconnect
  end.
Proof. destruct e; intros H; inversion H; reflexivity. Qed.

(** Finds the spec step that matches a code step. *)
Ltac spec_step :=
  first [ solve [eapply Spec.s_success; lia]
        | solve [eapply Spec.s_fatal; [lia | reflexivity]]
        | solve [eapply Spec.s_skip; [lia | reflexivity]]
        | solve [eapply Spec.s_retry; [lia | reflexivity]] ].

Section Simulation.
Context (self : nat) (mt ms mb : cell) (retries : nat) (st : Z).

Lemma sim_attempt c a c' s ev :
  step self mt ms mb retries st c (Some a) c' -> matches retries c s -> abstracts a ev ->
  exists s', Spec.sstep retries s (Some ev) s' /\ matches retries c' s'.
Proof.
  intros Hs Hm Ha. inversion Hs as [i n w w1 H | i n w e w1 H Hh | i n w e w1 H Hh |]; subst;
    destruct s as [k|]; cbn in Hm; try done; destruct Hm as [-> Hk].
  - destruct ev; [|done]. eexists. split; [spec_step | reflexivity].
  - destruct ev as [|f]; [done|]. cbn in Ha. pose proof (handler_classify e f Ha) as Hc.
    unfold stop_result. rewrite Hc in Hh |- *.
    destruct e; inversion Ha; subst; cbn in *; try congruence;
      (eexists; split; [spec_step | reflexivity]).
  - destruct ev as [|f]; [done|]. cbn in Ha. pose proof (handler_classify e f Ha) as Hc.
    rewrite Hc in Hh. destruct (Spec.classify f) eqn:Hf; try done.
    exists (Spec.Ready (S i)). split; [by apply Spec.s_retry; [lia|] | cbn; split; [done | lia]].
Qed.

Lemma sim_exit c c' s :
  step self mt ms mb retries st c None c' -> matches retries c s ->
  exists s', Spec.sstep retries s None s' /\ matches retries c' s'.
Proof.
  intros Hs Hm. inversion Hs; subst. destruct s as [k|]; cbn in Hm; [|done].
  destruct Hm as [-> Hk]. rewrite Nat.add_0_r in Hk. subst.
  exists (Spec.Finished Spec.FatalAbortRun). split; [constructor | reflexivity].
Qed.

Lemma sim_run c l c' : run self mt ms mb retries st c l c' ->
  forall s evs, matches retries c s -> Forall2 abstracts l evs ->
  exists s', Spec.srun retries s evs s' /\ matches retries c' s'.
Proof.
  induction 1 as [c | c a c1 l c2 Hs _ IH | c c1 l c2 Hs _ IH]; intros s evs Hm Hf.
  - inversion Hf. exists s. split; [constructor | done].
  - inversion Hf as [|? ev ? evs' Ha Hf']; subst.
    destruct (sim_attempt _ _ _ _ _ Hs Hm Ha) as (s1 & Hs1 & Hm1).
    destruct (IH s1 evs' Hm1 Hf') as (s2 & Hr & Hm2).
    exists s2. split; [by eapply Spec.srun_event | done].
  - destruct (sim_exit _ _ _ Hs Hm) as (s1 & Hs1 & Hm1).
    destruct (IH s1 evs Hm1 Hf) as (s2 & Hr & Hm2).
    exists s2. split; [by eapply Spec.srun_silent | done].
Qed.

End Simulation.

(** C23. [send_mail] refines the retry state machine of spec.md section
    4.3: its execution makes a sequence of attempts [l], and whenever
    every failure among them is one the spec names, the spec machine
    started with [max_retries = retries] accepts the same sequence of
    events and finishes in the outcome the code reports: [True] is
    [Delivered], [SMTPRecipientsRefused] is [SkippedRecipientRejected],
    [False] is [FatalAbortRun]. *)
Theorem send_mail_refines_spec self mt ms mb retries st w :
  exists l,
    run self mt ms mb retries st (LRun 0 retries w) l
      (LDone (fst (send_mail self mt ms mb retries st w)) (snd (send_mail self mt ms mb retries st w))) /\
    forall evs, Forall2 abstracts l evs ->
      exists o, observe (fst (send_mail self mt ms mb retries st w)) = Some o /\
                Spec.srun retries (Spec.Ready 0) evs (Spec.Finished o).
Proof.
  destruct (run_exists self mt ms mb retries st retries 0 w) as [l Hr].
  exists l. split; [exact Hr|]. intros evs Hf.
  destruct (sim_run _ _ _ _ _ _ _ _ _ Hr (Spec.Ready 0) evs (conj eq_refl eq_refl) Hf)
    as ([k|o] & Hs & Hm); [done|]. by exists o.
Qed.

(** ** Examples *)

(** Three network failures in a row: the code gives up after three
    attempts, and the spec machine, fed three [NetworkFailure]s, reaches
    [FatalAbortRun] through its exhaustion step. *)
Lemma send_mail_refines_spec_witness :
  let w := example_world (map RRaise [SocketError; SocketError; SocketError]) ∅ 0 in
  fst (send_mail 0 (CStr "a@example.org") (CStr "hi") (CStr "body") 3 5 w) = Ok false /\
  exists l,
    run 0 (CStr "a@example.org") (CStr "hi") (CStr "body") 3 5 (LRun 0 3 w) l
      (LDone (fst (send_mail 0 (CStr "a@example.org") (CStr "hi") (CStr "body") 3 5 w))
             (snd (send_mail 0 (CStr "a@example.org") (CStr "hi") (CStr "body") 3 5 w))) /\
    forall evs, Forall2 abstracts l evs ->
      exists o, observe (fst (send_mail 0 (CStr "a@example.org") (CStr "hi") (CStr "body") 3 5 w)) = Some o /\
                Spec.srun 3 (Spec.Ready 0) evs (Spec.Finished o).
Proof.
  intros w. split; [unfold w; vm_compute; reflexivity|].
  apply send_mail_refines_spec.
Defined.
