(* ===== verification/TestMode.v ===== *)
(** * TestMode: [test_mail] (sheetmail.py lines 258-274)

    The connectivity test of the [--test] option: the configuration is
    loaded again ([json.load], a fresh list of dictionaries appended to
    the heap here), and for every account a [Mail_sender] is built with
    [quota_persist=None], connected and closed; the smtplib and socket
    exceptions of the attempt are logged and the loop goes on.

    The theorems: an account whose dictionary has [update_config] set
    makes the constructor call [None] and the test stops with
    [TypeError] before any connection; when no account asks for
    persistence and the servers raise only what the [except] clauses
    catch, the test returns normally after exactly one connection attempt
    per account. *)

From S2P Require Import Prelude Quota World Sender.

(** The [except] clauses of lines 267-274: [SMTPHeloError],
    [SMTPAuthenticationError], any [SMTPException], [socket.error]. *)
Definition test_mail_catches (e : exn) : bool :=
  match e with
  | SMTPHeloError | SMTPAuthenticationError | SocketError => true
  | _ => is_smtp_exception e
  end.

(** The [try] block of lines 263-274: connect and close, logging the
    exceptions the clauses catch. *)
Definition test_attempt (sender : nat) : M unit :=
  try_ (connect_to_server sender ;; close sender)
    (fun e => if test_mail_catches e then ret tt else raise e).

(** The body of the loop for the dictionary [r] (lines 261-274). *)
Definition test_connection (r : nat) : M unit :=
  let* sender := Mail_sender_init r None false in
  test_attempt sender.

(** [for connection in server_config['mail_user']] over the references
    [refs]. *)
Fixpoint test_connections (refs : list nat) : M unit :=
  match refs with
  | [] => ret tt
  | r :: rs => test_connection r ;; test_connections rs
  end.

(** [test_mail(config)]: [loaded] is what [json.load] returns for
    ['mail_user']. *)
Definition test_mail (loaded : list account) : M unit :=
  let* w := get in
  let base := length (dicts w) in
  modify (fun w => with_dicts w (dicts w ++ loaded)) ;;
  test_connections (seq base (length loaded)).

(** ** Persistence through [None] *)

Lemma set_window_update_config a e r : update_config (set_window a e r) = update_config a.
Proof. reflexivity. Qed.

(** Replacing one dictionary by one with the same [update_config] keeps
    that flag of every dictionary. *)
Lemma update_config_insert (ds : list account) (r q : nat) a' :
  update_config a' = update_config (default dummy_account (ds !! r)) ->
  update_config (default dummy_account (<[r := a']> ds !! q)) =
  update_config (default dummy_account (ds !! q)).
Proof.
  intros Ha. destruct (decide (r = q)) as [<-|Hne]; [|by rewrite list_lookup_insert_ne].
  destruct (decide (r < length ds)) as [Hl|Hl].
  - by rewrite list_lookup_insert_eq.
  - by rewrite list_insert_ge by lia.
Qed.

Lemma update_quotas_no_persist self ms w s :
  objs w !! self = Some s -> ms_quota_persist s = None ->
  update_config (dict w (ms_config s)) = true ->
  fst (_update_quotas self ms w) = Exc TypeError.
Proof.
  intros Hs Hp Hu. unfold _update_quotas, now, update_dict, update_obj, call_quota_persist. py_unfold.
  replace (obj w self) with s by (unfold obj; by rewrite Hs).
  unfold dict in *. cbn [dicts with_objs with_dicts fst snd].
  destruct (window_expired (default dummy_account (dicts w !! ms_config s)) (clock w)); destruct ms; cbn [dicts with_objs with_dicts fst snd];
    repeat (rewrite update_config_insert; [|reflexivity]); rewrite Hu, Hp; reflexivity.
Qed.

(** A computation that performs no counted I/O for the weight [1]
    performs none at all. *)
Lemma bounded_silent {A} (m : M A) w :
  bounded_by (fun _ => 1) 0 m -> trace (snd (m w)) = trace w.
Proof.
  intros Hb. destruct (Hb w) as (l & Ht & Hs). rewrite Ht.
  destruct l; [by rewrite app_nil_r | cbn in Hs; lia].
Qed.

(** The constructor with [quota_persist=None] on a dictionary that asks
    for persistence raises [TypeError] (line 53), silently. *)
Lemma Mail_sender_init_no_persist r nosend w :
  update_config (dict w r) = true ->
  fst (Mail_sender_init r None nosend w) = Exc TypeError /\
  trace (snd (Mail_sender_init r None nosend w)) = trace w.
Proof.
  intros Hu. unfold Mail_sender_init. py_unfold. cbn [fst snd].
  set (w2 := with_objs w _).
  assert (Hi : objs w2 !! length (objs w) =
    Some (mkMailSender (host (dict w r)) (port (dict w r)) (username (dict w r)) (password (dict w r))
            (sender_addr (dict w r)) (user_ssl (dict w r)) r nosend false None 0 false)).
  { cbn. by rewrite list_lookup_middle. }
  pose proof (update_quotas_no_persist _ false w2 _ Hi eq_refl Hu) as He.
  pose proof (bounded_silent (_update_quotas (length (objs w)) false) w2 (_update_quotas_quiet _ _ _)) as Ht.
  destruct (_update_quotas (length (objs w)) false w2) as [res w3]. cbn in He, Ht |- *.
  subst res. split; [done | exact Ht].
Qed.

(** C24. The test mode cannot test an account that persists its quota:
    [test_mail] builds [Mail_sender(connection, None)] (line 262), whose
    constructor calls [self.quota_persist()] when [update_config] is set,
    so when the first account has [update_config] the test raises
    [TypeError] without having opened any connection. *)
Theorem test_mail_persisting_account_raises a rest w :
  update_config a = true ->
  fst (test_mail (a :: rest) w) = Exc TypeError /\
  trace (snd (test_mail (a :: rest) w)) = trace w.
Proof.
  intros Hu. unfold test_mail. py_unfold. cbn [fst snd length seq test_connections].
  set (w1 := with_dicts w (dicts w ++ a :: rest)).
  assert (Hd : update_config (dict w1 (length (dicts w))) = true).
  { unfold dict. cbn. by rewrite list_lookup_middle. }
  destruct (Mail_sender_init_no_persist _ false w1 Hd) as [He Ht].
  unfold test_connection. py_unfold.
  destruct (Mail_sender_init (length (dicts w)) None false w1) as [res w2]. cbn in He, Ht |- *.
  subst res. split; [done | exact Ht].
Qed.

(** ** One connection attempt per account *)

(** The [update_config] flags of the loaded dictionaries. *)
Definition flags (w : world) : list bool := map update_config (dicts w).

Lemma dict_flag w q : update_config (dict w q) = default false (flags w !! q).
Proof. unfold dict, flags. rewrite list_lookup_fmap. by destruct (dicts w !! q). Qed.

Lemma flags_insert (ds : list account) r a a' :
  ds !! r = Some a -> update_config a' = update_config a ->
  map update_config (<[r := a']> ds) = map update_config ds.
Proof. intros Hr Ha. apply map_insert_same. intros b Hb. congruence. Qed.

(** The constructor with [quota_persist=None] on a dictionary without
    [update_config] returns normally and changes neither the script,
    the trace, nor the flags. *)
Lemma Mail_sender_init_quiet r nosend w a :
  dicts w !! r = Some a -> update_config a = false ->
  exists w', Mail_sender_init r None nosend w = (Ok (length (objs w)), w') /\
    replies w' = replies w /\ trace w' = trace w /\ flags w' = flags w.
Proof.
  intros Hr Hu. unfold Mail_sender_init. py_unfold. cbn [fst snd].
  set (w2 := with_objs w _).
  assert (Hi : objs w2 !! length (objs w) =
    Some (mkMailSender (host (dict w r)) (port (dict w r)) (username (dict w r)) (password (dict w r))
            (sender_addr (dict w r)) (user_ssl (dict w r)) r nosend false None 0 false)).
  { cbn. by rewrite list_lookup_middle. }
  assert (Hn : exists n, next_send_after (quota_counters a (clock w2) false) (clock w2) false = Some n).
  { unfold next_send_after. repeat case_match; eauto. }
  destruct Hn as [n Hn].
  rewrite (_update_quotas_ok _ false w2 _ r a n Hi eq_refl Hr (fun H => ltac:(congruence)) Hn).
  eexists. split; [reflexivity|]. split; [done|]. split; [done|].
  unfold flags. cbn. apply (flags_insert _ _ a); [exact Hr|].
  unfold quota_counters, window_check. by repeat case_match.
Qed.

Lemma connect_to_server_raises self Q : raises_only Q Q (connect_to_server self).
Proof. unfold connect_to_server. raises_only_solve. Qed.

Lemma close_raises_nothing self Q P : raises_only Q P (close self).
Proof.
  unfold close. eapply raises_only_bind; [apply raises_only_gets | intros s].
  eapply raises_only_bind; [|intros; apply raises_only_update_obj].
  apply raises_only_if; [|apply raises_only_ret].
  eapply (raises_only_try _ Q); [|intros; apply raises_only_ret].
  eapply raises_only_bind; [by apply raises_only_smtp | intros; apply raises_only_ret].
Qed.

Lemma connect_to_server_at_least self : emits_at_least is_connect 1 (connect_to_server self).
Proof.
  unfold connect_to_server. apply at_least_gets_bind. intros s.
  eapply (at_least_bind _ is_connect 1 1); [|intros; bounded_solve].
  apply at_least_if;
    (eapply (at_least_bind _ is_connect 1 1); [apply (at_least_smtp is_connect) | intros; bounded_solve]).
Qed.


Lemma test_attempt_raises sender :
  raises_only test_mail_catches (fun _ => false) (test_attempt sender).
Proof.
  unfold test_attempt. eapply (raises_only_try _ test_mail_catches).
  - eapply raises_only_bind; [apply connect_to_server_raises | intros; apply close_raises_nothing].
  - intros e ->. apply raises_only_ret.
Qed.

Lemma test_attempt_dicts sender w : dicts (snd (test_attempt sender w)) = dicts w.
Proof.
  revert w. cut (forall c, preserves (fun w => dicts w = c) (test_attempt sender)).
  { intros H w. by apply (H (dicts w)). }
  intros c. unfold test_attempt, connect_to_server, close. py_preserves;
    intros w Hw; unfold smtp, update_obj, modify in *; cbn; repeat case_match; cbn; exact Hw.
Qed.

Lemma test_attempt_connects sender w :
  exists l, trace (snd (test_attempt sender w)) = trace w ++ l /\ sum_list_with is_connect l = 1.
Proof.
  apply emits_exactly.
  - eapply (at_least_try _ is_connect 1 0); [|intros; bounded_solve].
    eapply (at_least_bind _ is_connect 1 0); [apply connect_to_server_at_least|].
    intros; by apply close_bounded.
  - unfold test_attempt. eapply (bounded_try _ 1 0); [|intros; bounded_solve|lia].
    eapply (bounded_bind _ 1 0); [apply connect_to_server_connects | intros; by apply close_bounded | lia].
Qed.

Lemma test_connection_ok r w a :
  dicts w !! r = Some a -> update_config a = false -> script_ok test_mail_catches w ->
  fst (test_connection r w) = Ok tt /\ script_ok test_mail_catches (snd (test_connection r w)) /\
  flags (snd (test_connection r w)) = flags w /\
  exists l, trace (snd (test_connection r w)) = trace w ++ l /\ sum_list_with is_connect l = 1.
Proof.
  intros Hr Hu Hs. destruct (Mail_sender_init_quiet r false w a Hr Hu) as (w1 & Hi & Hrep & Htr & Hfl).
  unfold test_connection. rewrite (bind_ok _ _ _ _ _ Hi).
  assert (Hs1 : script_ok test_mail_catches w1) by (unfold script_ok; by rewrite Hrep).
  destruct (test_attempt_raises (length (objs w)) w1 Hs1) as [Hs2 He].
  pose proof (test_attempt_dicts (length (objs w)) w1) as Hd.
  destruct (test_attempt_connects (length (objs w)) w1) as (l & Ht & Hl).
  split; [|split; [done | split; [unfold flags; by rewrite Hd | exists l; by rewrite Ht, Htr]]].
  destruct (test_attempt _ w1) as [[[]|e] w2]; [done|]. by specialize (He e eq_refl).
Qed.

Lemma flag_false_lookup w r :
  flags w !! r = Some false -> exists a, dicts w !! r = Some a /\ update_config a = false.
Proof.
  unfold flags. rewrite list_lookup_fmap. destruct (dicts w !! r) as [a|]; [|done].
  intros [= Ha]. by exists a.
Qed.

Lemma test_connections_ok refs : forall w,
  Forall (fun r => flags w !! r = Some false) refs -> script_ok test_mail_catches w ->
  fst (test_connections refs w) = Ok tt /\
  exists l, trace (snd (test_connections refs w)) = trace w ++ l /\ sum_list_with is_connect l = length refs.
Proof.
  induction refs as [|r rs IH]; intros w Hf Hs.
  { split; [done|]. exists []. by rewrite app_nil_r. }
  apply Forall_cons in Hf as [Hr Hrs].
  destruct (flag_false_lookup w r Hr) as (a & Ha & Hu).
  destruct (test_connection_ok r w a Ha Hu Hs) as (Hok & Hs1 & Hfl & l1 & Ht1 & Hl1).
  cbn [test_connections]. destruct (test_connection r w) as [res w1] eqn:Hc. cbn in Hok, Hs1, Hfl, Ht1.
  subst res. rewrite (bind_ok _ _ _ tt w1 Hc).
  destruct (IH w1) as [Hok2 (l2 & Ht2 & Hl2)]; [by rewrite Hfl | done |].
  split; [done|]. exists (l1 ++ l2). rewrite Ht2, Ht1, app_assoc, sum_list_with_app.
  split; [done | cbn; lia].
Qed.

(** C25. When no account asks for persistence and the servers raise
    only exceptions the [except] clauses catch (smtplib errors and
    [socket.error]), [test_mail] returns normally and makes exactly one
    connection attempt per account of the configuration. *)
Theorem test_mail_checks_each_account loaded w :
  Forall (fun a => update_config a = false) loaded -> script_ok test_mail_catches w ->
  fst (test_mail loaded w) = Ok tt /\
  exists l, trace (snd (test_mail loaded w)) = trace w ++ l /\
            sum_list_with is_connect l = length loaded.
Proof.
  intros Hf Hs. unfold test_mail. py_unfold. cbn [fst snd].
  pose proof (test_connections_ok (seq (length (dicts w)) (length loaded))
                (with_dicts w (dicts w ++ loaded))) as H.
  rewrite length_seq in H. apply H; [|exact Hs].
  apply Forall_forall. intros r Hr. apply elem_of_seq in Hr.
  unfold flags. cbn. rewrite list_lookup_fmap, lookup_app_r by lia.
  destruct (lookup_lt_is_Some_2 loaded (r - length (dicts w))) as [a Ha]; [lia|].
  rewrite Ha. cbn. f_equal. eapply Forall_lookup_1 in Hf; [exact Hf | exact Ha].
Qed.

(** ** Examples *)

(** An account that does not ask for persistence. *)
Definition quiet_account : account :=
  mkAccount "smtp.example.org" 587 "tester" "secret" "tester@example.org" false
    60 0 3 3 false false.

Lemma test_mail_persisting_account_raises_witness :
  update_config (example_account false 60 3) = true /\
  fst (test_mail [example_account false 60 3; quiet_account] (example_world [] ∅ 0)) = Exc TypeError /\
  trace (snd (test_mail [example_account false 60 3; quiet_account] (example_world [] ∅ 0))) = [].
Proof.
  split; [reflexivity|].
  apply (test_mail_persisting_account_raises _ _ (example_world [] ∅ 0)). reflexivity.
Defined.

(** The first server refuses the connection with a socket error, the
    second accepts everything: both accounts are tried once. *)
Lemma test_mail_checks_each_account_witness :
  let w := example_world [RRaise SocketError] ∅ 0 in
  fst (test_mail [quiet_account; quiet_account] w) = Ok tt /\
  exists l, trace (snd (test_mail [quiet_account; quiet_account] w)) = trace w ++ l /\
            sum_list_with is_connect l = 2.
Proof.
  intros w. apply (test_mail_checks_each_account [quiet_account; quiet_account] w).
  - repeat constructor.
  - unfold script_ok, w. cbn. repeat constructor.
Defined.
