(* ===== verification/Scheduler.v ===== *)
(** * Scheduler: [Excel_Mail_Sender._find_free_server] (sheetmail.py lines 210-212)

    [sorted(((x.next_send, x) for x in self.server_connections))[0]]:
    the pairs are ordered lexicographically, and two senders with the same
    [next_send] are ordered by the objects themselves, which for Python 2
    instances without comparison methods means by identity ([id()],
    [obj_id] here).  [sorted] is modelled as a stable insertion sort on
    this key ([sort_conns]), and [_find_free_server] takes its head and
    raises [IndexError] on an empty pool.

    The theorems: the head of the sort is the one-pass minimum
    ([scan_min]); the chosen sender has the earliest [next_send] of the
    pool and, among those, the smallest identity; the choice does not
    depend on the order of registration. *)

From S2P Require Import Prelude Quota World.

(** The sort key of a sender: [(x.next_send, x)]. *)
Definition sched_key (w : world) (i : nat) : Z * Z := (ms_next_send (obj w i), obj_id w i).

(** Python's [<] on such pairs. *)
Definition key_lt (k1 k2 : Z * Z) : bool :=
  (k1.1 <? k2.1)%Z || ((k1.1 =? k2.1)%Z && (k1.2 <? k2.2)%Z).

Section Sort.
Context (w : world).

(** Insert [i] after every element not greater than it (stability). *)
Fixpoint insert_conn (i : nat) (l : list nat) : list nat :=
  match l with
  | [] => [i]
  | j :: l' => if key_lt (sched_key w i) (sched_key w j) then i :: l else j :: insert_conn i l'
  end.

(** [sorted(...)], inserting the elements in their order. *)
Definition sort_conns (l : list nat) : list nat :=
  fold_left (fun acc i => insert_conn i acc) l [].

(** The reference: one pass keeping the first strict minimum. *)
Definition scan_min (best : nat) (l : list nat) : nat :=
  fold_left (fun b i => if key_lt (sched_key w i) (sched_key w b) then i else b) l best.
End Sort.

(** [_find_free_server]: the pair [(next_send, connection)]. *)
Definition _find_free_server (conns : list nat) : M (Z * nat) :=
  let* w := get in
  match sort_conns w conns with
  | i :: _ => ret (ms_next_send (obj w i), i)
  | [] => raise IndexError
  end.

(** ** The order on keys *)

Lemma key_lt_irrefl k : key_lt k k = false.
Proof. destruct k. unfold key_lt; simpl. rewrite !Z.ltb_irrefl, Z.eqb_refl. reflexivity. Qed.

Lemma key_lt_spec k1 k2 :
  key_lt k1 k2 = true <-> (k1.1 < k2.1 \/ (k1.1 = k2.1 /\ k1.2 < k2.2))%Z.
Proof.
  unfold key_lt. rewrite orb_true_iff, andb_true_iff, Z.ltb_lt, Z.eqb_eq, Z.ltb_lt. tauto.
Qed.

Lemma key_lt_trans k1 k2 k3 : key_lt k1 k2 = true -> key_lt k2 k3 = true -> key_lt k1 k3 = true.
Proof. rewrite !key_lt_spec. lia. Qed.

Lemma key_lt_asym k1 k2 : key_lt k1 k2 = true -> key_lt k2 k1 = false.
Proof.
  intros H. apply not_true_is_false. intros H'. pose proof (key_lt_trans _ _ _ H H').
  by rewrite key_lt_irrefl in *.
Qed.

(** [key_lt k2 k1 = false] reads [k1 <= k2]. *)
Lemma key_le_trans k1 k2 k3 :
  key_lt k2 k1 = false -> key_lt k3 k2 = false -> key_lt k3 k1 = false.
Proof. rewrite <- !not_true_iff_false, !key_lt_spec. lia. Qed.

Lemma key_lt_le_false k1 k2 k3 :
  key_lt k1 k2 = true -> key_lt k1 k3 = false -> key_lt k2 k3 = false.
Proof. rewrite <- !not_true_iff_false, !key_lt_spec. lia. Qed.

#[export] Hint Resolve key_lt_irrefl key_lt_asym : sheetmail.

(** ** The head of the sort is the one-pass minimum *)

Lemma insert_conn_head w i j l :
  head (insert_conn w i (j :: l)) =
  Some (if key_lt (sched_key w i) (sched_key w j) then i else j).
Proof. simpl. by destruct (key_lt _ _). Qed.

Lemma sort_head_scan w l : forall j acc,
  head (fold_left (fun acc i => insert_conn w i acc) l (j :: acc)) = Some (scan_min w j l).
Proof.
  induction l as [|i l IH]; intros j acc; [done|]. simpl.
  destruct (key_lt (sched_key w i) (sched_key w j)) eqn:Hk; simpl; rewrite ?Hk.
  - by rewrite IH.
  - by rewrite IH.
Qed.

Lemma find_free_server_cons (conns : list nat) (i : nat) (w : world) :
  _find_free_server (i :: conns) w = (Ok (ms_next_send (obj w (scan_min w i conns)), scan_min w i conns), w).
Proof.
  unfold _find_free_server. py_unfold. simpl.
  pose proof (sort_head_scan w conns i []) as H. unfold sort_conns. simpl.
  destruct (fold_left _ conns [i]) eqn:Hf; simpl in H; [discriminate|].
  injection H as ->. reflexivity.
Qed.

(** ** Minimality *)

Lemma scan_min_in w l : forall b, scan_min w b l = b \/ In (scan_min w b l) l.
Proof.
  induction l as [|i l IH]; intros b; [by left|]. simpl.
  destruct (key_lt _ _); destruct (IH i) as [->|H] || destruct (IH b) as [->|H]; simpl; auto.
Qed.

Lemma scan_min_le w l : forall b,
  key_lt (sched_key w b) (sched_key w (scan_min w b l)) = false /\
  Forall (fun j => key_lt (sched_key w j) (sched_key w (scan_min w b l)) = false) l.
Proof.
  induction l as [|i l IH]; intros b; simpl.
  - split; [apply key_lt_irrefl | constructor].
  - destruct (key_lt (sched_key w i) (sched_key w b)) eqn:Hk.
    + destruct (IH i) as [Hi Hall]. split; [by eapply key_lt_le_false | by constructor].
    + destruct (IH b) as [Hb Hall]. split; [done|]. constructor; [|done].
      by eapply key_le_trans.
Qed.

(** C13. The scheduler picks the earliest sender: for a non-empty pool,
    [_find_free_server] returns a member of the pool with its
    [next_send], no member has an earlier [next_send], and every member
    with the same [next_send] has an identity at least as large; the
    world is unchanged. *)
Theorem find_free_server_min (conns : list nat) (w : world) :
  conns <> [] ->
  exists i, _find_free_server conns w = (Ok (ms_next_send (obj w i), i), w) /\
    In i conns /\
    Forall (fun j => ms_next_send (obj w i) <= ms_next_send (obj w j) /\
                     (ms_next_send (obj w i) = ms_next_send (obj w j) -> obj_id w i <= obj_id w j))%Z
      conns.
Proof.
  destruct conns as [|c conns]; [done|]. intros _.
  exists (scan_min w c conns). split; [apply find_free_server_cons|]. split.
  - destruct (scan_min_in w conns c) as [->|H]; [by left | by right].
  - destruct (scan_min_le w conns c) as [Hc Hall].
    constructor; [|eapply Forall_impl; [exact Hall|]];
      [revert Hc | intros j Hj; revert Hj]; rewrite <- not_true_iff_false, key_lt_spec;
      unfold sched_key; simpl; lia.
Qed.

(** [sorted(...)[0]] equals a single pass that keeps the first
    element of least key, and an empty pool raises [IndexError]: sorting
    the pool is not needed to choose. *)
Theorem find_free_server_scan (conns : list nat) (w : world) :
  _find_free_server conns w =
  match conns with
  | [] => (Exc IndexError, w)
  | i :: l => (Ok (ms_next_send (obj w (scan_min w i l)), scan_min w i l), w)
  end.
Proof. destruct conns as [|i l]; [reflexivity | apply find_free_server_cons]. Qed.

(** An empty pool raises [IndexError] (line 212). *)
Lemma find_free_server_empty w : _find_free_server [] w = (Exc IndexError, w).
Proof. reflexivity. Qed.

(** Two senders with the same [next_send]: the one with the smaller
    identity goes first, whatever the order of registration. *)
Definition tie_world : world :=
  {| clock := 0; dicts := [example_account false 60 3];
     objs := [example_sender; example_sender];
     obj_id := fun n => if Nat.eqb n 0 then 100%Z else 50%Z;
     cells := ∅; dims := (0, 4); saved := None; config_file := None;
     replies := []; trace := [] |}.

Lemma find_free_server_min_witness :
  [0; 1] <> [] /\
  _find_free_server [0; 1] tie_world = (Ok (0%Z, 1), tie_world) /\
  exists i, _find_free_server [0; 1] tie_world = (Ok (ms_next_send (obj tie_world i), i), tie_world) /\
    In i [0; 1] /\
    Forall (fun j => ms_next_send (obj tie_world i) <= ms_next_send (obj tie_world j) /\
                     (ms_next_send (obj tie_world i) = ms_next_send (obj tie_world j) ->
                      obj_id tie_world i <= obj_id tie_world j))%Z [0; 1].
Proof.
  split; [discriminate|]. split; [reflexivity|].
  apply find_free_server_min. discriminate.
Defined.
