(* ===== verification/Dispatcher.v ===== *)
(** * Dispatcher: [Excel_Mail_Sender.run] and its driver (sheetmail.py lines 160-255, 365-370)

    [run] walks the rows of the sheet ([excel_data_iterator], lines
    18-23), skips the rows already marked, waits for the earliest
    sender, validates the row, calls [send_mail] and records the outcome
    in the status column, saving the workbook after every decision.  A
    [False] from [send_mail] stops the run without marking the row.

    The command-line options [run] reads are the record [params]: the
    dictionary [vars(parser.parse_args())] (line 334).  Its key
    ['staticsubject'] is always present (argparse stores [None] for an
    option that was not given), which [p_staticsubject] records as
    [Some CNone]; [None] would be a dictionary without the key.

    [process_row] is the body of the loop for one row and [run_rows] the
    loop; [main_run] is lines 365-370 with the [KeyboardInterrupt]
    handler that saves the workbook. *)

From S2P Require Import Prelude Quota World Sender Scheduler.

Record params := mkParams {
  p_colmail : nat;
  p_colsubject : nat;
  p_colbody : nat;
  p_colsend : nat;
  p_rowoffset : nat;
  (** [Some v]: the key ['staticsubject'] is in the dictionary, with
      value [v]. *)
  p_staticsubject : option cell;
  p_nosend : bool
}.

(** The row tuple [(row_number,) + tuple(row[i].value for i in
    selected_rows)] (line 23); a column past the end of the row raises
    [IndexError]. *)
Definition read_row (p : params) (r : nat) : M (cell * cell * cell * cell) :=
  let* w := get in
  if forallb (fun c => c <? (dims w).2) [p_colmail p; p_colsubject p; p_colbody p; p_colsend p]
  then ret (cell_at w r (p_colmail p), cell_at w r (p_colsubject p),
            cell_at w r (p_colbody p), cell_at w r (p_colsend p))
  else raise IndexError.

(** Line 223: [if row[4] and row[4] >= 1]. *)
Definition row_done (send : cell) : bool := py_truthy send && py_ge_one send.

(** Line 234: [if not row[1] or not row[2] or not row[3]]. *)
Definition row_invalid (mail subject body : cell) : bool :=
  negb (py_truthy mail) || negb (py_truthy subject) || negb (py_truthy body).

(** Lines 221-222: the subject after the [staticsubject] override. *)
Definition row_subject (p : params) (subject : cell) : cell :=
  match p_staticsubject p with
  | Some v => v
  | None => subject
  end.

(** Lines 228-231: sleep until [next_send] if it is in the future. *)
Definition wait_until (next_send : Z) : M unit :=
  let* t := now in
  if (t <? next_send)%Z then
    let* t' := now in sleep (next_send - t')
  else ret tt.

(** What lines 233-242 decide for a row: [failed], or the [status]
    returned by [send_mail]. *)
Inductive outcome :=
| Failed
| Status (ok : bool).

(** Lines 244-245 and 249-250: set the status cell and save. *)
Definition mark_row (p : params) (r : nat) (v : Z) : M unit :=
  write_cell r (p_colsend p) (CNum v) ;; save_workbook.

(** The body of the loop for the row [r] with the values [row]:
    [true] to go on, [false] for [return False] (line 255). *)
Definition process_row (p : params) (conns : list nat) (r : nat)
    (row : cell * cell * cell * cell) : M bool :=
  let '(mail, subject0, body, send) := row in
  let subject := row_subject p subject0 in
  if row_done send then ret true
  else
    let* sel := _find_free_server conns in
    let '(next_send, connection) := sel in
    wait_until next_send ;;
    let* o :=
      if row_invalid mail subject body then ret Failed
      else try_ (let* st := send_mail connection mail subject body 3 5 in ret (Status st))
                (fun e => match e with
                          | SMTPRecipientsRefused => ret Failed
                          | _ => raise e
                          end) in
    match o with
    | Failed => mark_row p r 2 ;; ret true
    | Status true => mark_row p r 1 ;; ret true
    | Status false => ret false
    end.

(** The [for] loop of line 219 over the row numbers [rows]; [true] when
    it runs to its end ([run] returns [None]), [false] when it returns
    [False]. *)
Fixpoint run_rows (p : params) (conns : list nat) (rows : list nat) : M bool :=
  match rows with
  | [] => ret true
  | r :: rs =>
      if r <? p_rowoffset p then run_rows p conns rs
      else
        let* row := read_row p r in
        let* go_on := process_row p conns r row in
        if go_on then run_rows p conns rs else ret false
  end.

(** [Excel_Mail_Sender.run] (lines 217-255). *)
Definition run (p : params) (conns : list nat) : M bool :=
  let* w := get in
  run_rows p conns (seq 0 (dims w).1).

(** Lines 366-370: [run], and on [KeyboardInterrupt] the workbook is
    saved ([Excel_Mail_Sender.close], lines 214-215). *)
Definition main_run (p : params) (conns : list nat) : M unit :=
  try_ (run p conns ;; ret tt)
    (fun e => match e with
              | KeyboardInterrupt => save_workbook
              | _ => raise e
              end).

(** The senders of [Excel_Mail_Sender.init] (lines 195-201): one
    [Mail_sender] per dictionary of [mail_user], each given
    [_persist_config] of the whole list. *)
Fixpoint init_senders (mail_user refs : list nat) (nosend : bool) : M (list nat) :=
  match refs with
  | [] => ret []
  | r :: rs =>
      let* i := Mail_sender_init r (Some mail_user) nosend in
      let* others := init_senders mail_user rs nosend in
      ret (i :: others)
  end.

(** ** One row *)

(** The world after [wait_until next_send]. *)
Definition waited (next_send : Z) (w : world) : world :=
  if (clock w <? next_send)%Z
  then with_io w (clock w + (next_send - clock w)) (replies w) (trace w ++ [EvSleep (next_send - clock w)])
  else w.

Lemma wait_until_run ns w : wait_until ns w = (Ok tt, waited ns w).
Proof. unfold wait_until, waited. py_unfold. simpl. by destruct (clock w <? ns)%Z. Qed.

(** The world after [mark_row p r v]: the status cell is [v] and the
    workbook on disk is the one in memory. *)
Definition marked (p : params) (r : nat) (v : Z) (w : world) : world :=
  with_files w (<[(r, p_colsend p) := CNum v]> (cells w))
    (Some (<[(r, p_colsend p) := CNum v]> (cells w))) (config_file w).

Lemma mark_row_run p r v w : mark_row p r v w = (Ok tt, marked p r v w).
Proof. reflexivity. Qed.

Lemma cell_at_marked p r v w r' c' :
  cell_at (marked p r v w) r' c' =
  if decide ((r, p_colsend p) = (r', c')) then CNum v else cell_at w r' c'.
Proof.
  unfold cell_at, marked; simpl. case_decide as Heq.
  - by rewrite Heq, lookup_insert_eq.
  - by rewrite lookup_insert_ne.
Qed.

Lemma process_row_done p conns r mail subject body send w :
  row_done send = true -> process_row p conns r (mail, subject, body, send) w = (Ok true, w).
Proof. intros Hd. unfold process_row. by rewrite Hd. Qed.

(** The two branches of [process_row] for a pending row, once the
    scheduler chose sender [i] and the dispatcher waited for it. *)
Lemma process_row_valid_run p conns r mail subject body send w ns i :
  row_done send = false ->
  _find_free_server conns w = (Ok (ns, i), w) ->
  row_invalid mail (row_subject p subject) body = false ->
  process_row p conns r (mail, subject, body, send) w =
  match send_mail i mail (row_subject p subject) body 3 5 (waited ns w) with
  | (Ok true, w2) => (Ok true, marked p r 1 w2)
  | (Ok false, w2) => (Ok false, w2)
  | (Exc SMTPRecipientsRefused, w2) => (Ok true, marked p r 2 w2)
  | (Exc e, w2) => (Exc e, w2)
  end.
Proof.
  intros Hd Hsel Hinv. unfold process_row. rewrite Hd.
  rewrite (bind_ok _ _ w (ns, i) w Hsel).
  rewrite (bind_ok _ _ w tt (waited ns w) (wait_until_run ns w)). rewrite Hinv.
  destruct (send_mail i mail (row_subject p subject) body 3 5 (waited ns w)) as [[b|e] w2] eqn:Hs.
  - rewrite (bind_ok _ _ _ (Status b) w2); [by destruct b|].
    apply try_ok. by rewrite (bind_ok _ _ _ b w2 Hs).
  - unfold bind at 1. rewrite (try_exc _ _ _ e w2); [|by rewrite (bind_exc _ _ _ e w2 Hs)].
    by destruct e.
Qed.

Lemma process_row_invalid_run p conns r mail subject body send w ns i :
  row_done send = false ->
  _find_free_server conns w = (Ok (ns, i), w) ->
  row_invalid mail (row_subject p subject) body = true ->
  process_row p conns r (mail, subject, body, send) w = (Ok true, marked p r 2 (waited ns w)).
Proof.
  intros Hd Hsel Hinv. unfold process_row. rewrite Hd.
  rewrite (bind_ok _ _ w (ns, i) w Hsel).
  rewrite (bind_ok _ _ w tt (waited ns w) (wait_until_run ns w)). by rewrite Hinv.
Qed.

(** C2. The outcome of a pending, valid row, once the scheduler chose
    sender [i] with [next_send = ns] and the dispatcher waited for it:
    a delivered mail marks the row [1], a refused recipient marks it [2]
    (both saved at once, and the run goes on), [False] from [send_mail]
    stops the run and leaves the row as it was, and any other exception
    escapes [run] with the row unmarked. *)
Theorem process_row_outcome p conns r mail subject body send w ns i :
  row_done send = false ->
  _find_free_server conns w = (Ok (ns, i), w) ->
  row_invalid mail (row_subject p subject) body = false ->
  process_row p conns r (mail, subject, body, send) w =
  match send_mail i mail (row_subject p subject) body 3 5 (waited ns w) with
  | (Ok true, w2) => (Ok true, marked p r 1 w2)
  | (Ok false, w2) => (Ok false, w2)
  | (Exc SMTPRecipientsRefused, w2) => (Ok true, marked p r 2 w2)
  | (Exc e, w2) => (Exc e, w2)
  end.
Proof. apply process_row_valid_run. Qed.

(** C3. A row with an empty recipient, subject or body is marked [2]
    without any SMTP call and without consuming quota, but only after the
    dispatcher has chosen a sender and slept until that sender's
    [next_send] (the check of line 234 comes after the wait of lines
    227-231; spec.md says no account is selected). *)
Theorem process_row_invalid p conns r mail subject body send w ns i :
  row_done send = false ->
  _find_free_server conns w = (Ok (ns, i), w) ->
  row_invalid mail (row_subject p subject) body = true ->
  process_row p conns r (mail, subject, body, send) w = (Ok true, marked p r 2 (waited ns w)).
Proof. apply process_row_invalid_run. Qed.

(** ** Whole runs *)

Definition cols_ok (p : params) (w : world) : bool :=
  forallb (fun c => c <? (dims w).2) [p_colmail p; p_colsubject p; p_colbody p; p_colsend p].

Lemma read_row_run p r w :
  read_row p r w =
  if cols_ok p w
  then (Ok (cell_at w r (p_colmail p), cell_at w r (p_colsubject p),
            cell_at w r (p_colbody p), cell_at w r (p_colsend p)), w)
  else (Exc IndexError, w).
Proof. unfold read_row, cols_ok. py_unfold. simpl. by case_match. Qed.

Lemma find_free_server_state conns w : snd (_find_free_server conns w) = w.
Proof. unfold _find_free_server. py_unfold. simpl. by destruct (sort_conns w conns). Qed.

Lemma find_free_server_cases conns w :
  _find_free_server conns w = (Exc IndexError, w) \/
  exists ns i, _find_free_server conns w = (Ok (ns, i), w).
Proof.
  unfold _find_free_server. py_unfold. simpl.
  destruct (sort_conns w conns); [by left | right; eauto].
Qed.

Lemma sheet_of_waited ns w : sheet_of (waited ns w) = sheet_of w.
Proof. unfold waited. by destruct (clock w <? ns)%Z. Qed.

Lemma sheet_of_send_mail i mt ms mb rt st w :
  sheet_of (snd (send_mail i mt ms mb rt st w)) = sheet_of w.
Proof. by apply (keeps_sheet_send_mail i mt ms mb rt st (sheet_of w)). Qed.

(** Everything [process_row] leaves of the sheet but the status cell. *)
Definition sheet_frame (p : params) (r : nat) (w w' : world) : Prop :=
  dims w' = dims w /\
  forall r' c', (r', c') <> (r, p_colsend p) -> cell_at w' r' c' = cell_at w r' c'.

Lemma sheet_frame_marked p r v w w2 :
  sheet_of w2 = sheet_of w -> sheet_frame p r w (marked p r v w2).
Proof.
  intros Hs. injection Hs as Hc Hd _. split; [done|].
  intros r' c' Hne. rewrite cell_at_marked.
  case_decide; [congruence|]. unfold cell_at. by rewrite Hc.
Qed.

(** After a row is processed and the run goes on, its status cell says
    it is done, and no other cell changed. *)
Lemma process_row_post p conns r w w' :
  cols_ok p w = true ->
  process_row p conns r (cell_at w r (p_colmail p), cell_at w r (p_colsubject p),
                         cell_at w r (p_colbody p), cell_at w r (p_colsend p)) w = (Ok true, w') ->
  row_done (cell_at w' r (p_colsend p)) = true /\ sheet_frame p r w w'.
Proof.
  intros Hcols Hrun.
  destruct (row_done (cell_at w r (p_colsend p))) eqn:Hd.
  { rewrite process_row_done in Hrun by done. injection Hrun as <-.
    split; [done | split; [done | by intros]]. }
  destruct (find_free_server_cases conns w) as [Hsel | (ns & i & Hsel)].
  { unfold process_row in Hrun. rewrite Hd in Hrun.
    by rewrite (bind_exc _ _ _ IndexError w Hsel) in Hrun. }
  destruct (row_invalid (cell_at w r (p_colmail p))
              (row_subject p (cell_at w r (p_colsubject p))) (cell_at w r (p_colbody p))) eqn:Hinv.
  - rewrite (process_row_invalid_run _ _ _ _ _ _ _ _ ns i Hd Hsel Hinv) in Hrun.
    injection Hrun as <-. split.
    + rewrite cell_at_marked. by rewrite decide_True.
    + apply sheet_frame_marked, sheet_of_waited.
  - rewrite (process_row_valid_run _ _ _ _ _ _ _ _ ns i Hd Hsel Hinv) in Hrun.
    pose proof (sheet_of_send_mail i (cell_at w r (p_colmail p))
                  (row_subject p (cell_at w r (p_colsubject p))) (cell_at w r (p_colbody p))
                  3 5 (waited ns w)) as Hsh.
    rewrite sheet_of_waited in Hsh.
    destruct (send_mail _ _ _ _ _ _ (waited ns w)) as [[[|]|[]] w2]; try discriminate;
      injection Hrun as <-; (split; [rewrite cell_at_marked; by rewrite decide_True
                                    | by apply sheet_frame_marked]).
Qed.

Lemma cols_ok_dims p w w' : dims w' = dims w -> cols_ok p w' = cols_ok p w.
Proof. unfold cols_ok. by intros ->. Qed.

(** Unfolds one iteration of [run_rows] on a row at or after the offset
    whose columns exist. *)
Lemma run_rows_cons p conns r rs w :
  p_rowoffset p <= r -> cols_ok p w = true ->
  run_rows p conns (r :: rs) w =
  bind (process_row p conns r (cell_at w r (p_colmail p), cell_at w r (p_colsubject p),
                               cell_at w r (p_colbody p), cell_at w r (p_colsend p)))
       (fun go => if go then run_rows p conns rs else ret false) w.
Proof.
  intros Ho Hc. cbn [run_rows]. destruct (Nat.ltb_spec r (p_rowoffset p)); [lia|].
  erewrite bind_ok; [reflexivity|]. by rewrite read_row_run, Hc.
Qed.

(** The status rows of a run: at or after the offset. *)
Definition status_row (p : params) (rows : list nat) (r : nat) : Prop :=
  r ∈ rows /\ p_rowoffset p <= r.

Lemma run_rows_completed p conns rows : forall w w',
  NoDup rows -> run_rows p conns rows w = (Ok true, w') ->
  dims w' = dims w /\
  (forall r' c', (forall r, status_row p rows r -> (r', c') <> (r, p_colsend p)) ->
     cell_at w' r' c' = cell_at w r' c') /\
  (forall r, status_row p rows r -> row_done (cell_at w' r (p_colsend p)) = true /\ cols_ok p w' = true).
Proof.
  induction rows as [|r rs IH]; intros w w' Hnd Hrun.
  { injection Hrun as <-. split; [done|]. split; [done|]. intros r [Hr _]. set_solver. }
  apply NoDup_cons in Hnd as [Hnotin Hnd].
  destruct (Nat.ltb_spec r (p_rowoffset p)) as [Ho|Ho].
  { cbn [run_rows] in Hrun. rewrite (proj2 (Nat.ltb_lt _ _) Ho) in Hrun.
    destruct (IH w w' Hnd Hrun) as (Hd & Hf & Hdone). split; [done|]. split.
    - intros r' c' Hne. apply Hf. intros r0 [Hin Hle]. apply Hne. split; [set_solver|done].
    - intros r0 [Hin Hle]. rewrite elem_of_cons in Hin. destruct Hin as [->|Hin]; [lia|].
      apply Hdone. by split. }
  destruct (cols_ok p w) eqn:Hc.
  2: { cbn [run_rows] in Hrun. destruct (Nat.ltb_spec r (p_rowoffset p)); [lia|].
       rewrite (bind_exc _ _ w IndexError w) in Hrun; [discriminate|]. by rewrite read_row_run, Hc. }
  rewrite run_rows_cons in Hrun by done.
  destruct (process_row p conns r (cell_at w r (p_colmail p), cell_at w r (p_colsubject p),
             cell_at w r (p_colbody p), cell_at w r (p_colsend p)) w) as [[go|e] w1] eqn:Hp.
  2: { by rewrite (bind_exc _ _ _ e w1 Hp) in Hrun. }
  rewrite (bind_ok _ _ _ go w1 Hp) in Hrun. destruct go; [|discriminate].
  destruct (process_row_post p conns r w w1 Hc Hp) as [Hrd [Hd1 Hf1]].
  destruct (IH w1 w' Hnd Hrun) as (Hd & Hf & Hdone).
  split; [congruence|]. split.
  - intros r' c' Hne. rewrite Hf, Hf1; [done| |].
    + apply Hne. split; [set_solver|done].
    + intros r0 [Hin Hle]. apply Hne. split; [set_solver|done].
  - intros r0 [Hin Hle]. rewrite elem_of_cons in Hin. destruct Hin as [->|Hin].
    + rewrite Hf; [split; [done|]|].
      * rewrite (cols_ok_dims p w w'); [done|congruence].
      * intros r1 [Hin1 _] Heq. injection Heq as ->. by apply Hnotin.
    + apply Hdone. by split.
Qed.

Lemma run_rows_idle p conns rows w :
  (forall r, status_row p rows r -> row_done (cell_at w r (p_colsend p)) = true /\ cols_ok p w = true) ->
  run_rows p conns rows w = (Ok true, w).
Proof.
  induction rows as [|r rs IH]; intros Hall; [done|].
  destruct (Nat.ltb_spec r (p_rowoffset p)) as [Ho|Ho].
  - cbn [run_rows]. rewrite (proj2 (Nat.ltb_lt _ _) Ho). apply IH.
    intros r0 [Hin Hle]. apply Hall. split; [set_solver|done].
  - destruct (Hall r) as [Hd Hc]; [split; [set_solver|done]|].
    rewrite run_rows_cons by done. rewrite (bind_ok _ _ w true w); [|by apply process_row_done].
    apply IH. intros r0 [Hin Hle]. apply Hall. split; [set_solver|done].
Qed.

(** C1. Re-running never resends: once a run has gone through the whole
    sheet (it returned normally), every row at or after the offset is
    marked [1] or [2] or was already marked, so a second run on the saved
    sheet, whatever the servers and the clock do, performs no I/O at all
    and changes nothing. *)
Theorem rerun_is_idle p conns w w' w2 :
  run p conns w = (Ok true, w') ->
  cells w2 = cells w' -> dims w2 = dims w' ->
  run p conns w2 = (Ok true, w2).
Proof.
  intros Hrun Hc Hd. unfold run in *. py_unfold. cbn in Hrun |- *.
  destruct (run_rows_completed p conns _ w w' (NoDup_seq 0 _) Hrun) as (Hd' & _ & Hdone).
  rewrite Hd, Hd'. apply run_rows_idle.
  intros r Hr. destruct (Hdone r Hr) as [Hrd Hco].
  unfold cell_at. rewrite Hc. split; [done|]. by rewrite (cols_ok_dims p w' w2).
Qed.

(** ** The [staticsubject] default *)

Lemma find_free_server_quiet f conns : bounded_by f 0 (_find_free_server conns).
Proof. apply bounded_quiet. intros w. by rewrite find_free_server_state. Qed.

Lemma read_row_quiet f p r : bounded_by f 0 (read_row p r).
Proof. unfold read_row. bounded_solve. Qed.

Lemma wait_until_bounded f ns :
  (forall d, f (EvSleep d) = 0) -> bounded_by f 0 (wait_until ns).
Proof.
  intros Hs. unfold wait_until, now.
  eapply (bounded_bind f 0 0); [apply bounded_gets | intros t | lia].
  eapply (bounded_mono f (Nat.max 0 0)); [lia|]. apply bounded_if; [|apply bounded_ret].
  eapply (bounded_bind f 0 0); [apply bounded_gets | intros t' | lia].
  rewrite <- (Hs (ns - t')%Z). apply bounded_sleep.
Qed.

#[export] Hint Resolve find_free_server_quiet read_row_quiet : sheetmail.

(** A row whose subject is [None] after the override is never sent:
    [process_row] does no SMTP and no sleeping other than the wait. *)
Lemma process_row_no_smtp f p conns r row :
  (forall d, f (EvSleep d) = 0) ->
  row_subject p row.1.1.2 = CNone ->
  bounded_by f 0 (process_row p conns r row).
Proof.
  intros Hs Hsub. destruct row as [[[mail subject0] body] send]. cbn in Hsub.
  unfold process_row. rewrite Hsub.
  replace (row_invalid mail CNone body) with true by (unfold row_invalid; cbn; by rewrite orb_true_r).
  pose proof (wait_until_bounded f).
  unfold mark_row. bounded_solve.
Qed.

Lemma run_rows_no_smtp f p conns rows :
  (forall d, f (EvSleep d) = 0) -> p_staticsubject p = Some CNone ->
  bounded_by f 0 (run_rows p conns rows).
Proof.
  intros Hs Hp. induction rows as [|r rs IH]; [apply bounded_ret|]. cbn [run_rows].
  case_match; [done|].
  eapply (bounded_bind f 0 0); [apply read_row_quiet | intros row | lia].
  eapply (bounded_bind f 0 0); [ | intros [|]; [done | apply bounded_ret] | lia].
  apply process_row_no_smtp; [done|]. unfold row_subject. by rewrite Hp.
Qed.

(** C14. With the command line as the parser builds it, the option
    [--staticsubject] left out still puts the key ['staticsubject'] into
    the dictionary with the value [None] (lines 341 and 221-222), every
    subject becomes [None] and every pending row is rejected as invalid:
    [run] then opens no SMTP connection and sends no mail at all. *)
Theorem staticsubject_default_sends_nothing p conns :
  p_staticsubject p = Some CNone ->
  bounded_by is_sendmail 0 (run p conns) /\ bounded_by is_connect 0 (run p conns).
Proof.
  intros Hp. unfold run.
  split; (eapply (bounded_bind _ 0 0); [apply bounded_get | intros w | lia]);
    by apply run_rows_no_smtp.
Qed.

(** ** The workbook on disk *)

(** Relative to the world [w0] a run started from, the workbook is
    untouched, or the file on disk is the sheet in memory. *)
Definition disk_synced (w0 w : world) : Prop :=
  sheet_of w = sheet_of w0 \/ (dims w = dims w0 /\ saved w = Some (cells w)).

Lemma disk_synced_refl w : disk_synced w w.
Proof. by left. Qed.

Lemma disk_synced_trans w0 w1 w2 :
  disk_synced w0 w1 -> disk_synced w1 w2 -> disk_synced w0 w2.
Proof.
  unfold disk_synced, sheet_of. intros [H1|[Hd1 Hs1]] [H2|[Hd2 Hs2]]; simplify_eq.
  - left. congruence.
  - right. split; congruence.
  - right. split; congruence.
  - right. split; congruence.
Qed.

Lemma disk_synced_marked p r v w0 w :
  sheet_of w = sheet_of w0 -> disk_synced w0 (marked p r v w).
Proof. intros Hs. injection Hs as _ Hd _. right. by split. Qed.

Lemma process_row_synced p conns r row w : disk_synced w (snd (process_row p conns r row w)).
Proof.
  destruct row as [[[mail subject] body] send].
  destruct (row_done send) eqn:Hd; [rewrite process_row_done by done; apply disk_synced_refl|].
  destruct (find_free_server_cases conns w) as [Hsel | (ns & i & Hsel)].
  { unfold process_row. rewrite Hd, (bind_exc _ _ _ _ _ Hsel). apply disk_synced_refl. }
  destruct (row_invalid mail (row_subject p subject) body) eqn:Hinv.
  - rewrite (process_row_invalid_run _ _ _ _ _ _ _ _ ns i Hd Hsel Hinv).
    apply disk_synced_marked, sheet_of_waited.
  - rewrite (process_row_valid_run _ _ _ _ _ _ _ _ ns i Hd Hsel Hinv).
    pose proof (sheet_of_send_mail i mail (row_subject p subject) body 3 5 (waited ns w)) as Hsh.
    rewrite sheet_of_waited in Hsh.
    destruct (send_mail _ _ _ _ _ _ (waited ns w)) as [[[|]|[]] w2]; cbn [snd];
      first [by apply disk_synced_marked | by left].
Qed.

Lemma run_rows_synced p conns rows : forall w, disk_synced w (snd (run_rows p conns rows w)).
Proof.
  induction rows as [|r rs IH]; intros w; [apply disk_synced_refl|]. cbn [run_rows].
  case_match; [apply IH|].
  unfold bind at 1. rewrite read_row_run. destruct (cols_ok p w); [|apply disk_synced_refl].
  unfold bind. pose proof (process_row_synced p conns r
    (cell_at w r (p_colmail p), cell_at w r (p_colsubject p),
     cell_at w r (p_colbody p), cell_at w r (p_colsend p)) w) as Hp.
  destruct (process_row _ _ _ _ w) as [[[|]|e] w1]; cbn [snd] in *;
    [eapply disk_synced_trans; [exact Hp | apply IH] | exact Hp | exact Hp].
Qed.

(** C15. However the program stops, normally, by [return False], by an
    exception escaping [run], or by Ctrl-C ([KeyboardInterrupt], after
    which lines 369-370 save the workbook), either the workbook was not
    touched or the file on disk holds exactly the sheet in memory: every
    row marked during the run is saved, so a new run resumes where this
    one stopped. *)
Theorem main_run_saves_marks p conns w :
  disk_synced w (snd (main_run p conns w)).
Proof.
  unfold main_run, try_. unfold bind at 1.
  pose proof (run_rows_synced p conns (seq 0 (dims w).1) w) as Hs.
  unfold run. py_unfold. cbn [fst snd] in *.
  destruct (run_rows p conns (seq 0 (dims w).1) w) as [[b|e] w1]; cbn [snd] in *; [exact Hs|].
  destruct e; cbn [snd]; try exact Hs.
  right. destruct Hs as [Hs|[Hd _]]; [injection Hs as _ Hd _|]; by split.
Qed.

(** ** Examples *)

(** The command line with its defaults (lines 322-326). *)
Definition cli_params (staticsubject : option cell) : params :=
  mkParams 0 1 2 3 1 staticsubject false.

(** A sheet with a header row and one pending row. *)
Definition example_sheet : gmap (nat * nat) cell :=
  <[(1, 0) := CStr "a@example.org"]> (<[(1, 1) := CStr "hi"]> (<[(1, 2) := CStr "body"]> ∅)).

Definition row_world (rs : list reply) : world :=
  with_objs (example_world rs example_sheet 2) [set_connected true example_sender].

Lemma process_row_outcome_witness :
  let w := row_world [ROk] in
  process_row (cli_params None) [0] 1 (CStr "a@example.org", CStr "hi", CStr "body", CNone) w =
  (Ok true, marked (cli_params None) 1 1
              (snd (send_mail 0 (CStr "a@example.org") (CStr "hi") (CStr "body") 3 5 w))).
Proof.
  intros w. rewrite (process_row_outcome (cli_params None) [0] 1 _ _ _ _ w 0 0)
    by (unfold w; vm_compute; reflexivity).
  unfold w. vm_compute. reflexivity.
Defined.

Lemma process_row_invalid_witness :
  let w := row_world [] in
  process_row (cli_params None) [0] 1 (CNone, CStr "hi", CStr "body", CNone) w =
  (Ok true, marked (cli_params None) 1 2 (waited 0 w)).
Proof.
  intros w. apply (process_row_invalid (cli_params None) [0] 1 _ _ _ _ w 0 0);
    unfold w; vm_compute; reflexivity.
Defined.

Lemma rerun_is_idle_witness :
  let w' := snd (run (cli_params None) [0] (row_world [ROk])) in
  let w2 := with_io w' 100 [RRaise SocketError] [] in
  run (cli_params None) [0] w2 = (Ok true, w2).
Proof.
  intros w' w2. apply (rerun_is_idle (cli_params None) [0] (row_world [ROk]) w' w2);
    unfold w2, w'; vm_compute; reflexivity.
Defined.

Lemma staticsubject_default_sends_nothing_witness :
  p_staticsubject (cli_params (Some CNone)) = Some CNone /\
  bounded_by is_sendmail 0 (run (cli_params (Some CNone)) [0]) /\
  bounded_by is_connect 0 (run (cli_params (Some CNone)) [0]).
Proof.
  split; [reflexivity|]. apply staticsubject_default_sends_nothing. reflexivity.
Defined.
