(* ===== verification/Completion.v ===== *)
(** * Completion: what [run] does when the servers accept everything

    The other files describe each outcome of a row.  This one shows that
    [Excel_Mail_Sender.run] (sheetmail.py lines 217-255) goes through the
    whole sheet when nothing fails: if every SMTP call succeeds, every
    sender of the pool can compute its quota (a persistence callback when
    its dictionary asks for one, a non-zero allowance in fixed pacing),
    the selected columns exist and no recipient, subject or body holds a
    number, then [run] returns normally and every row from the offset on
    is marked.  It also shows the failures the last condition avoids: a
    number in the recipient column ([",".join], line 94), or as subject
    or body ([MIMEText] at line 91, [msg.as_string()] at line 97),
    escapes [run] as a [TypeError], the row unmarked.  Composed with the creation of the pool in
    [Excel_Mail_Sender.init] (lines 195-201), the same holds from the
    loaded configuration on: [init_then_run_completes].

    The tool is [hoare_ok I Q m]: from a state satisfying [I], [m]
    returns normally with a result satisfying [Q] in a state satisfying
    [I].  The invariant used is [accepting c]: the reply script is empty
    (smtplib answers every call) and the configuration part of the state
    ([config_view], which the run never changes) is [c]. *)

From S2P Require Import Prelude Quota World Sender Scheduler Dispatcher.

(** ** Total correctness without exceptions *)

Definition hoare_ok {A} (I : world -> Prop) (Q : A -> Prop) (m : M A) : Prop :=
  forall w, I w -> exists a, m w = (Ok a, snd (m w)) /\ Q a /\ I (snd (m w)).

Section HoareOk.
Context (I : world -> Prop).

Lemma hoare_ok_ret {A} (a : A) : hoare_ok I (fun x => x = a) (ret a).
Proof. intros w Hw. by exists a. Qed.

Lemma hoare_ok_gets {A} (g : world -> A) : hoare_ok I (fun _ => True) (gets g).
Proof. intros w Hw. by eexists. Qed.

Lemma hoare_ok_modify g : (forall w, I w -> I (g w)) -> hoare_ok I (fun _ => True) (modify g).
Proof. intros Hg w Hw. exists tt. cbn. auto. Qed.

Lemma hoare_ok_weaken {A} (Q Q' : A -> Prop) m :
  hoare_ok I Q m -> (forall a, Q a -> Q' a) -> hoare_ok I Q' m.
Proof. intros Hm HQ w Hw. destruct (Hm w Hw) as (a & ? & ? & ?). eauto. Qed.

Lemma hoare_ok_bind {A B} (Q1 : A -> Prop) (Q2 : B -> Prop) m h :
  hoare_ok I Q1 m -> (forall a, Q1 a -> hoare_ok I Q2 (h a)) -> hoare_ok I Q2 (bind m h).
Proof.
  intros Hm Hh w Hw. destruct (Hm w Hw) as (a & Heq & Ha & Hw1).
  destruct (Hh a Ha _ Hw1) as (b & Heq2 & Hb & Hw2).
  exists b. unfold bind. rewrite Heq. cbn. rewrite Heq2 at 1. by rewrite Heq2.
Qed.

Lemma hoare_ok_if {A} (Q : A -> Prop) (b : bool) m1 m2 :
  hoare_ok I Q m1 -> hoare_ok I Q m2 -> hoare_ok I Q (if b then m1 else m2).
Proof. by destruct b. Qed.

Lemma hoare_ok_try {A} (Q : A -> Prop) m h : hoare_ok I Q m -> hoare_ok I Q (try_ m h).
Proof.
  intros Hm w Hw. destruct (Hm w Hw) as (a & Heq & Ha & Hw1).
  exists a. unfold try_. rewrite Heq. auto.
Qed.
End HoareOk.

(** ** The configuration a run never changes *)

Definition sender_config (s : mail_sender) : nat * option (list nat) :=
  (ms_config s, ms_quota_persist s).

Definition account_config (a : account) : bool * bool * Z :=
  (update_config a, use_fixed_delay a, allowed_requests a).

Definition config_view (w : world) :=
  (map sender_config (objs w), map account_config (dicts w)).

(** Servers that accept every call, and the configuration [c]. *)
Definition accepting (c : list (nat * option (list nat)) * list (bool * bool * Z)) (w : world) : Prop :=
  config_view w = c /\ replies w = [].

(** The sender [i] can count its sends: its dictionary exists, has a
    persistence callback when it asks for one, and a non-zero allowance
    in fixed pacing. *)
Definition sender_ready (w : world) (i : nat) : Prop :=
  exists s a, objs w !! i = Some s /\ dicts w !! ms_config s = Some a /\
    (update_config a = true -> is_Some (ms_quota_persist s)) /\
    (use_fixed_delay a = true -> allowed_requests a <> 0%Z).

(** ** The primitives keep the servers accepting and the configuration *)

Lemma map_eq_lookup {A B} (g : A -> B) (l l' : list A) i x :
  map g l = map g l' -> l !! i = Some x -> exists x', l' !! i = Some x' /\ g x' = g x.
Proof.
  intros Hm Hi. apply (f_equal (fun l => l !! i)) in Hm.
  rewrite !list_lookup_fmap, Hi in Hm. destruct (l' !! i) as [x'|]; [|done].
  injection Hm as Hg. by exists x'.
Qed.

(** Readiness depends on the configuration only. *)
Lemma sender_ready_view w w' i :
  config_view w' = config_view w -> sender_ready w i -> sender_ready w' i.
Proof.
  unfold config_view. intros [= Ho Hd] (s & a & Hs & Ha & Hp & Hf).
  destruct (map_eq_lookup _ _ _ _ _ (eq_sym Ho) Hs) as (s' & Hs' & Hsc).
  injection Hsc as Hc Hq.
  destruct (map_eq_lookup _ _ _ _ _ (eq_sym Hd) Ha) as (a' & Ha' & Hac).
  injection Hac as Hu Hfx Hal.
  exists s', a'. rewrite Hc, Hq, Hu, Hfx, Hal. by repeat split.
Qed.

Section Accepting.
Context (c : list (nat * option (list nat)) * list (bool * bool * Z)).

Lemma accepting_update_obj i f :
  (forall s, sender_config (f s) = sender_config s) ->
  hoare_ok (accepting c) (fun _ => True) (update_obj i f).
Proof.
  intros Hf. apply hoare_ok_modify. intros w [Hc Hr]. split; [|done].
  rewrite <- Hc. unfold config_view. cbn. f_equal.
  apply map_insert_same. intros s Hs. rewrite Hf. unfold obj. by rewrite Hs.
Qed.

Lemma accepting_update_dict r f :
  (forall a, account_config (f a) = account_config a) ->
  hoare_ok (accepting c) (fun _ => True) (update_dict r f).
Proof.
  intros Hf. apply hoare_ok_modify. intros w [Hc Hr]. split; [|done].
  rewrite <- Hc. unfold config_view. cbn. f_equal.
  apply map_insert_same. intros a Ha. rewrite Hf. unfold dict. by rewrite Ha.
Qed.

Lemma accepting_sleep d : hoare_ok (accepting c) (fun _ => True) (sleep d).
Proof. apply hoare_ok_modify. intros w Hw. exact Hw. Qed.

Lemma accepting_smtp i op : hoare_ok (accepting c) (fun _ => True) (smtp i op).
Proof. intros w [Hc Hr]. unfold smtp. cbn beta. rewrite Hr. cbn. exists ROk. split; [done|]. split; [done|]. split; [exact Hc | done]. Qed.

Lemma accepting_persist_config rs : hoare_ok (accepting c) (fun _ => True) (persist_config rs).
Proof. apply hoare_ok_modify. intros w Hw. exact Hw. Qed.

Lemma accepting_write_cell r col v : hoare_ok (accepting c) (fun _ => True) (write_cell r col v).
Proof. apply hoare_ok_modify. intros w Hw. exact Hw. Qed.

Lemma accepting_save_workbook : hoare_ok (accepting c) (fun _ => True) save_workbook.
Proof. apply hoare_ok_modify. intros w Hw. exact Hw. Qed.

Lemma accepting_ret {A} (a : A) : hoare_ok (accepting c) (fun _ => True) (ret a).
Proof. intros w Hw. by exists a. Qed.

Lemma accepting_gets {A} (g : world -> A) : hoare_ok (accepting c) (fun _ => True) (gets g).
Proof. apply hoare_ok_gets. Qed.

Lemma accepting_get : hoare_ok (accepting c) (fun _ => True) get.
Proof. intros w Hw. by exists w. Qed.
End Accepting.

#[export] Hint Resolve accepting_sleep accepting_smtp accepting_persist_config
  accepting_write_cell accepting_save_workbook accepting_ret accepting_gets accepting_get : sheetmail.
#[export] Hint Extern 1 (hoare_ok _ _ (update_obj _ _)) =>
  apply accepting_update_obj; intros; reflexivity : sheetmail.
#[export] Hint Extern 1 (hoare_ok _ _ (update_dict _ _)) =>
  apply accepting_update_dict; intros; reflexivity : sheetmail.

(** Follows the structure of a computation; the primitives and the
    methods already proved are found in the hint database. *)
Ltac hoare_ok_solve :=
  repeat (intros; first
    [ solve [eauto with sheetmail]
    | eapply hoare_ok_bind; [ | intros ? ? ]
    | apply hoare_ok_if
    | apply hoare_ok_try
    | match goal with |- hoare_ok _ _ (match ?x with _ => _ end) => destruct x end ]).

Lemma connect_to_server_accepting c i : hoare_ok (accepting c) (fun _ => True) (connect_to_server i).
Proof. unfold connect_to_server. hoare_ok_solve. Qed.

Lemma close_accepting c i : hoare_ok (accepting c) (fun _ => True) (close i).
Proof. unfold close. hoare_ok_solve. Qed.

(** ** The sender's methods under accepting servers *)

Lemma account_config_counters a t ms : account_config (quota_counters a t ms) = account_config a.
Proof.
  destruct (quota_counters_static a t ms) as (_ & Ha & Hf & Hu).
  unfold account_config. by rewrite Ha, Hf, Hu.
Qed.

(** [next_send] is defined unless fixed pacing divides by a zero
    allowance. *)
Lemma next_send_defined a t ms :
  (use_fixed_delay a = true -> allowed_requests a <> 0%Z) ->
  exists n, next_send_after (quota_counters a t ms) t ms = Some n.
Proof.
  intros Hf. destruct (quota_counters_static a t ms) as (_ & Ha & Hfx & _).
  unfold next_send_after. rewrite Hfx, Ha.
  destruct (use_fixed_delay a) eqn:Hu, ms; try destruct (allowed_requests a =? 0)%Z eqn:Hz;
    try destruct (0 <? _)%Z; eauto.
  apply Z.eqb_eq in Hz. by destruct (Hf eq_refl).
Qed.

Lemma update_quotas_accepting c i ms :
  (forall w, accepting c w -> sender_ready w i) ->
  hoare_ok (accepting c) (fun _ => True) (_update_quotas i ms).
Proof.
  intros Hready w Hw. destruct (Hready w Hw) as (s & a & Hs & Ha & Hp & Hf).
  destruct (next_send_defined a (clock w) ms Hf) as [n Hn].
  rewrite (_update_quotas_ok i ms w s _ a n Hs eq_refl Ha Hp Hn).
  exists tt. split; [done|]. split; [done|]. destruct Hw as [Hc Hr].
  split; [|done]. rewrite <- Hc. unfold config_view. cbn. f_equal.
  - apply map_insert_same. intros s' Hs'. unfold obj. by rewrite Hs'.
  - apply map_insert_same. intros a' Ha'. rewrite Ha in Ha'. injection Ha' as <-.
    apply account_config_counters.
Qed.

Lemma recipients_accepting c addr : hoare_ok (accepting c) (fun _ => True) (recipients (CStr addr)).
Proof. apply accepting_ret. Qed.

#[export] Hint Resolve connect_to_server_accepting close_accepting recipients_accepting : sheetmail.

Lemma send_mail_once_accepting c i addr ms mb :
  message_ok ms mb = true -> (forall w, accepting c w -> sender_ready w i) ->
  hoare_ok (accepting c) (fun _ => True) (_send_mail i (CStr addr) ms mb).
Proof.
  intros Hm Hready. pose proof (update_quotas_accepting c i true Hready).
  destruct (message_ok_run ms mb Hm) as [Hmt Has].
  unfold _send_mail. rewrite Hmt, Has. hoare_ok_solve.
Qed.

(** With accepting servers the first attempt succeeds. *)
Lemma send_mail_accepting c i addr ms mb retries st :
  retries <> 0 -> message_ok ms mb = true -> (forall w, accepting c w -> sender_ready w i) ->
  hoare_ok (accepting c) (fun b => b = true) (send_mail i (CStr addr) ms mb retries st).
Proof.
  intros Hn Hm Hready. unfold send_mail. destruct retries as [|n]; [done|]. cbn [send_mail_loop].
  apply hoare_ok_try. eapply hoare_ok_bind; [apply (send_mail_once_accepting c i addr ms mb Hm Hready)|].
  intros _ _. apply hoare_ok_ret.
Qed.

(** ** One row, and the whole run *)

(** Every sender of the pool is ready in every world with the
    configuration [c]. *)
Definition pool_ready c (conns : list nat) : Prop :=
  Forall (fun i => forall w, accepting c w -> sender_ready w i) conns.

(** A row whose mail [_send_mail] can send: the recipient, the subject
    [run] passes (after [--staticsubject]) and the body are not numbers. *)
Definition row_sendable (p : params) (w : world) (r : nat) : bool :=
  not_number (cell_at w r (p_colmail p)) &&
  message_ok (row_subject p (cell_at w r (p_colsubject p))) (cell_at w r (p_colbody p)).

Lemma row_sendable_frame p w w1 r :
  (forall c, cell_at w1 r c = cell_at w r c) -> row_sendable p w1 r = row_sendable p w r.
Proof. intros Hc. unfold row_sendable. by rewrite !Hc. Qed.

Lemma find_free_server_in c conns :
  conns <> [] -> hoare_ok (accepting c) (fun sel => In sel.2 conns) (_find_free_server conns).
Proof.
  destruct conns as [|j l]; [done|]. intros _ w Hw. rewrite find_free_server_cons.
  eexists. split; [reflexivity|]. split; [|done]. cbn.
  destruct (scan_min_in w l j) as [->|H]; [by left | by right].
Qed.

Lemma wait_until_accepting c ns : hoare_ok (accepting c) (fun _ => True) (wait_until ns).
Proof. unfold wait_until, now. hoare_ok_solve. Qed.

Lemma mark_row_accepting c p r v : hoare_ok (accepting c) (fun _ => True) (mark_row p r v).
Proof. unfold mark_row. hoare_ok_solve. Qed.

#[export] Hint Resolve wait_until_accepting mark_row_accepting : sheetmail.

Lemma process_row_accepting c p conns r mail subject body send :
  conns <> [] -> pool_ready c conns -> not_number mail = true ->
  message_ok (row_subject p subject) body = true ->
  hoare_ok (accepting c) (fun go => go = true) (process_row p conns r (mail, subject, body, send)).
Proof.
  intros Hne Hpool Hmail Hm. unfold process_row.
  destruct (row_done send); [apply hoare_ok_ret|].
  eapply hoare_ok_bind; [exact (find_free_server_in c conns Hne)|]. intros [ns i] Hi. cbn in Hi.
  eapply hoare_ok_bind; [apply wait_until_accepting|]. intros _ _.
  eapply (hoare_ok_bind _ (fun o => o <> Status false)).
  - destruct (row_invalid mail (row_subject p subject) body) eqn:Hinv.
    + eapply hoare_ok_weaken; [apply hoare_ok_ret | by intros o ->].
    + apply hoare_ok_try. destruct mail as [| |addr]; [done|done|].
      eapply hoare_ok_bind.
      * apply send_mail_accepting; [done|done|]. by eapply Forall_forall in Hpool; [|apply list_elem_of_In].
      * intros b ->. eapply hoare_ok_weaken; [apply hoare_ok_ret | by intros o ->].
  - intros [|[]] Ho; [| |done]; (eapply hoare_ok_bind; [apply mark_row_accepting | intros _ _; apply hoare_ok_ret]).
Qed.

Lemma run_rows_accepting c p conns rows : forall w,
  NoDup rows -> accepting c w -> conns <> [] -> pool_ready c conns -> cols_ok p w = true ->
  (forall r, status_row p rows r -> row_sendable p w r = true) ->
  exists w', run_rows p conns rows w = (Ok true, w') /\ accepting c w'.
Proof.
  induction rows as [|r rs IH]; intros w Hnd Hw Hne Hpool Hcols Hmail.
  { by exists w. }
  apply NoDup_cons in Hnd as [Hnotin Hnd].
  assert (Hrs : forall w1, (forall r' c, r' <> r -> cell_at w1 r' c = cell_at w r' c) ->
            forall r', status_row p rs r' -> row_sendable p w1 r' = true).
  { intros w1 Hsame r' [Hin Hle]. rewrite (row_sendable_frame p w w1 r'); [|intros; apply Hsame; by intros ->].
    apply Hmail. split; [set_solver | done]. }
  destruct (Nat.ltb_spec r (p_rowoffset p)) as [Ho|Ho].
  { cbn [run_rows]. rewrite (proj2 (Nat.ltb_lt _ _) Ho).
    apply IH; [done..|]. apply Hrs. done. }
  rewrite run_rows_cons by done.
  pose proof (Hmail r (conj (list_elem_of_here r rs) Ho)) as Hsend.
  apply andb_prop in Hsend as [Hsend1 Hsend2].
  destruct (process_row_accepting c p conns r (cell_at w r (p_colmail p)) (cell_at w r (p_colsubject p))
              (cell_at w r (p_colbody p)) (cell_at w r (p_colsend p)) Hne Hpool
              Hsend1 Hsend2 w Hw) as (go & Hp & -> & Hw1).
  rewrite (bind_ok _ _ _ true _ Hp).
  destruct (process_row_post p conns r w _ Hcols Hp) as [_ [Hd Hf]].
  apply IH; [done | done | done | done | by rewrite (cols_ok_dims p w _ Hd) |].
  apply Hrs. intros r' c' Hne'. apply Hf. by intros [= ->].
Qed.

(** The whole run under accepting servers. *)
Lemma run_accepting_done p conns w :
  replies w = [] -> conns <> [] -> Forall (sender_ready w) conns -> cols_ok p w = true ->
  (forall r, p_rowoffset p <= r < (dims w).1 -> row_sendable p w r = true) ->
  exists w', run p conns w = (Ok true, w') /\ replies w' = [] /\
    forall r, p_rowoffset p <= r < (dims w).1 -> row_done (cell_at w' r (p_colsend p)) = true.
Proof.
  intros Hr Hne Hready Hcols Hmail.
  assert (Hpool : pool_ready (config_view w) conns).
  { eapply Forall_impl; [exact Hready|]. intros i Hi w' [Hc _]. by eapply sender_ready_view. }
  destruct (run_rows_accepting (config_view w) p conns (seq 0 (dims w).1) w (NoDup_seq 0 _)
              (conj eq_refl Hr) Hne Hpool Hcols) as (w' & Hrun & _ & Hr').
  { intros r [Hin Hle]. apply elem_of_seq in Hin. apply Hmail. lia. }
  exists w'. unfold run. py_unfold. cbn [fst snd]. split; [exact Hrun|]. split; [exact Hr'|].
  destruct (run_rows_completed p conns _ w w' (NoDup_seq 0 _) Hrun) as (_ & _ & Hdone).
  intros r Hrange. apply Hdone. split; [apply elem_of_seq; lia | lia].
Qed.


(** ** Creating the pool, then running *)

(** An account whose pacing can be computed: a non-zero allowance in
    fixed pacing. *)
Definition account_ok (a : account) : Prop :=
  use_fixed_delay a = true -> allowed_requests a <> 0%Z.

Definition dict_ok (w : world) (r : nat) : Prop :=
  exists a, dicts w !! r = Some a /\ account_ok a.

Lemma dict_ok_view w w' r :
  map account_config (dicts w') = map account_config (dicts w) -> dict_ok w r -> dict_ok w' r.
Proof.
  intros Hd (a & Ha & Hok). destruct (map_eq_lookup _ _ _ _ _ (eq_sym Hd) Ha) as (a' & Ha' & Hc).
  injection Hc as _ Hf Hal. exists a'. split; [done|]. unfold account_ok in *. by rewrite Hf, Hal.
Qed.

(** A sender stays ready when senders are added and the dictionaries
    keep their configuration. *)
Lemma sender_ready_extend w w' i extra :
  map sender_config (objs w') = map sender_config (objs w) ++ extra ->
  map account_config (dicts w') = map account_config (dicts w) ->
  sender_ready w i -> sender_ready w' i.
Proof.
  intros Ho Hd (s & a & Hs & Ha & Hp & Hf).
  assert (Hs2 : map sender_config (objs w) !! i = Some (sender_config s)) by (by rewrite list_lookup_fmap, Hs).
  assert (Hs3 : map sender_config (objs w') !! i = Some (sender_config s)).
  { rewrite Ho. by apply lookup_app_l_Some. }
  rewrite list_lookup_fmap in Hs3. destruct (objs w' !! i) as [s'|] eqn:Hs'; [|done].
  injection Hs3 as Hc Hq.
  destruct (map_eq_lookup _ _ _ _ _ (eq_sym Hd) Ha) as (a' & Ha' & Hac). injection Hac as Hu Hfx Hal.
  exists s', a'. rewrite Hc, Hq, Hu, Hfx, Hal. by repeat split.
Qed.

(** [Mail_sender(connection, self._persist_config, nosend)]: the new
    sender is ready, the others stay ready, and neither the servers nor
    the workbook are touched. *)
Lemma Mail_sender_init_ready r mu nosend w :
  dict_ok w r ->
  exists w', Mail_sender_init r (Some mu) nosend w = (Ok (length (objs w)), w') /\
    map sender_config (objs w') = map sender_config (objs w) ++ [(r, Some mu)] /\
    map account_config (dicts w') = map account_config (dicts w) /\
    sender_ready w' (length (objs w)) /\
    replies w' = replies w /\ sheet_of w' = sheet_of w.
Proof.
  intros (a & Ha & Hok). unfold Mail_sender_init. py_unfold. cbn [fst snd].
  set (w2 := with_objs w _).
  assert (Hi : objs w2 !! length (objs w) =
    Some (mkMailSender (host (dict w r)) (port (dict w r)) (username (dict w r)) (password (dict w r))
            (sender_addr (dict w r)) (user_ssl (dict w r)) r nosend false (Some mu) 0 false)).
  { cbn. by rewrite list_lookup_middle. }
  assert (Hn : exists n, next_send_after (quota_counters a (clock w2) false) (clock w2) false = Some n).
  { unfold next_send_after. repeat case_match; eauto. }
  destruct Hn as [n Hn].
  rewrite (_update_quotas_ok _ false w2 _ r a n Hi eq_refl Ha (fun _ => ltac:(by eexists)) Hn).
  assert (Ho : map sender_config (<[length (objs w) := set_next_send n (obj w2 (length (objs w)))]> (objs w2)) =
               map sender_config (objs w) ++ [(r, Some mu)]).
  { rewrite map_insert_same; [unfold w2; cbn; by rewrite map_app|]. intros s Hs. unfold obj. by rewrite Hs. }
  assert (Hd : map account_config (<[r := quota_counters a (clock w2) false]> (dicts w2)) =
               map account_config (dicts w)).
  { apply map_insert_same. intros a' Ha'. cbn in Ha'. rewrite Ha in Ha'. injection Ha' as <-.
    apply account_config_counters. }
  eexists. split; [reflexivity|]. cbn [quotas_updated objs dicts]. split; [exact Ho|]. split; [exact Hd|].
  split; [|done].
  destruct (quota_counters_static a (clock w2) false) as (_ & Hal & Hf & _).
  set (a' := quota_counters a (clock w2) false) in *. clearbody a'.
  exists (set_next_send n (obj w2 (length (objs w)))), a'.
  cbn. rewrite list_lookup_insert_eq by (rewrite length_app; cbn; lia).
  split; [done|]. unfold obj. rewrite Hi. cbn. rewrite list_lookup_insert_eq by (by eapply lookup_lt_Some).
  split; [done|]. split; [by eexists|]. unfold account_ok in Hok. by rewrite Hal, Hf.
Qed.

(** [Excel_Mail_Sender.init] (lines 195-201): one ready sender per
    account. *)
Lemma init_senders_ready mu refs nosend : forall w,
  Forall (dict_ok w) refs ->
  exists conns w', init_senders mu refs nosend w = (Ok conns, w') /\
    length conns = length refs /\ Forall (sender_ready w') conns /\
    (exists extra, map sender_config (objs w') = map sender_config (objs w) ++ extra) /\
    map account_config (dicts w') = map account_config (dicts w) /\
    replies w' = replies w /\ sheet_of w' = sheet_of w.
Proof.
  induction refs as [|r rs IH]; intros w Hrefs.
  { exists [], w. split; [done|]. split; [done|]. split; [constructor|].
    split; [exists []; by rewrite app_nil_r | done]. }
  apply Forall_cons in Hrefs as [Hr Hrs].
  destruct (Mail_sender_init_ready r mu nosend w Hr) as (w1 & Hi & Ho1 & Hd1 & Hready1 & Hrep1 & Hsh1).
  destruct (IH w1) as (conns & w' & Hrun & Hlen & Hready & [extra Ho] & Hd & Hrep & Hsh).
  { eapply Forall_impl; [exact Hrs|]. intros q. by apply dict_ok_view. }
  exists (length (objs w) :: conns), w'. cbn [init_senders].
  rewrite (bind_ok _ _ _ _ _ Hi), (bind_ok _ _ _ _ _ Hrun).
  split; [done|]. split; [cbn; by rewrite Hlen|]. split.
  { constructor; [|done]. by eapply sender_ready_extend. }
  split; [exists ((r, Some mu) :: extra); by rewrite Ho, Ho1, <- app_assoc|].
  split; [congruence|]. split; congruence.
Qed.


(** ** A number in the recipient column *)

Lemma obj_waited ns w i : obj (waited ns w) i = obj w i.
Proof. unfold waited. by destruct (clock w <? ns)%Z. Qed.

(** [_send_mail] with a number as recipient, on a connected sender:
    [",".join(mail_to)] raises [TypeError] before anything is sent. *)
Lemma send_mail_number i z ms mb retries st w :
  retries <> 0 -> ms_connected (obj w i) = true ->
  send_mail i (CNum z) ms mb retries st w = (Exc TypeError, w).
Proof.
  intros Hn Hc. unfold send_mail. destruct retries as [|n]; [done|].
  rewrite (send_mail_loop_attempt_exc i (CNum z) ms mb (S n) st 0 n w w TypeError); [done|].
  unfold _send_mail, mime_text. py_unfold. cbn. rewrite Hc.
  destruct mb as [|z'|]; [done | by destruct (z' =? 0)%Z | done].
Qed.

(** C27. A number in the recipient column is not a per-message error:
    when the sender chosen for a pending row with a non-zero number as
    recipient and a non-empty subject and body is connected, [_send_mail]
    raises [TypeError] (lines 88-94), no [except] clause of [send_mail]
    or [run] catches it, and it escapes [run] with the row unmarked and
    nothing sent (spec.md section 7 says per-message errors never escape
    the dispatcher). *)
Theorem numeric_recipient_escapes p conns r z subject body send w ns i :
  row_done send = false -> _find_free_server conns w = (Ok (ns, i), w) ->
  z <> 0%Z -> py_truthy (row_subject p subject) = true -> py_truthy body = true ->
  ms_connected (obj w i) = true ->
  process_row p conns r (CNum z, subject, body, send) w = (Exc TypeError, waited ns w).
Proof.
  intros Hd Hsel Hz Hs Hb Hc.
  assert (Hinv : row_invalid (CNum z) (row_subject p subject) body = false).
  { unfold row_invalid. rewrite Hs, Hb. cbn. by destruct (Z.eqb_spec z 0). }
  rewrite (process_row_valid_run _ _ _ _ _ _ _ _ ns i Hd Hsel Hinv).
  rewrite send_mail_number; [done | done | by rewrite obj_waited].
Qed.

(** C12. A number as body or as subject is not a per-message error
    either: when the sender chosen for a pending row with a non-empty
    recipient address, a non-empty subject and body is connected and
    sends for real, and the subject (as [run] passes it) or the body is
    a number, building the message ([MIMEText], line 91) or writing it
    out ([msg.as_string()], line 97) raises [TypeError], which no
    [except] clause of [send_mail] or [run] catches: it escapes [run]
    with the row unmarked and nothing sent. *)
Theorem numeric_message_escapes p conns r addr subject body send w ns i :
  row_done send = false -> _find_free_server conns w = (Ok (ns, i), w) ->
  addr <> ""%string -> py_truthy (row_subject p subject) = true -> py_truthy body = true ->
  ms_connected (obj w i) = true -> ms_nosend (obj w i) = false ->
  message_ok (row_subject p subject) body = false ->
  process_row p conns r (CStr addr, subject, body, send) w = (Exc TypeError, waited ns w).
Proof.
  intros Hd Hsel Ha Hs Hb Hc Hns Hm.
  assert (Hinv : row_invalid (CStr addr) (row_subject p subject) body = false).
  { unfold row_invalid. rewrite Hs, Hb. cbn. by destruct (String.eqb_spec addr ""). }
  rewrite (process_row_valid_run _ _ _ _ _ _ _ _ ns i Hd Hsel Hinv).
  rewrite <- obj_waited with (ns := ns) in Hc, Hns.
  set (w1 := waited ns w) in *. set (ms := row_subject p subject) in *.
  (* [_send_mail] raises [TypeError] before anything is sent. *)
  unfold send_mail. rewrite (send_mail_loop_attempt_exc i (CStr addr) ms body 3 5 0 2 w1 w1 TypeError); [done|].
  unfold _send_mail, mime_text, as_string, recipients. py_unfold. cbn. rewrite Hc. cbn.
  destruct ms, body as [|zb|]; try discriminate; cbn; rewrite ?Hns; try done;
    by destruct (zb =? 0)%Z; rewrite ?Hns.
Qed.

(** ** Examples *)


Lemma numeric_recipient_escapes_witness :
  let w := row_world [] in
  process_row (cli_params None) [0] 1 (CNum 5, CStr "hi", CStr "body", CNone) w =
  (Exc TypeError, waited 0 w).
Proof.
  intros w. apply (numeric_recipient_escapes (cli_params None) [0] 1 5 _ _ _ w 0 0);
    try reflexivity. lia.
Defined.

Lemma numeric_message_escapes_witness :
  let w := row_world [] in
  process_row (cli_params None) [0] 1 (CStr "a@example.org", CStr "hi", CNum 12345, CNone) w =
  (Exc TypeError, waited 0 w).
Proof.
  intros w. apply (numeric_message_escapes (cli_params None) [0] 1 "a@example.org" _ _ _ w 0 0);
    try reflexivity. discriminate.
Defined.

