(* ===== verification/SheetCheck.v ===== *)
(** * SheetCheck: [test_spreadsheet_file] (sheetmail.py lines 276-312)

    The start-up check of the workbook: it is opened with openpyxl
    (line 281), its comments are cleared in memory when
    [--cleancomments] is given (lines 286-291), the sheet of
    [--sheetindex] is selected (line 293), a copy is saved to a
    temporary file and loaded again (lines 299-306) to detect the
    openpyxl comment bug, and the temporary file is removed.  The
    function returns [True] when the main block must stop.

    The openpyxl calls are library I/O: [book_io] holds what they do,
    the reload as a function of whether the comments were cleared (the
    bug the check detects is a reload that fails on a saved comment).
    The exception handling and the result are modelled as written: the
    [except InvalidFileException] of line 282 and the
    [except TypeError] of line 307 are the only clauses, so any other
    exception of [load_workbook] or of the sheet selection escapes to
    the main block.  The temporary file is a fresh [mkstemp] path,
    removed at the end: the world (the workbook on disk, the
    configuration file, the servers) is not touched, which
    [test_spreadsheet_file_world] shows. *)

From S2P Require Import Prelude Quota World.

#[local] Set Warnings "-clear-no-such-hyp".

(** What the openpyxl calls of the check do: [None] when they succeed,
    [Some e] when they raise [e]. *)
Record book_io := mkBookIO {
  (** [load_workbook(config['excel_file'], ...)] (line 281). *)
  bio_load : option exn;
  (** [book.active = config['sheetindex']] (line 293). *)
  bio_activate : option exn;
  (** Lines 304-306, loading the saved copy and selecting the sheet,
      given whether the comments were cleared before saving. *)
  bio_reload : bool -> option exn
}.

(** A library call with the outcome [o]. *)
Definition lib_call (o : option exn) : M unit :=
  match o with
  | None => ret tt
  | Some e => raise e
  end.

(** [test_spreadsheet_file(config, cleancomments)] (lines 276-312). *)
Definition test_spreadsheet_file (bio : book_io) (cleancomments : bool) : M bool :=
  let error := false in
  let* opened := try_ (lib_call (bio_load bio) ;; ret true)
                   (fun e => match e with
                             | InvalidFileException => ret false
                             | _ => raise e
                             end) in
  if negb opened then ret true
  else
    lib_call (bio_activate bio) ;;
    let* error := try_ (lib_call (bio_reload bio cleancomments) ;; ret error)
                    (fun e => match e with
                              | TypeError => ret true
                              | _ => raise e
                              end) in
    ret error.

(** ** The check on every branch *)

(** The check computes its verdict from the outcomes of the library
    calls and leaves the world as it is. *)
Lemma test_spreadsheet_file_run bio cc w :
  test_spreadsheet_file bio cc w =
  (match bio_load bio with
   | Some InvalidFileException => Ok true
   | Some e => Exc e
   | None =>
       match bio_activate bio with
       | Some e => Exc e
       | None =>
           match bio_reload bio cc with
           | None => Ok false
           | Some TypeError => Ok true
           | Some e => Exc e
           end
       end
   end, w).
Proof.
  unfold test_spreadsheet_file, lib_call.
  destruct (bio_load bio) as [[]|]; try reflexivity.
  destruct (bio_activate bio) as [e|]; [reflexivity|].
  destruct (bio_reload bio cc) as [[]|]; reflexivity.
Qed.

(** The check touches nothing of the world. *)
Lemma test_spreadsheet_file_world bio cc w : snd (test_spreadsheet_file bio cc w) = w.
Proof. by rewrite test_spreadsheet_file_run. Qed.

Lemma test_spreadsheet_file_preserves bio cc (I : world -> Prop) :
  preserves I (test_spreadsheet_file bio cc).
Proof. intros w Hw. by rewrite test_spreadsheet_file_world. Qed.

Lemma test_spreadsheet_file_bounded f bio cc : bounded_by f 0 (test_spreadsheet_file bio cc).
Proof. apply bounded_quiet. intros w. by rewrite test_spreadsheet_file_world. Qed.

Lemma keeps_sheet_test_spreadsheet_file bio cc : keeps_sheet (test_spreadsheet_file bio cc).
Proof. intros c. apply test_spreadsheet_file_preserves. Qed.

(** The workbook passes the check when every openpyxl call succeeds. *)
Lemma test_spreadsheet_file_passes bio cc w :
  bio_load bio = None -> bio_activate bio = None -> bio_reload bio cc = None ->
  test_spreadsheet_file bio cc w = (Ok false, w).
Proof. intros Hl Ha Hr. by rewrite test_spreadsheet_file_run, Hl, Ha, Hr. Qed.

(** C35. [test_spreadsheet_file] on every branch: it leaves the world
    as it is (the workbook is saved to a temporary copy, never to its
    own file); it returns [True], stopping the program, exactly when
    the workbook is not a valid file or when the saved copy cannot be
    loaded again because of the comment bug ([TypeError]); it returns
    [False] exactly when every openpyxl call succeeds; in every other
    case the exception of the library escapes. *)
Theorem test_spreadsheet_file_outcomes bio cc w :
  snd (test_spreadsheet_file bio cc w) = w /\
  (fst (test_spreadsheet_file bio cc w) = Ok true <->
     bio_load bio = Some InvalidFileException \/
     (bio_load bio = None /\ bio_activate bio = None /\ bio_reload bio cc = Some TypeError)) /\
  (fst (test_spreadsheet_file bio cc w) = Ok false <->
     bio_load bio = None /\ bio_activate bio = None /\ bio_reload bio cc = None) /\
  (forall e, fst (test_spreadsheet_file bio cc w) = Exc e ->
     bio_load bio = Some e \/ bio_activate bio = Some e \/ bio_reload bio cc = Some e).
Proof.
  split; [apply test_spreadsheet_file_world|]. rewrite test_spreadsheet_file_run. cbn [fst].
  destruct (bio_load bio) as [e|]; [destruct e; naive_solver|].
  destruct (bio_activate bio) as [e|]; [naive_solver|].
  destruct (bio_reload bio cc) as [e|]; [destruct e; naive_solver | naive_solver].
Qed.

(** ** Examples *)

(** A workbook that openpyxl opens, saves and reopens. *)
Definition sound_book : book_io := mkBookIO None None (fun _ => None).

(** A workbook with a comment: its saved copy reloads only when the
    comments were cleared first. *)
Definition commented_book : book_io :=
  mkBookIO None None (fun cleaned => if cleaned then None else Some TypeError).

(** A file that is not a workbook. *)
Definition invalid_book : book_io := mkBookIO (Some InvalidFileException) None (fun _ => None).

