(* ===== verification/Main.v ===== *)
(** * Main: [Excel_Mail_Sender.init] and the main block (sheetmail.py
    lines 168-202 and 355-370)

    Loading the workbook and the JSON file is library I/O; the model
    takes what the libraries produce as inputs: [wb] is [None] when
    [load_workbook] succeeds (the world's worksheet is then the loaded
    sheet) and [Some e] when it raises [e]; [cfg] is what [json.load]
    makes of the configuration file.  Everything the code does with
    these results is modelled as written, in particular the clause
    [except CellCoordinatesException, InvalidFileException:] of line 172,
    which in Python 2 catches [CellCoordinatesException] only and binds
    it to the name [InvalidFileException].

    The main block runs [test_mail] then [test_spreadsheet_file]
    ([SheetCheck]) under [--test]; otherwise the start-up check (unless
    [--notest]), whose [True] ends the program, then [init] and [run].

    The theorems: the outcome of [init] on every branch; the test mode
    sends no mail and leaves the workbook alone; an invalid workbook is
    stopped by the start-up check but, under [--notest], escapes [init];
    from valid files and accepting servers, the whole program marks every
    row. *)

From S2P Require Import Prelude Quota World Sender Scheduler Dispatcher TestMode Completion SheetCheck.

(** What [json.load(config['config'])] returns: not JSON at all
    ([ValueError]), or a dictionary with or without the key
    ['mail_user']. *)
Inductive json_config :=
| JInvalid
| JParsed (mail_user : option (list account)).

(** Lines 186-189: [json.load], then [raise ValueError()] when
    ['mail_user'] is missing. *)
Definition load_config (cfg : json_config) : M (list account) :=
  match cfg with
  | JParsed (Some accts) => ret accts
  | _ => raise ValueError
  end.

(** [Excel_Mail_Sender.init] (lines 168-202): [Some conns] for [True]
    with [self.server_connections = conns], [None] for [False]. *)
Definition excel_init (wb : option exn) (cfg : json_config) (nosend : bool) : M (option (list nat)) :=
  match wb with
  | Some CellCoordinatesException => ret None
  | Some e => raise e
  | None =>
      let* loaded := try_ (let* accts := load_config cfg in ret (Some accts))
                       (fun e => match e with
                                 | ValueError => ret None
                                 | _ => raise e
                                 end) in
      match loaded with
      | None => ret None
      | Some accts =>
          let* w := get in
          let base := length (dicts w) in
          modify (fun w => with_dicts w (dicts w ++ accts)) ;;
          let refs := seq base (length accts) in
          let* conns := init_senders refs refs nosend in
          ret (Some conns)
      end
  end.

(** [test_mail(params)] reads the configuration file itself (lines 259-260):
    invalid JSON raises [ValueError] and a missing ['mail_user'] a
    [KeyError], neither caught. *)
Definition test_mail_main (cfg : json_config) : M unit :=
  match cfg with
  | JInvalid => raise ValueError
  | JParsed None => raise KeyError
  | JParsed (Some accts) => test_mail accts
  end.

(** Lines 355-370: [test] is [--test], [notest] is [--notest],
    [cleancomments] is [--cleancomments]; [bio] is what openpyxl does in
    [test_spreadsheet_file], [wb] and [cfg] what [init] loads.  [exit()]
    ends the program. *)
Definition main (p : params) (test notest cleancomments : bool) (bio : book_io)
    (wb : option exn) (cfg : json_config) : M unit :=
  if test then
    test_mail_main cfg ;;
    test_spreadsheet_file bio cleancomments ;;
    ret tt
  else
    let* stop := if notest then ret false else test_spreadsheet_file bio cleancomments in
    if stop then ret tt
    else
      let* r := excel_init wb cfg (p_nosend p) in
      match r with
      | Some conns => main_run p conns
      | None => ret tt
      end.

(** ** [init] on each branch *)

(** Valid files: the accounts are appended to the heap and one ready
    sender is made for each; nothing else changes. *)
Lemma excel_init_loaded accts nosend w :
  Forall account_ok accts ->
  exists conns w', excel_init None (JParsed (Some accts)) nosend w = (Ok (Some conns), w') /\
    length conns = length accts /\ Forall (sender_ready w') conns /\
    replies w' = replies w /\ sheet_of w' = sheet_of w.
Proof.
  intros Hok. unfold excel_init, load_config. py_unfold. cbn [fst snd].
  set (w1 := with_dicts w (dicts w ++ accts)).
  assert (Hd : Forall (dict_ok w1) (seq (length (dicts w)) (length accts))).
  { apply Forall_forall. intros r Hr. apply elem_of_seq in Hr.
    destruct (lookup_lt_is_Some_2 accts (r - length (dicts w))) as [a Ha]; [lia|].
    exists a. split; [cbn; rewrite lookup_app_r by lia; exact Ha|].
    eapply Forall_lookup_1 in Hok; [exact Hok | exact Ha]. }
  destruct (init_senders_ready (seq (length (dicts w)) (length accts)) _ nosend w1 Hd)
    as (conns & w' & Hinit & Hlen & Hready & _ & _ & Hrep & Hsh).
  exists conns, w'. rewrite Hinit. split; [done|]. rewrite Hlen, length_seq. by repeat split.
Qed.

(** C29. [Excel_Mail_Sender.init] on every branch: a
    [CellCoordinatesException] from [load_workbook] makes it return
    [False]; any other exception of [load_workbook], [InvalidFileException]
    included (the clause of line 172 names it but, in Python 2, does not
    catch it), escapes; a configuration that is not JSON or has no
    ['mail_user'] makes it return [False]; valid files give one ready
    sender per account, with the servers and the workbook untouched. *)
Theorem excel_init_outcomes wb cfg nosend w :
  (wb = Some CellCoordinatesException -> excel_init wb cfg nosend w = (Ok None, w)) /\
  (forall e, wb = Some e -> e <> CellCoordinatesException -> excel_init wb cfg nosend w = (Exc e, w)) /\
  (wb = None -> (forall accts, cfg <> JParsed (Some accts)) -> excel_init wb cfg nosend w = (Ok None, w)) /\
  (forall accts, wb = None -> cfg = JParsed (Some accts) -> Forall account_ok accts ->
     exists conns w', excel_init wb cfg nosend w = (Ok (Some conns), w') /\
       length conns = length accts /\ Forall (sender_ready w') conns /\
       replies w' = replies w /\ sheet_of w' = sheet_of w).
Proof.
  split; [by intros ->|]. split; [intros e -> He; by destruct e|].
  split; [|intros accts -> ->; apply excel_init_loaded].
  intros -> Hcfg. destruct cfg as [|[accts|]]; [done | by destruct (Hcfg accts) | done].
Qed.

(** ** The test mode *)

Lemma Mail_sender_init_silent f r qp nosend : bounded_by f 0 (Mail_sender_init r qp nosend).
Proof. pose proof (_update_quotas_quiet f). unfold Mail_sender_init. bounded_solve. Qed.

Lemma test_attempt_sends_nothing i : bounded_by is_sendmail 0 (test_attempt i).
Proof.
  unfold test_attempt. eapply (bounded_try _ 0 0); [|intros; bounded_solve | lia].
  eapply (bounded_bind _ 0 0); [apply connect_to_server_sends | intros; by apply close_bounded | lia].
Qed.

Lemma test_connections_send_nothing refs : bounded_by is_sendmail 0 (test_connections refs).
Proof.
  induction refs as [|r rs IH]; [apply bounded_ret|]. cbn [test_connections].
  eapply (bounded_bind _ 0 0); [|intros; exact IH | lia]. unfold test_connection.
  eapply (bounded_bind _ 0 0); [apply Mail_sender_init_silent | intros; apply test_attempt_sends_nothing | lia].
Qed.

Lemma keeps_sheet_Mail_sender_init r qp nosend : keeps_sheet (Mail_sender_init r qp nosend).
Proof. unfold Mail_sender_init. keeps_sheet_solve. Qed.

Lemma keeps_sheet_test_attempt i : keeps_sheet (test_attempt i).
Proof. unfold test_attempt. keeps_sheet_solve. Qed.

#[export] Hint Resolve keeps_sheet_Mail_sender_init keeps_sheet_test_attempt : sheetmail.

Lemma keeps_sheet_test_connections refs : keeps_sheet (test_connections refs).
Proof.
  induction refs as [|r rs IH]; cbn [test_connections].
  { keeps_sheet_solve. }
  unfold test_connection. keeps_sheet_solve.
Qed.

Lemma test_mail_main_quiet cfg :
  bounded_by is_sendmail 0 (test_mail_main cfg) /\ keeps_sheet (test_mail_main cfg).
Proof.
  unfold test_mail_main. destruct cfg as [|[accts|]].
  - split; [apply bounded_raise | keeps_sheet_solve].
  - unfold test_mail. split.
    + eapply (bounded_bind _ 0 0); [apply bounded_get | intros w | lia].
      eapply (bounded_bind _ 0 0); [apply bounded_quiet; done | intros; apply test_connections_send_nothing | lia].
    + pose proof keeps_sheet_test_connections. keeps_sheet_solve.
  - split; [apply bounded_raise | keeps_sheet_solve].
Qed.

(** C30. The [--test] mode sends no mail and leaves the workbook alone:
    whatever the files, the servers and openpyxl do, [main] with [test]
    set makes no [sendmail] call and changes neither the worksheet nor
    the saved workbook. *)
Theorem test_mode_sends_nothing p notest cc bio wb cfg :
  bounded_by is_sendmail 0 (main p true notest cc bio wb cfg) /\ keeps_sheet (main p true notest cc bio wb cfg).
Proof.
  cbn [main]. destruct (test_mail_main_quiet cfg) as [Hb Hk]. split.
  - eapply (bounded_bind _ 0 0); [exact Hb | intros | lia].
    eapply (bounded_bind _ 0 0); [apply test_spreadsheet_file_bounded | intros; apply bounded_ret | lia].
  - intros c. apply preserves_bind; [apply Hk | intros].
    apply preserves_bind; [apply test_spreadsheet_file_preserves | intros; apply preserves_ret].
Qed.

(** ** The whole program *)

(** The start-up check lets the program go on: skipped by [--notest],
    or passed. *)
Lemma startup_check_passes notest cc bio w :
  (notest = false -> bio_load bio = None /\ bio_activate bio = None /\ bio_reload bio cc = None) ->
  (if notest then ret false else test_spreadsheet_file bio cc) w = (Ok false, w).
Proof.
  destruct notest; [done|]. intros H. destruct (H eq_refl) as (Hl & Ha & Hr).
  by apply test_spreadsheet_file_passes.
Qed.


(** C36. The start-up check hides the exception clause of line 172: a
    file that openpyxl refuses with [InvalidFileException] makes
    [test_spreadsheet_file] return [True], and the program exits before
    [init], with nothing changed; with [--notest] the same file reaches
    [init], whose clause does not catch [InvalidFileException], and the
    exception escapes the program. *)
Theorem invalid_workbook_masked p cc bio cfg w :
  bio_load bio = Some InvalidFileException ->
  main p false false cc bio (Some InvalidFileException) cfg w = (Ok tt, w) /\
  main p false true cc bio (Some InvalidFileException) cfg w = (Exc InvalidFileException, w).
Proof.
  intros Hl. cbn [main]. split; [|reflexivity].
  unfold bind at 1. by rewrite test_spreadsheet_file_run, Hl.
Qed.

(** ** Examples *)

Lemma excel_init_outcomes_witness :
  excel_init (Some InvalidFileException) JInvalid false (example_world [] ∅ 0) =
    (Exc InvalidFileException, example_world [] ∅ 0) /\
  exists conns w', excel_init None (JParsed (Some [quiet_account])) false (example_world [] ∅ 0) =
    (Ok (Some conns), w') /\ length conns = 1 /\ Forall (sender_ready w') conns /\
    replies w' = [] /\ sheet_of w' = sheet_of (example_world [] ∅ 0).
Proof.
  destruct (excel_init_outcomes (Some InvalidFileException) JInvalid false (example_world [] ∅ 0))
    as (_ & Hexc & _).
  destruct (excel_init_outcomes None (JParsed (Some [quiet_account])) false (example_world [] ∅ 0))
    as (_ & _ & _ & Hok).
  split; [by apply Hexc|]. apply (Hok [quiet_account]); [done | done |].
  constructor; [discriminate | constructor].
Defined.


Lemma invalid_workbook_masked_witness :
  bio_load invalid_book = Some InvalidFileException /\
  main (cli_params None) false false false invalid_book (Some InvalidFileException) JInvalid (example_world [] ∅ 0) =
    (Ok tt, example_world [] ∅ 0) /\
  main (cli_params None) false true false invalid_book (Some InvalidFileException) JInvalid (example_world [] ∅ 0) =
    (Exc InvalidFileException, example_world [] ∅ 0).
Proof. split; [reflexivity|]. apply invalid_workbook_masked. reflexivity. Defined.

