(* ===== verification/Persistence.v ===== *)
(** * Persistence: the configuration file across a run and a restart

    [_persist_config] (sheetmail.py lines 204-208) writes the whole list
    of account dictionaries back to the JSON file after every change of a
    counter, and the next start loads it again ([Excel_Mail_Sender.init],
    lines 186-201).  Two properties of this cycle:
    - the schema of the file is stable: a run changes only the two
      counters of a dictionary ([timeframe_end], [remaining_requests]);
      the account's address, credentials, allowance, timeframe and flags
      are never rewritten ([static_view]);
    - what is written is what the next start works with: reloading the
      persisted list gives every new sender the persisted counters, after
      the window check of its constructor. *)

From S2P Require Import Prelude Quota World Sender Scheduler Dispatcher TestMode Completion Main.

(** ** The static fields of the dictionaries *)

(** Everything in a dictionary but the two counters. *)
Definition static_fields (a : account) :=
  (host a, port a, username a, password a, sender_addr a, user_ssl a,
   timeframe a, allowed_requests a, update_config a, use_fixed_delay a).

Definition static_view (w : world) := map static_fields (dicts w).

Definition keeps_static {A} (m : M A) : Prop :=
  forall c, preserves (fun w => static_view w = c) m.

Lemma keeps_static_elim {A} (m : M A) c :
  keeps_static m -> preserves (fun w => static_view w = c) m.
Proof. intros H. apply H. Qed.

Lemma keeps_static_modify g :
  (forall w, dicts (g w) = dicts w) -> keeps_static (modify g).
Proof. intros Hg c w Hw. unfold static_view in *. cbn. by rewrite Hg. Qed.

Lemma keeps_static_update_dict r f :
  (forall a, static_fields (f a) = static_fields a) -> keeps_static (update_dict r f).
Proof.
  intros Hf c w Hw. rewrite <- Hw. unfold static_view. cbn.
  apply map_insert_same. intros a Ha. rewrite Hf. unfold dict. by rewrite Ha.
Qed.

Lemma keeps_static_smtp i op : keeps_static (smtp i op).
Proof. intros c w Hw. unfold smtp. by destruct (default ROk (head (replies w))). Qed.

Lemma keeps_static_call_quota_persist qp : keeps_static (call_quota_persist qp).
Proof. destruct qp; [by apply keeps_static_modify | intros c w Hw; exact Hw]. Qed.

#[export] Hint Resolve keeps_static_smtp keeps_static_call_quota_persist : sheetmail.
#[export] Hint Extern 1 (keeps_static (modify _)) => apply keeps_static_modify; intros; reflexivity : sheetmail.
#[export] Hint Extern 1 (keeps_static (update_obj _ _)) => apply keeps_static_modify; intros; reflexivity : sheetmail.
#[export] Hint Extern 1 (keeps_static (sleep _)) => apply keeps_static_modify; intros; reflexivity : sheetmail.
#[export] Hint Extern 1 (keeps_static (persist_config _)) => apply keeps_static_modify; intros; reflexivity : sheetmail.
#[export] Hint Extern 1 (keeps_static (write_cell _ _ _)) => apply keeps_static_modify; intros; reflexivity : sheetmail.
#[export] Hint Extern 1 (keeps_static save_workbook) => apply keeps_static_modify; intros; reflexivity : sheetmail.
#[export] Hint Extern 1 (keeps_static (update_dict _ _)) => apply keeps_static_update_dict; intros; reflexivity : sheetmail.

(** Follows the structure of a computation; the primitives and the
    methods already proved are found in the hint database. *)
Ltac keeps_static_solve :=
  let c := fresh "c" in
  intros c; py_preserves_with ltac:(apply keeps_static_elim; eauto with sheetmail).

Lemma keeps_static_update_quotas i ms : keeps_static (_update_quotas i ms).
Proof. unfold _update_quotas, now. keeps_static_solve. Qed.

Lemma keeps_static_connect i : keeps_static (connect_to_server i).
Proof. unfold connect_to_server. keeps_static_solve. Qed.

Lemma keeps_static_close i : keeps_static (close i).
Proof. unfold close. keeps_static_solve. Qed.

Lemma keeps_static_recipients mt : keeps_static (recipients mt).
Proof. unfold recipients. keeps_static_solve. Qed.

Lemma keeps_static_mime_text mb : keeps_static (mime_text mb).
Proof. unfold mime_text. keeps_static_solve. Qed.

Lemma keeps_static_as_string ms mb : keeps_static (as_string ms mb).
Proof. unfold as_string. keeps_static_solve. Qed.

#[export] Hint Resolve keeps_static_update_quotas keeps_static_connect keeps_static_close
  keeps_static_recipients keeps_static_mime_text keeps_static_as_string : sheetmail.

Lemma keeps_static_send_mail_once i mt ms mb : keeps_static (_send_mail i mt ms mb).
Proof. unfold _send_mail. keeps_static_solve. Qed.

#[export] Hint Resolve keeps_static_send_mail_once : sheetmail.

Lemma keeps_static_send_mail_loop i mt ms mb retries st k n :
  keeps_static (send_mail_loop i mt ms mb retries st k n).
Proof. revert k. induction n as [|n IH]; intros k; cbn [send_mail_loop]; keeps_static_solve. Qed.

Lemma keeps_static_send_mail i mt ms mb retries st : keeps_static (send_mail i mt ms mb retries st).
Proof. apply keeps_static_send_mail_loop. Qed.

Lemma keeps_static_wait_until ns : keeps_static (wait_until ns).
Proof. unfold wait_until, now. keeps_static_solve. Qed.

Lemma keeps_static_mark_row p r v : keeps_static (mark_row p r v).
Proof. unfold mark_row. keeps_static_solve. Qed.

Lemma keeps_static_find_free_server conns : keeps_static (_find_free_server conns).
Proof. unfold _find_free_server. keeps_static_solve. Qed.

Lemma keeps_static_read_row p r : keeps_static (read_row p r).
Proof. unfold read_row. keeps_static_solve. Qed.

#[export] Hint Resolve keeps_static_send_mail keeps_static_wait_until keeps_static_mark_row
  keeps_static_find_free_server keeps_static_read_row : sheetmail.

Lemma keeps_static_process_row p conns r row : keeps_static (process_row p conns r row).
Proof. unfold process_row. keeps_static_solve. Qed.

#[export] Hint Resolve keeps_static_process_row : sheetmail.

Lemma keeps_static_run_rows p conns rows : keeps_static (run_rows p conns rows).
Proof. induction rows as [|r rs IH]; cbn [run_rows]; keeps_static_solve. Qed.

#[export] Hint Resolve keeps_static_run_rows : sheetmail.

(** C32. The schema of the configuration is stable: however
    [main_run] ends (normally, by [return False], by an exception or by
    Ctrl-C), every dictionary keeps its address, credentials, timeframe,
    allowance and flags; only its two counters change.  Since
    [_persist_config] dumps the dictionaries as they are, the file it
    writes has the fields it was loaded with. *)
Theorem main_run_keeps_schema p conns w :
  static_view (snd (main_run p conns w)) = static_view w.
Proof.
  assert (H : keeps_static (main_run p conns)) by (unfold main_run, run; keeps_static_solve).
  by apply (H (static_view w)).
Qed.

(** ** Persisting and reloading *)

(** The constructor of a sender on the dictionary [r] (with a
    persistence callback) applies the window check of
    [_update_quotas(mail_send=False)] to it and to nothing else. *)
Lemma Mail_sender_init_counters r mu nosend w a :
  dicts w !! r = Some a ->
  exists w', Mail_sender_init r (Some mu) nosend w = (Ok (length (objs w)), w') /\
    dicts w' = <[r := quota_counters a (clock w) false]> (dicts w) /\ clock w' = clock w.
Proof.
  intros Ha. unfold Mail_sender_init. py_unfold. cbn [fst snd].
  set (w2 := with_objs w _).
  assert (Hi : objs w2 !! length (objs w) =
    Some (mkMailSender (host (dict w r)) (port (dict w r)) (username (dict w r)) (password (dict w r))
            (sender_addr (dict w r)) (user_ssl (dict w r)) r nosend false (Some mu) 0 false)).
  { cbn. by rewrite list_lookup_middle. }
  assert (Hn : exists n, next_send_after (quota_counters a (clock w2) false) (clock w2) false = Some n).
  { unfold next_send_after. repeat case_match; eauto. }
  destruct Hn as [n Hn].
  rewrite (_update_quotas_ok _ false w2 _ r a n Hi eq_refl Ha (fun _ => ltac:(by eexists)) Hn).
  by eexists.
Qed.

(** The senders of [init] over the dictionaries [pre ++ post], the
    first [pre] already made. *)
Lemma init_senders_counters mu nosend t (base : list account) post : forall pre w,
  dicts w = base ++ map (fun a => quota_counters a t false) pre ++ post -> clock w = t ->
  exists conns w', init_senders mu (seq (length base + length pre) (length post)) nosend w = (Ok conns, w') /\
    length conns = length post /\
    dicts w' = base ++ map (fun a => quota_counters a t false) (pre ++ post) /\ clock w' = t.
Proof.
  induction post as [|a post IH]; intros pre w Hd Hc.
  { exists [], w. rewrite !app_nil_r in *. by repeat split. }
  assert (Ha : dicts w !! (length base + length pre) = Some a).
  { rewrite Hd, lookup_app_r by lia. rewrite lookup_app_r; rewrite length_map; [|lia].
    by replace (length base + length pre - length base - length pre) with 0 by lia. }
  destruct (Mail_sender_init_counters _ mu nosend w a Ha) as (w1 & Hi & Hd1 & Hc1).
  destruct (IH (pre ++ [a]) w1) as (conns & w' & Hrun & Hlen & Hd' & Hc').
  { rewrite Hd1, Hd, Hc, map_app, <- !app_assoc. cbn [map app].
    rewrite insert_app_r_alt by (rewrite ?length_map; lia).
    rewrite insert_app_r_alt by (rewrite ?length_map; lia).
    rewrite length_map. replace (length base + length pre - length base - length pre) with 0 by lia.
    done. }
  { congruence. }
  exists (length (objs w) :: conns), w'. cbn [length seq init_senders].
  rewrite (bind_ok _ _ _ _ _ Hi). rewrite length_app in Hrun. cbn in Hrun.
  replace (length base + (length pre + 1)) with (S (length base + length pre)) in Hrun by lia.
  rewrite (bind_ok _ _ _ _ _ Hrun). split; [done|]. split; [cbn; by rewrite Hlen|].
  rewrite Hd', <- app_assoc. by split.
Qed.

(** C33. What is persisted is what the next start works with: after
    [_persist_config] the file holds the current dictionaries [l], and
    [init] on that file, at time [t], gives its senders exactly these
    dictionaries, each after the window check of its constructor (a
    fresh window when the persisted one has ended by [t]).  The next
    send times of the senders are not in the file. *)
Theorem persist_reload mu w w0 nosend :
  let l := map (dict w) mu in
  config_file (snd (persist_config mu w)) = Some l /\
  exists conns w1, excel_init None (JParsed (Some l)) nosend w0 = (Ok (Some conns), w1) /\
    length conns = length mu /\
    dicts w1 = dicts w0 ++ map (fun a => quota_counters a (clock w0) false) l.
Proof.
  intros l. split; [reflexivity|].
  unfold excel_init, load_config. py_unfold. cbn [fst snd].
  destruct (init_senders_counters (seq (length (dicts w0)) (length l)) nosend (clock w0) (dicts w0) l []
              (with_dicts w0 (dicts w0 ++ l)) eq_refl eq_refl) as (conns & w1 & Hrun & Hlen & Hd & _).
  cbn in Hrun. rewrite Nat.add_0_r in Hrun. rewrite Hrun.
  exists conns, w1. split; [done|]. split; [|exact Hd].
  unfold l in Hlen. by rewrite Hlen, length_map.
Qed.
