(* ===== verification/CLI.v ===== *)
(** * CLI: the command line and the logging set-up (sheetmail.py lines
    315-353)

    The parser of lines 318-333 is modelled by what it builds: the
    options given on the command line ([cli_opt], one constructor per
    [add_argument] that is not a file), each read as argparse reads a
    [store] option (the last occurrence wins, the [default] otherwise)
    or a [store_true] flag.  [--loglvl] has [choices]; a value outside
    them makes argparse exit with a usage error before any line of the
    main block runs ([parse_ok]).  The two file arguments ([--config],
    [excel_file]) are opened by argparse; their contents are the inputs
    [wb] and [cfg] of [Main.main].

    [vars(parser.parse_args(...))] (line 334) is a dictionary with one
    key per destination of the parser, options left out included (their
    value is [None]): [params_keys].  Two tests of the code ask whether a
    key is in it: ['logfile' in params] (line 350) and
    ['staticsubject' in self.config] (line 221); both are always true.

    The theorems: the if/elif chain of lines 342-349 binds [log_lvl] for
    every value argparse accepts, so line 351 never meets an unbound
    name; and without [--staticsubject] the program as started from the
    command line sends no mail at all, in any mode. *)

From S2P Require Import Prelude Quota World Sender Scheduler Dispatcher TestMode Completion SheetCheck Main.

(** ** The parser *)

(** The options of lines 320-333 other than the two files. *)
Inductive cli_opt :=
| OLoglvl (s : string)
| OLogfile (f : string)
| ORowoffset (n : nat)
| OColmail (n : nat)
| OColsubject (n : nat)
| OColbody (n : nat)
| OColsend (n : nat)
| OStaticsubject (s : string)
| OSheetindex (n : nat)
| OCleancomments
| OTest
| ONosend
| ONotest.

#[export] Instance cli_opt_eq_dec : EqDecision cli_opt.
Proof. solve_decision. Defined.

(** A [store] option: the value of its last occurrence, or [d]. *)
Definition last_value {B} (f : cli_opt -> option B) (opts : list cli_opt) (d : B) : B :=
  fold_left (fun acc o => default acc (f o)) opts d.

(** A [store_true] flag. *)
Definition flag_set (o : cli_opt) (opts : list cli_opt) : bool :=
  bool_decide (o ∈ opts).

(** [choices=('DEBUG', 'INFO', 'WARN', 'ERROR')] (line 320). *)
Definition loglvl_choices : list string := ["DEBUG"; "INFO"; "WARN"; "ERROR"].

(** argparse accepts the command line: every [--loglvl] is one of the
    choices. *)
Definition parse_ok (opts : list cli_opt) : bool :=
  forallb (fun o => match o with
                    | OLoglvl s => bool_decide (s ∈ loglvl_choices)
                    | _ => true
                    end) opts.

(** The values of lines 320-333, with their defaults. *)
Definition loglvl (opts : list cli_opt) : string :=
  last_value (fun o => match o with OLoglvl s => Some s | _ => None end) opts "INFO".

Definition logfile (opts : list cli_opt) : option string :=
  last_value (fun o => match o with OLogfile f => Some (Some f) | _ => None end) opts None.

Definition rowoffset (opts : list cli_opt) : nat :=
  last_value (fun o => match o with ORowoffset n => Some n | _ => None end) opts 1.

Definition colmail (opts : list cli_opt) : nat :=
  last_value (fun o => match o with OColmail n => Some n | _ => None end) opts 0.

Definition colsubject (opts : list cli_opt) : nat :=
  last_value (fun o => match o with OColsubject n => Some n | _ => None end) opts 1.

Definition colbody (opts : list cli_opt) : nat :=
  last_value (fun o => match o with OColbody n => Some n | _ => None end) opts 2.

Definition colsend (opts : list cli_opt) : nat :=
  last_value (fun o => match o with OColsend n => Some n | _ => None end) opts 3.

Definition staticsubject (opts : list cli_opt) : option string :=
  last_value (fun o => match o with OStaticsubject s => Some (Some s) | _ => None end) opts None.

(** The keys of [vars(parser.parse_args(...))]: one per destination of
    lines 319-333. *)
Definition params_keys : list string :=
  ["config"; "loglvl"; "logfile"; "rowoffset"; "colmail"; "colsubject"; "colbody";
   "colsend"; "staticsubject"; "sheetindex"; "cleancomments"; "excel_file"; "test";
   "nosend"; "notest"].

(** [k in params]. *)
Definition has_key (k : string) : bool := bool_decide (k ∈ params_keys).

(** The dictionary [self.config] as [Excel_Mail_Sender.run] reads it:
    ['staticsubject' in self.config] and its value, [None] when the
    option was left out (lines 221-222). *)
Definition params_of_opts (opts : list cli_opt) : params :=
  mkParams (colmail opts) (colsubject opts) (colbody opts) (colsend opts) (rowoffset opts)
    (if has_key "staticsubject"
     then Some (match staticsubject opts with Some s => CStr s | None => CNone end)
     else None)
    (flag_set ONosend opts).

(** ** Logging *)

(** The if/elif chain of lines 342-349: [None] when no branch binds
    [log_lvl]. *)
Definition log_level (s : string) : option Z :=
  if String.eqb s "DEBUG" then Some 10%Z
  else if String.eqb s "INFO" then Some 20%Z
  else if String.eqb s "WARN" then Some 30%Z
  else if String.eqb s "ERROR" then Some 40%Z
  else None.

(** Where [logging.basicConfig] sends the log (lines 350-353). *)
Inductive log_target :=
| LogFile (f : option string)
| LogStderr.

Definition log_setup (opts : list cli_opt) : log_target :=
  if has_key "logfile" then LogFile (logfile opts) else LogStderr.

(** ** The program *)

(** The program started with the options [opts]: argparse's usage error
    ends it at once; otherwise the logging set-up, where an unbound
    [log_lvl] would raise [NameError], then the main block. *)
Definition program (opts : list cli_opt) (bio : book_io) (wb : option exn) (cfg : json_config) : M unit :=
  if negb (parse_ok opts) then ret tt
  else
    match log_level (loglvl opts) with
    | None => raise NameError
    | Some _ =>
        main (params_of_opts opts) (flag_set OTest opts) (flag_set ONotest opts)
          (flag_set OCleancomments opts) bio wb cfg
    end.

(** ** What the parser builds *)

(** A property of the default and of every value of the option holds of
    the value argparse keeps. *)
Lemma last_value_inv {B} (P : B -> Prop) (f : cli_opt -> option B) opts d :
  P d -> (forall o b, o ∈ opts -> f o = Some b -> P b) -> P (last_value f opts d).
Proof.
  unfold last_value. revert d. induction opts as [|o opts IH]; intros d Hd Hf; [done|]. cbn.
  apply IH; [|intros; eapply Hf; [by right | done]].
  destruct (f o) eqn:Ho; [|done]. eapply Hf; [left | exact Ho].
Qed.

Lemma loglvl_choice opts : parse_ok opts = true -> loglvl opts ∈ loglvl_choices.
Proof.
  intros Hok. unfold loglvl. apply last_value_inv; [by right; left|]. intros o s Ho Hf.
  destruct o; try discriminate. injection Hf as <-.
  unfold parse_ok in Hok. rewrite forallb_forall in Hok.
  apply list_elem_of_In, Hok, bool_decide_eq_true in Ho. exact Ho.
Qed.

Lemma staticsubject_absent opts :
  (forall s, OStaticsubject s ∉ opts) -> staticsubject opts = None.
Proof.
  intros Hx. unfold staticsubject. apply (last_value_inv (fun v => v = None)); [done|].
  intros o b Ho Hf. destruct o; try discriminate. by destruct (Hx s).
Qed.

(** Without [--staticsubject], [run] sees the key with the value [None]. *)
Lemma params_no_subject opts :
  (forall s, OStaticsubject s ∉ opts) -> p_staticsubject (params_of_opts opts) = Some CNone.
Proof. intros Hx. unfold params_of_opts. cbn. by rewrite staticsubject_absent. Qed.

(** C37. The logging set-up never meets an unbound name: for every
    command line argparse accepts, one branch of the if/elif chain of
    lines 342-349 binds [log_lvl], so [logging.basicConfig] at line 351
    gets a level. *)
Theorem log_level_bound opts :
  parse_ok opts = true -> exists lvl, log_level (loglvl opts) = Some lvl.
Proof.
  intros Hok. pose proof (loglvl_choice opts Hok) as Hc. unfold loglvl_choices in Hc.
  repeat (apply elem_of_cons in Hc as [Hc|Hc]; [rewrite Hc; by eexists|]).
  by apply elem_of_nil in Hc.
Qed.

(** ** Sending nothing *)

Lemma init_senders_silent f mu refs nosend : bounded_by f 0 (init_senders mu refs nosend).
Proof.
  induction refs as [|r rs IH]; cbn [init_senders]; [apply bounded_ret|].
  pose proof (Mail_sender_init_silent f r (Some mu) nosend). bounded_solve.
Qed.

Lemma excel_init_silent f wb cfg nosend : bounded_by f 0 (excel_init wb cfg nosend).
Proof.
  pose proof init_senders_silent. unfold excel_init, load_config. bounded_solve.
Qed.

Lemma main_run_no_subject p conns :
  p_staticsubject p = Some CNone -> bounded_by is_sendmail 0 (main_run p conns).
Proof.
  intros Hp. assert (H : bounded_by is_sendmail 0 (run p conns)).
  { unfold run. eapply (bounded_bind _ 0 0); [apply bounded_get | intros w | lia].
    by apply run_rows_no_smtp. }
  unfold main_run. bounded_solve.
Qed.

(** With the subject [None], [main] outside the test mode sends no mail. *)
Lemma main_no_subject_silent p notest cc bio wb cfg :
  p_staticsubject p = Some CNone -> bounded_by is_sendmail 0 (main p false notest cc bio wb cfg).
Proof.
  intros Hp. pose proof (main_run_no_subject p). pose proof excel_init_silent.
  pose proof test_spreadsheet_file_bounded. cbn [main]. bounded_solve.
Qed.

(** C38. Started from the command line without [--staticsubject], the
    program sends no mail at all, whatever the other options, the files,
    the servers and openpyxl do: the parser puts the key
    ['staticsubject'] into [params] with the value [None], [run] makes
    every subject [None] and rejects every row, and the test mode sends
    nothing either. *)
Theorem cli_without_subject_sends_nothing opts bio wb cfg :
  (forall s, OStaticsubject s ∉ opts) -> bounded_by is_sendmail 0 (program opts bio wb cfg).
Proof.
  intros Hx. unfold program. destruct (parse_ok opts); [|apply bounded_ret]. cbn [negb].
  destruct (log_level (loglvl opts)); [|apply bounded_raise].
  destruct (flag_set OTest opts).
  - cbn [main]. destruct (test_mail_main_quiet cfg) as [Hb _].
    eapply (bounded_bind _ 0 0); [exact Hb | intros | lia].
    eapply (bounded_bind _ 0 0); [apply test_spreadsheet_file_bounded | intros; apply bounded_ret | lia].
  - by apply main_no_subject_silent, params_no_subject.
Qed.

(** [logging.basicConfig] is always called with [filename=params['logfile']]:
    the [else] branch of line 352 is never taken. *)
Lemma log_setup_file opts : log_setup opts = LogFile (logfile opts).
Proof. reflexivity. Qed.

(** ** Examples *)

Lemma log_level_bound_witness :
  parse_ok [OLoglvl "WARN"; ONosend] = true /\ exists lvl, log_level (loglvl [OLoglvl "WARN"; ONosend]) = Some lvl.
Proof. split; [reflexivity|]. apply log_level_bound. reflexivity. Defined.

Lemma cli_without_subject_sends_nothing_witness :
  (forall s, OStaticsubject s ∉ [OColsend 4; ONotest]) /\
  bounded_by is_sendmail 0 (program [OColsend 4; ONotest] sound_book None (JParsed (Some [quiet_account]))).
Proof.
  assert (Hx : forall s, OStaticsubject s ∉ [OColsend 4; ONotest]).
  { intros s Hs. apply elem_of_cons in Hs as [Hs|Hs]; [discriminate|].
    apply elem_of_cons in Hs as [Hs|Hs]; [discriminate | by apply elem_of_nil in Hs]. }
  split; [exact Hx | exact (cli_without_subject_sends_nothing _ _ _ _ Hx)].
Defined.
