(* ===== verification/QuotaRun.v ===== *)
(** * QuotaRun: the quota of every account across a whole run

    [Quota] proves that adaptive pacing never overdraws an account when
    every send waits for [next_send] ([Quota.adaptive_pacing_quota_safe]),
    on an abstract sequence of sends.  This file proves it of the program:
    [Excel_Mail_Sender.run] (sheetmail.py lines 217-255) sends through the
    sender chosen by [_find_free_server] after sleeping until its
    [next_send] (lines 227-231), and only a delivered mail calls
    [_update_quotas(mail_send=True)] (line 99); the retries of
    [send_mail] sleep but never count.  So the invariant [adaptive_inv]
    of each sender's dictionary and [next_send] holds of every sender of
    the pool throughout the run, whatever the servers do, and no counter
    [remaining_requests] goes below zero.

    The pool invariant [pool_quota_ok] asks, of every sender of the pool,
    that its dictionary exists, that it has a persistence callback, that
    it is in adaptive pacing with the invariant, and that no two senders
    share a dictionary (as [init] makes them: one per element of
    [mail_user]).  The computations that do not count a send keep the
    part of the world the invariant reads ([quota_view]) and only move
    the clock forward ([keeps_quota]).

    The invariant of the pool is stated for any pacing invariant [I] of
    the trackers that a send at or after [next_send] keeps
    ([pool_inv] in Section [Pool]); [pool_quota_ok] is its instance for
    adaptive pacing and [pool_fixed_ok] for fixed pacing with an
    allowance that divides the window ([Quota.fixed_inv]).  Section
    [InitPool] establishes it from the configuration through [init], for
    an account property that gives [I] at the start time:
    [account_adaptive], and [account_fixed], which asks a fixed-pacing
    window to have ended or to be covered by its remaining requests (a
    restart inside a window that is not covered overruns:
    [Quota.fixed_pacing_restart_overruns]). *)

From S2P Require Import Prelude Quota World Sender Scheduler Dispatcher Completion SheetCheck Main.

(** ** The quota part of the world *)

Definition sender_quota (s : mail_sender) : nat * option (list nat) * Z :=
  (ms_config s, ms_quota_persist s, ms_next_send s).

Definition quota_view (w : world) := (map sender_quota (objs w), dicts w).

(** The dictionary and [next_send] of the sender [i]. *)
Definition tracker_of (w : world) (i : nat) : tracker :=
  (dict w (ms_config (obj w i)), ms_next_send (obj w i)).

(** [m] keeps the quota part of the world and does not move the clock
    back. *)
Definition keeps_quota {A} (m : M A) : Prop :=
  forall v c, preserves (fun w => quota_view w = v /\ (c <= clock w)%Z) m.

Lemma keeps_quota_elim {A} (m : M A) v c :
  keeps_quota m -> preserves (fun w => quota_view w = v /\ (c <= clock w)%Z) m.
Proof. intros H. apply H. Qed.

Lemma keeps_quota_modify g :
  (forall w, quota_view (g w) = quota_view w /\ (clock w <= clock (g w))%Z) -> keeps_quota (modify g).
Proof. intros Hg v c w [Hv Hc]. destruct (Hg w) as [Hv' Hc']. cbn. split; [congruence | lia]. Qed.

Lemma keeps_quota_update_obj i f :
  (forall s, sender_quota (f s) = sender_quota s) -> keeps_quota (update_obj i f).
Proof.
  intros Hf. apply keeps_quota_modify. intros w. split; [|done].
  unfold quota_view. cbn. f_equal. apply map_insert_same.
  intros s Hs. rewrite Hf. unfold obj. by rewrite Hs.
Qed.

Lemma keeps_quota_sleep d : (0 <= d)%Z -> keeps_quota (sleep d).
Proof. intros Hd. apply keeps_quota_modify. intros w. split; [done | cbn; lia]. Qed.

Lemma keeps_quota_smtp i op : keeps_quota (smtp i op).
Proof.
  intros v c w Hw. unfold smtp. cbn beta.
  by destruct (default ROk (head (replies w))).
Qed.

Lemma keeps_quota_call_quota_persist qp : keeps_quota (call_quota_persist qp).
Proof.
  destruct qp; [apply keeps_quota_modify; by intros w | intros v c w Hw; exact Hw].
Qed.

#[export] Hint Resolve keeps_quota_smtp keeps_quota_call_quota_persist : sheetmail.
#[export] Hint Extern 1 (keeps_quota (update_obj _ _)) =>
  apply keeps_quota_update_obj; intros; reflexivity : sheetmail.
#[export] Hint Extern 1 (keeps_quota (write_cell _ _ _)) =>
  apply keeps_quota_modify; intros; split; reflexivity : sheetmail.
#[export] Hint Extern 1 (keeps_quota save_workbook) =>
  apply keeps_quota_modify; intros; split; reflexivity : sheetmail.
#[export] Hint Extern 1 (keeps_quota (sleep _)) =>
  apply keeps_quota_sleep; lia : sheetmail.

(** Follows the structure of a computation; the primitives and the
    methods already proved are found in the hint database. *)
Ltac keeps_quota_solve :=
  let v := fresh "v" in let c := fresh "c" in
  intros v c; py_preserves_with ltac:(apply keeps_quota_elim; eauto with sheetmail).

Lemma keeps_quota_connect i : keeps_quota (connect_to_server i).
Proof. unfold connect_to_server. keeps_quota_solve. Qed.

Lemma keeps_quota_close i : keeps_quota (close i).
Proof. unfold close. keeps_quota_solve. Qed.

Lemma keeps_quota_recipients mt : keeps_quota (recipients mt).
Proof. unfold recipients. keeps_quota_solve. Qed.

Lemma keeps_quota_mime_text mb : keeps_quota (mime_text mb).
Proof. unfold mime_text. keeps_quota_solve. Qed.

Lemma keeps_quota_as_string ms mb : keeps_quota (as_string ms mb).
Proof. unfold as_string. keeps_quota_solve. Qed.

Lemma keeps_quota_read_row p r : keeps_quota (read_row p r).
Proof. unfold read_row. keeps_quota_solve. Qed.

Lemma keeps_quota_mark_row p r v : keeps_quota (mark_row p r v).
Proof. unfold mark_row. keeps_quota_solve. Qed.

#[export] Hint Resolve keeps_quota_connect keeps_quota_close keeps_quota_recipients
  keeps_quota_mime_text keeps_quota_as_string keeps_quota_read_row keeps_quota_mark_row : sheetmail.

(** The view fixes every sender's quota fields and every dictionary. *)
Lemma obj_quota_view w w' i :
  quota_view w' = quota_view w -> sender_quota (obj w' i) = sender_quota (obj w i).
Proof.
  intros [= Ho _]. apply (f_equal (fun l => l !! i)) in Ho. rewrite !list_lookup_fmap in Ho.
  unfold obj. destruct (objs w' !! i), (objs w !! i); cbn in Ho; unfold sender_quota in *; cbn; congruence.
Qed.

(** The view fixes each sender's dictionary reference, callback and
    tracker. *)
Lemma view_fields w w' i :
  quota_view w' = quota_view w ->
  ms_config (obj w' i) = ms_config (obj w i) /\
  ms_quota_persist (obj w' i) = ms_quota_persist (obj w i) /\
  tracker_of w' i = tracker_of w i.
Proof.
  intros Hv. pose proof (obj_quota_view w w' i Hv) as Hq. unfold sender_quota in Hq.
  injection Hq as H1 H2 H3. injection Hv as _ Hd.
  unfold tracker_of, dict. rewrite H1, H3, Hd. by repeat split.
Qed.

Lemma view_lengths w w' :
  quota_view w' = quota_view w -> length (objs w') = length (objs w) /\ length (dicts w') = length (dicts w).
Proof.
  intros [= Ho Hd]. apply (f_equal length) in Ho. rewrite !length_map in Ho. by rewrite Ho, Hd.
Qed.

(** ** The invariant of the pool *)

Section Pool.
(** The pacing invariant of a sender's tracker: a send at or after
    [next_send] does not raise and keeps it ([Quota.adaptive_send_ok],
    [Quota.fixed_send_ok]). *)
Context (I : tracker -> Prop).
Hypothesis I_send : forall tr t,
  I tr -> (tr.2 <= t)%Z -> exists tr', tracker_send tr t = Some tr' /\ I tr'.
(** The dictionaries the senders of the pool refer to, in order. *)
Context (refs : list nat).

(** Every sender of [conns] has its own dictionary, the one [refs]
    gives, a persistence callback and the pacing invariant. *)
Definition pool_inv (conns : list nat) (w : world) : Prop :=
  (forall j k, j ∈ conns -> k ∈ conns -> ms_config (obj w j) = ms_config (obj w k) -> j = k) /\
  Forall (fun i => i < length (objs w) /\ ms_config (obj w i) < length (dicts w) /\
                   is_Some (ms_quota_persist (obj w i)) /\ I (tracker_of w i)) conns /\
  map (fun i => ms_config (obj w i)) conns = refs.

(** The sender [i] of the pool may send: its [next_send] has come. *)
Definition sender_due (conns : list nat) (i : nat) (w : world) : Prop :=
  pool_inv conns w /\ i ∈ conns /\ (ms_next_send (obj w i) <= clock w)%Z.

Lemma pool_inv_view conns w w' :
  quota_view w' = quota_view w -> pool_inv conns w -> pool_inv conns w'.
Proof.
  intros Hv (Hinj & Hall & Hmap). destruct (view_lengths w w' Hv) as [Hlo Hld]. split; [|split].
  - intros j k Hj Hk. rewrite (proj1 (view_fields w w' j Hv)), (proj1 (view_fields w w' k Hv)).
    by apply Hinj.
  - eapply Forall_impl; [exact Hall|]. intros i (H1 & H2 & H3 & H4).
    destruct (view_fields w w' i Hv) as (Hc & Hp & Ht). rewrite Hlo, Hld, Hc, Hp, Ht. done.
  - rewrite <- Hmap. apply map_ext. intros i. apply view_fields, Hv.
Qed.

Lemma sender_due_view conns i w w' :
  quota_view w' = quota_view w -> (clock w <= clock w')%Z -> sender_due conns i w -> sender_due conns i w'.
Proof.
  intros Hv Hc (Hp & Hin & Hns). split; [by apply (pool_inv_view conns w)|]. split; [done|].
  pose proof (obj_quota_view w w' i Hv) as Hq. unfold sender_quota in Hq. injection Hq as _ _ H3. lia.
Qed.

(** What [keeps_quota] gives for the two invariants. *)
Lemma keeps_quota_pool {A} (m : M A) conns w :
  keeps_quota m -> pool_inv conns w -> pool_inv conns (snd (m w)).
Proof.
  intros Hm Hw. destruct (Hm (quota_view w) (clock w) w (conj eq_refl (Z.le_refl _))) as [Hv _].
  by apply (pool_inv_view conns w).
Qed.

Lemma keeps_quota_due {A} (m : M A) conns i w :
  keeps_quota m -> sender_due conns i w -> sender_due conns i (snd (m w)).
Proof.
  intros Hm Hw. destruct (Hm (quota_view w) (clock w) w (conj eq_refl (Z.le_refl _))) as [Hv Hc].
  by apply (sender_due_view conns i w).
Qed.

(** ** Counting a send *)

Lemma obj_quotas_updated w i r a' n j :
  i < length (objs w) ->
  obj (quotas_updated w i r a' n) j = if decide (j = i) then set_next_send n (obj w i) else obj w j.
Proof.
  intros Hi. unfold obj at 1. cbn. case_decide as Hj.
  - subst. by rewrite list_lookup_insert_eq.
  - by rewrite list_lookup_insert_ne.
Qed.

Lemma dict_quotas_updated w i r a' n q :
  r < length (dicts w) ->
  dict (quotas_updated w i r a' n) q = if decide (q = r) then a' else dict w q.
Proof.
  intros Hr. unfold dict at 1. cbn. case_decide as Hq.
  - subst. by rewrite list_lookup_insert_eq.
  - by rewrite list_lookup_insert_ne.
Qed.

(** [_update_quotas(mail_send=True)] of a due sender returns normally
    and keeps the invariant of the pool: the sender's tracker takes the
    step [tracker_send] of [Quota] at the current time, which preserves
    [adaptive_inv] ([Quota.adaptive_inv_send]); no other sender's
    dictionary is touched. *)
Lemma update_quotas_pool conns i w :
  sender_due conns i w ->
  exists w', _update_quotas i true w = (Ok tt, w') /\ pool_inv conns w'.
Proof.
  intros ((Hinj & Hall & Hmap) & Hin & Hns).
  destruct (proj1 (Forall_forall _ _) Hall i Hin) as (Hlo & Hlr & Hp & Hinv).
  set (s := obj w i) in *. set (r := ms_config s) in *. set (a := dict w r).
  assert (Hs : objs w !! i = Some s).
  { unfold s, obj. by destruct (lookup_lt_is_Some_2 (objs w) i Hlo) as [x ->]. }
  assert (Ha : dicts w !! r = Some a).
  { unfold a, dict. by destruct (lookup_lt_is_Some_2 (dicts w) r Hlr) as [x ->]. }
  destruct (I_send (a, ms_next_send s) (clock w) Hinv Hns) as (tr' & Hts & Hstep).
  unfold tracker_send in Hts. cbn [fst] in Hts.
  destruct (next_send_after (quota_counters a (clock w) true) (clock w) true) as [n|] eqn:Hn;
    [injection Hts as <- | discriminate].
  rewrite (_update_quotas_ok i true w s r a n Hs eq_refl Ha (fun _ => Hp) Hn).
  eexists. split; [reflexivity|].
  split; [|split].
  - intros j k Hj Hk. rewrite !obj_quotas_updated by done.
    do 2 case_decide; subst; cbn; intros; by apply Hinj.
  - apply Forall_forall. intros j Hj.
    destruct (proj1 (Forall_forall _ _) Hall j Hj) as (Hlo' & Hlr' & Hp' & Hinv').
    cbn [quotas_updated objs dicts]. rewrite !length_insert, obj_quotas_updated by done.
    unfold tracker_of. rewrite obj_quotas_updated by done.
    case_decide as Hji; [subst j|]; cbn [ms_config ms_quota_persist ms_next_send set_next_send].
    + rewrite dict_quotas_updated, decide_True by done. exact (conj Hlo (conj Hlr (conj Hp Hstep))).
    + rewrite dict_quotas_updated by done.
      rewrite decide_False; [done|]. intros Hc. apply Hji, Hinj; done.
  - rewrite <- Hmap. apply map_ext. intros j. rewrite obj_quotas_updated by done.
    by case_decide; [subst|].
Qed.

(** ** One delivery attempt, and the retry loop *)

(** A computation that keeps the quota part, followed by [k]: a
    property [P] that only asks the clock to be late enough survives the
    first part, whose exceptions must satisfy [Q] in [P]. *)
Lemma keeps_then {A B} (m : M A) (k : A -> M B) (P : world -> Prop) (Q : res B -> world -> Prop) :
  keeps_quota m ->
  (forall w w', quota_view w' = quota_view w -> (clock w <= clock w')%Z -> P w -> P w') ->
  (forall e w, P w -> Q (Exc e) w) ->
  (forall a w, P w -> Q (fst (k a w)) (snd (k a w))) ->
  forall w, P w -> Q (fst (bind m k w)) (snd (bind m k w)).
Proof.
  intros Hm Hst Hexc Hk w Hw.
  destruct (Hm (quota_view w) (clock w) w (conj eq_refl (Z.le_refl _))) as [Hv Hc].
  assert (Hw1 : P (snd (m w))) by (eapply Hst; [exact Hv | exact Hc | exact Hw]).
  unfold bind. destruct (m w) as [[a|e] w1]; cbn in *; auto.
Qed.

(** What is left after an attempt: the pool invariant, and the sender
    still due when the attempt raised (no send was counted). *)
Definition attempt_post (conns : list nat) (i : nat) {A} (r : res A) (w : world) : Prop :=
  pool_inv conns w /\ (forall e, r = Exc e -> sender_due conns i w).

Lemma attempt_post_exc {A} conns i e w : sender_due conns i w -> @attempt_post conns i A (Exc e) w.
Proof. intros Hw. split; [apply Hw | by intros]. Qed.

Ltac keeps_then_step conns i :=
  apply (keeps_then _ _ (sender_due conns i) (attempt_post conns i));
  [ keeps_quota_solve
  | intros ? ? ? ?; by apply sender_due_view
  | intros; by apply attempt_post_exc
  | intros ? ].

Lemma send_once_pool conns i mt ms mb w :
  sender_due conns i w ->
  attempt_post conns i (fst (_send_mail i mt ms mb w)) (snd (_send_mail i mt ms mb w)).
Proof.
  revert w. unfold _send_mail. do 6 keeps_then_step conns i. intros w Hw.
  destruct (update_quotas_pool conns i w Hw) as (w' & -> & Hp). split; [done | discriminate].
Qed.

(** The retry loop keeps the invariant of the pool, whatever the
    servers answer: only a delivery counts, and a retry sleeps. *)
Lemma send_mail_loop_pool conns i mt ms mb retries st n :
  (0 <= st)%Z -> forall k w, sender_due conns i w ->
  pool_inv conns (snd (send_mail_loop i mt ms mb retries st k n w)).
Proof.
  intros Hst. induction n as [|n IH]; intros k w Hw; cbn [send_mail_loop]; [apply Hw|].
  pose proof (send_once_pool conns i mt ms mb w Hw) as [Hp Hexc].
  unfold try_, bind at 1. destruct (_send_mail i mt ms mb w) as [[[]|e] w1]; cbn in *; [done|].
  specialize (Hexc e eq_refl).
  destruct (send_mail_handler e); try apply Hexc.
  clear Hp. revert w1 Hexc. apply (keeps_then _ _ (sender_due conns i) (fun _ w => pool_inv conns w)).
  - keeps_quota_solve.
  - intros ? ? ? ?. by apply sender_due_view.
  - intros e' w' Hw'. apply Hw'.
  - intros [] w' Hw'. by apply IH.
Qed.

(** ** One row, and the whole run *)

Lemma keeps_quota_preserves {A} (m : M A) conns :
  keeps_quota m -> preserves (pool_inv conns) m.
Proof. intros Hm w Hw. by apply keeps_quota_pool. Qed.

(** A computation that keeps the pool invariant, followed by
    computations that keep the quota part. *)
Lemma bind_pool {A B} (m : M A) (k : A -> M B) conns w :
  pool_inv conns (snd (m w)) -> (forall a, keeps_quota (k a)) ->
  pool_inv conns (snd (bind m k w)).
Proof.
  intros Hm Hk. unfold bind. destruct (m w) as [[a|e] w1]; cbn in *; [|done].
  by apply keeps_quota_pool.
Qed.

(** [_find_free_server] picks a sender of the pool and its [next_send]. *)
Lemma find_free_server_pick conns w ns i w' :
  _find_free_server conns w = (Ok (ns, i), w') ->
  w' = w /\ i ∈ conns /\ ns = ms_next_send (obj w i).
Proof.
  destruct conns as [|j l].
  { unfold _find_free_server. py_unfold. cbn. discriminate. }
  rewrite find_free_server_cons. intros [= <- <- <-]. split; [done|]. split; [|done].
  apply list_elem_of_In. destruct (scan_min_in w l j) as [->|H]; [by left | by right].
Qed.

(** The wait of lines 228-231 makes the chosen sender due. *)
Lemma waited_due conns i w :
  pool_inv conns w -> i ∈ conns ->
  sender_due conns i (waited (ms_next_send (obj w i)) w).
Proof.
  intros Hp Hin. unfold waited.
  destruct (Z.ltb_spec (clock w) (ms_next_send (obj w i))) as [Hlt|Hge].
  - split; [|split; [done|]]; [by apply (pool_inv_view conns w) | cbn; unfold obj; cbn; lia].
  - exact (conj Hp (conj Hin Hge)).
Qed.

Lemma process_row_pool p conns r row :
  preserves (pool_inv conns) (process_row p conns r row).
Proof.
  intros w Hw. destruct row as [[[mail subject0] body] send]. unfold process_row.
  destruct (row_done send); [done|].
  destruct (find_free_server_cases conns w) as [Hsel | (ns & i & Hsel)];
    unfold bind at 1; rewrite Hsel; [done|]. cbn beta iota.
  destruct (find_free_server_pick conns w ns i w Hsel) as (_ & Hin & ->).
  pose proof (waited_due conns i w Hw Hin) as Hdue.
  unfold bind at 1. rewrite wait_until_run. cbn beta iota.
  apply bind_pool; [|intros [|[]]; unfold mark_row; keeps_quota_solve].
  destruct (row_invalid _ _ _); [apply Hdue|].
  pose proof (send_mail_loop_pool conns i mail (row_subject p subject0) body 3 5 3
                ltac:(lia) 0 _ Hdue) as Hs.
  unfold try_, bind. unfold send_mail in *.
  destruct (send_mail_loop _ _ _ _ _ _ _ _ _) as [[b|e] w2]; cbn in *; [done|].
  by destruct e.
Qed.

Lemma run_rows_pool p conns rows : preserves (pool_inv conns) (run_rows p conns rows).
Proof.
  induction rows as [|r rs IH]; cbn [run_rows]; [apply preserves_ret|].
  destruct (r <? p_rowoffset p); [exact IH|].
  apply preserves_bind; [apply keeps_quota_preserves, keeps_quota_read_row | intros row].
  apply preserves_bind; [apply process_row_pool | intros []; [exact IH | apply preserves_ret]].
Qed.

(** The invariant across a whole [main_run]. *)
Lemma main_run_pool_inv p conns : preserves (pool_inv conns) (main_run p conns).
Proof.
  unfold main_run, run.
  py_preserves_with ltac:(first [apply run_rows_pool | apply keeps_quota_preserves; eauto with sheetmail]).
Qed.

(** No counter of the pool is negative when the invariant implies it. *)
Lemma pool_inv_counters conns w :
  (forall tr, I tr -> 0 <= remaining_requests tr.1)%Z -> pool_inv conns w ->
  Forall (fun i => (0 <= remaining_requests (dict w (ms_config (obj w i))))%Z) conns.
Proof.
  intros HI (_ & Hall & _). eapply Forall_impl; [exact Hall|]. intros i (_ & _ & _ & Hi). exact (HI _ Hi).
Qed.
End Pool.

(** The pool invariant for adaptive pacing. *)
Definition pool_quota_ok : list nat -> list nat -> world -> Prop := pool_inv adaptive_inv.

Lemma main_run_pool p refs conns : preserves (pool_quota_ok refs conns) (main_run p conns).
Proof. apply main_run_pool_inv, adaptive_send_ok. Qed.

(** C39. A run never overdraws an adaptive account: when every sender
    of the pool has its own dictionary, a persistence callback and
    adaptive pacing with [adaptive_inv] (a non-negative counter, an
    allowance of at least one request, and [next_send] at the end of the
    window once the counter is zero), then however [run] and the
    [KeyboardInterrupt] handler of the main block end, whatever the
    servers answer, every sender still satisfies the invariant and no
    [remaining_requests] is negative. *)
Theorem run_never_overdraws p refs conns w :
  pool_quota_ok refs conns w ->
  pool_quota_ok refs conns (snd (main_run p conns w)) /\
  Forall (fun i => (0 <= remaining_requests (dict (snd (main_run p conns w))
                                                   (ms_config (obj (snd (main_run p conns w)) i))))%Z) conns.
Proof.
  intros Hw. pose proof (main_run_pool p refs conns w Hw) as Hp.
  split; [exact Hp|]. eapply Forall_impl; [apply (proj1 (proj2 Hp))|]. by intros i (_ & _ & _ & _ & _ & ? & _).
Qed.

(** The pool invariant for fixed pacing. *)
Definition pool_fixed_ok : list nat -> list nat -> world -> Prop := pool_inv fixed_inv.

(** C21. A run never overdraws a fixed-pacing account whose allowance
    divides its window either: when every sender of the pool has its own
    dictionary, a persistence callback and fixed pacing with [fixed_inv]
    (an allowance of at least one request that divides the timeframe, a
    non-negative counter, and the rest of the window covered by the
    remaining requests at the fixed cadence from [next_send]), then
    however [run] and the [KeyboardInterrupt] handler end, whatever the
    servers answer, every sender keeps the invariant and no
    [remaining_requests] is negative: the wait of lines 228-231 keeps the
    cadence that [Quota.fixed_pacing_quota_safe] assumes. *)
Theorem run_never_overdraws_fixed p refs conns w :
  pool_fixed_ok refs conns w ->
  pool_fixed_ok refs conns (snd (main_run p conns w)) /\
  Forall (fun i => (0 <= remaining_requests (dict (snd (main_run p conns w))
                                                   (ms_config (obj (snd (main_run p conns w)) i))))%Z) conns.
Proof.
  intros Hw. pose proof (main_run_pool_inv fixed_inv fixed_send_ok refs p conns w Hw) as Hp.
  split; [exact Hp|]. apply (pool_inv_counters fixed_inv refs); [|exact Hp].
  by intros tr (_ & _ & _ & ? & _).
Qed.

(** ** From the configuration file *)

(** [init] creates the pool, one sender per dictionary of the
    configuration; the constructor's [_update_quotas(mail_send=False)]
    sets each tracker to [tracker_init] at the current time.  An account
    property [P] at that time that gives the pacing invariant [I] of the
    tracker then makes the invariant of the pool hold after [init]. *)
(** Without a send, the next-send computation never divides. *)
Lemma next_send_no_send a t : exists n, next_send_after a t false = Some n.
Proof. unfold next_send_after. destruct (use_fixed_delay a); [eauto|]. destruct (0 <? _)%Z; eauto. Qed.

Section InitPool.
Context (I : tracker -> Prop) (P : Z -> account -> Prop).
Hypothesis P_init : forall t a, P t a -> I (tracker_init a t).

(** [Mail_sender(connection, self._persist_config, ...)] on a dictionary
    no sender of the pool has yet adds a sender to the pool, and does not
    move the clock. *)
Lemma Mail_sender_init_pool refs conns r mu nosend w :
  pool_inv I refs conns w -> r < length (dicts w) -> P (clock w) (dict w r) -> r ∉ refs ->
  exists w', Mail_sender_init r (Some mu) nosend w = (Ok (length (objs w)), w') /\
    pool_inv I (refs ++ [r]) (conns ++ [length (objs w)]) w' /\ clock w' = clock w /\
    length (dicts w') = length (dicts w) /\ (forall q, q <> r -> dict w' q = dict w q).
Proof.
  intros (Hinj & Hall & Hmap) Hr HP Hnot.
  set (a := dict w r) in *.
  unfold Mail_sender_init. py_unfold. cbn [fst snd].
  set (w2 := with_objs w _). set (i := length (objs w)).
  set (s0 := mkMailSender (host a) (port a) (username a) (password a) (sender_addr a) (user_ssl a)
                          r nosend false (Some mu) 0 false).
  assert (Hi : objs w2 !! i = Some s0) by (cbn; by rewrite list_lookup_middle).
  assert (Ha : dicts w2 !! r = Some a).
  { unfold a, dict. cbn. by destruct (lookup_lt_is_Some_2 (dicts w) r Hr) as [x ->]. }
  destruct (next_send_no_send (quota_counters a (clock w2) false) (clock w2)) as [n Hn].
  rewrite (_update_quotas_ok i false w2 s0 r a n Hi eq_refl Ha (fun _ => ltac:(by eexists)) Hn).
  eexists. split; [reflexivity|].
  assert (Hlen2 : length (objs w2) = S i) by (cbn; rewrite length_app; cbn; lia).
  assert (Hlo : i < length (objs w2)) by lia.
  assert (Hold : forall j, j ∈ conns -> j < i /\ ms_config (obj w j) <> r /\
             obj (quotas_updated w2 i r (quota_counters a (clock w2) false) n) j = obj w j).
  { intros j Hj. destruct (proj1 (Forall_forall _ _) Hall j Hj) as (Hj' & _).
    split; [done|]. split.
    - intros Hc. apply Hnot. rewrite <- Hmap, <- Hc. apply list_elem_of_In.
      apply (in_map (fun i => ms_config (obj w i))), list_elem_of_In, Hj.
    - rewrite obj_quotas_updated, decide_False by (done || lia). unfold obj. cbn. by rewrite lookup_app_l. }
  assert (Hnew : obj (quotas_updated w2 i r (quota_counters a (clock w2) false) n) i = set_next_send n s0).
  { rewrite obj_quotas_updated, decide_True by done. unfold obj. by rewrite Hi. }
  assert (Hdict : forall q, dict (quotas_updated w2 i r (quota_counters a (clock w2) false) n) q =
                            if decide (q = r) then quota_counters a (clock w) false else dict w q).
  { intros q. by rewrite dict_quotas_updated. }
  split; [split; [|split]|split; [done | split; [cbn [quotas_updated dicts]; by rewrite length_insert|]]].
  - intros j k Hj Hk. apply elem_of_app in Hj, Hk. rewrite list_elem_of_singleton in Hj, Hk.
    destruct Hj as [Hj | ->], Hk as [Hk | ->]; [| | |done].
    + rewrite (proj2 (proj2 (Hold j Hj))), (proj2 (proj2 (Hold k Hk))). by apply Hinj.
    + rewrite Hnew, (proj2 (proj2 (Hold j Hj))). cbn. intros Hc. by destruct (proj1 (proj2 (Hold j Hj))).
    + rewrite Hnew, (proj2 (proj2 (Hold k Hk))). cbn. intros Hc. by destruct (proj1 (proj2 (Hold k Hk))).
  - apply Forall_app. split.
    + apply Forall_forall. intros j Hj. destruct (proj1 (Forall_forall _ _) Hall j Hj) as (H1 & H2 & H3 & H4).
      destruct (Hold j Hj) as (_ & Hne & Ho). unfold tracker_of. rewrite Ho, Hdict, decide_False by done.
      cbn [quotas_updated objs dicts]. rewrite !length_insert, Hlen2. cbn. split; [lia|]. split; [done|]. split; [done | exact H4].
    + constructor; [|constructor]. unfold tracker_of. rewrite Hnew, Hdict.
      cbn [quotas_updated objs dicts ms_config ms_quota_persist ms_next_send set_next_send s0].
      rewrite decide_True by done. rewrite ?length_insert.
      split; [exact Hlo|]. split; [exact Hr|]. split; [by eexists|].
      pose proof (P_init (clock w) a HP) as Hinit. unfold tracker_init in Hinit.
      cbv zeta in Hinit. change (clock w2) with (clock w) in Hn. by rewrite Hn in Hinit.
  - rewrite map_app, <- Hmap. f_equal.
    + apply map_ext_in. intros j Hj%list_elem_of_In. by rewrite (proj2 (proj2 (Hold j Hj))).
    + cbn [map]. by rewrite Hnew.
  - intros q Hq. rewrite Hdict. by rewrite decide_False.
Qed.

(** The senders [init] makes, one per dictionary of [rs], join the
    pool. *)
Lemma init_senders_pool mu nosend rs : forall refs conns w,
  pool_inv I refs conns w -> NoDup rs ->
  (forall r, r ∈ rs -> (r ∉ refs) /\ r < length (dicts w) /\ P (clock w) (dict w r)) ->
  exists news w', init_senders mu rs nosend w = (Ok news, w') /\ pool_inv I (refs ++ rs) (conns ++ news) w'.
Proof.
  induction rs as [|r rs IH]; intros refs conns w Hp Hnd Hrs.
  { exists [], w. rewrite !app_nil_r. by split. }
  apply NoDup_cons in Hnd as [Hr Hnd].
  destruct (Hrs r (list_elem_of_here _ _)) as (Hnot & Hlt & HP).
  destruct (Mail_sender_init_pool refs conns r mu nosend w Hp Hlt HP Hnot) as (w1 & Hi & Hp1 & Hc & Hlen & Hd).
  destruct (IH (refs ++ [r]) (conns ++ [length (objs w)]) w1 Hp1 Hnd) as (news & w' & Hrun & Hp').
  { intros q Hq. destruct (Hrs q (proj2 (elem_of_cons _ _ _) (or_intror Hq))) as (Hq1 & Hq2 & Hq3).
    assert (q <> r) by (intros ->; contradiction).
    split; [rewrite elem_of_app, list_elem_of_singleton; tauto|]. rewrite Hlen, Hd, Hc by done. done. }
  exists (length (objs w) :: news), w'. cbn [init_senders].
  rewrite (bind_ok _ _ _ _ _ Hi), (bind_ok _ _ _ _ _ Hrun). split; [done|].
  by rewrite <- !app_assoc in Hp'.
Qed.

(** Valid files make a pool with the invariant, one sender per loaded
    dictionary. *)
Lemma excel_init_pool_inv accts nosend w :
  Forall (P (clock w)) accts ->
  exists conns w1, excel_init None (JParsed (Some accts)) nosend w = (Ok (Some conns), w1) /\
    pool_inv I (seq (length (dicts w)) (length accts)) conns w1.
Proof.
  intros Hok. unfold excel_init, load_config. py_unfold. cbn [fst snd].
  set (w0 := with_dicts w (dicts w ++ accts)).
  assert (Hp0 : pool_inv I [] [] w0) by (split; [set_solver | split; [constructor | done]]).
  destruct (init_senders_pool (seq (length (dicts w)) (length accts)) nosend
              (seq (length (dicts w)) (length accts)) [] [] w0 Hp0 (NoDup_seq _ _)) as (conns & w1 & Hrun & Hp).
  { intros r Hr. apply elem_of_seq in Hr. split; [set_solver|].
    cbn. rewrite length_app. split; [lia|]. unfold dict. cbn. rewrite lookup_app_r by lia.
    destruct (lookup_lt_is_Some_2 accts (r - length (dicts w))) as [a Ha]; [lia|]. rewrite Ha. cbn.
    eapply Forall_lookup_1 in Hok; [exact Hok | exact Ha]. }
  exists conns, w1. rewrite Hrun. by split.
Qed.

Hypothesis I_send : forall tr t,
  I tr -> (tr.2 <= t)%Z -> exists tr', tracker_send tr t = Some tr' /\ I tr'.
Hypothesis I_counter : forall tr, I tr -> (0 <= remaining_requests tr.1)%Z.

(** However the program run without [--test] ends, every dictionary it
    loaded has a non-negative counter. *)
Lemma program_counters p notest cc bio accts w :
  Forall (P (clock w)) accts ->
  forall r, length (dicts w) <= r < length (dicts w) + length accts ->
  (0 <= remaining_requests (dict (snd (main p false notest cc bio None (JParsed (Some accts)) w)) r))%Z.
Proof.
  intros Hok r Hr. cbn [main].
  assert (Hnot : (0 <= remaining_requests (dict w r))%Z).
  { unfold dict. by rewrite lookup_ge_None_2 by lia. }
  assert (Hchk : snd ((if notest then ret false else test_spreadsheet_file bio cc) w) = w).
  { destruct notest; [done | apply test_spreadsheet_file_world]. }
  unfold bind at 1. destruct ((if notest then ret false else test_spreadsheet_file bio cc) w) as [[[]|e] w0];
    cbn in Hchk; subst w0; [done| |done].
  destruct (excel_init_pool_inv accts (p_nosend p) w Hok) as (conns & w1 & Hinit & Hp).
  unfold bind at 1. rewrite Hinit. cbn beta iota.
  pose proof (main_run_pool_inv I I_send _ p conns w1 Hp) as (_ & Hall & Hmap).
  assert (Hin : r ∈ map (fun i => ms_config (obj (snd (main_run p conns w1)) i)) conns).
  { rewrite Hmap. apply elem_of_seq. lia. }
  apply list_elem_of_In, in_map_iff in Hin as (i & <- & Hi%list_elem_of_In).
  destruct (proj1 (Forall_forall _ _) Hall i Hi) as (_ & _ & _ & HI). exact (I_counter _ HI).
Qed.
End InitPool.

(** An account in adaptive pacing with an allowance and a non-negative
    counter, as a fresh or persisted configuration has it. *)
Definition account_adaptive (a : account) : Prop :=
  use_fixed_delay a = false /\ (1 <= allowed_requests a)%Z /\ (0 <= remaining_requests a)%Z.

Lemma account_adaptive_init t a : account_adaptive a -> adaptive_inv (tracker_init a t).
Proof. intros (Hf & Ha & Hr). by apply adaptive_inv_init. Qed.

Lemma excel_init_pool accts nosend w :
  Forall account_adaptive accts ->
  exists conns w1, excel_init None (JParsed (Some accts)) nosend w = (Ok (Some conns), w1) /\
    pool_quota_ok (seq (length (dicts w)) (length accts)) conns w1.
Proof. apply (excel_init_pool_inv adaptive_inv (fun _ => account_adaptive) account_adaptive_init). Qed.

(** C40. The program never overdraws an account of its configuration:
    when every account of the file is in adaptive pacing with an
    allowance and a non-negative counter, the program run without
    [--test] ends, however it ends (the start-up check stopping it,
    [init] failing, [run] returning, raising or interrupted), with the
    counter of every loaded dictionary non-negative. *)
Theorem program_never_overdraws p notest cc bio accts w :
  Forall account_adaptive accts ->
  forall r, length (dicts w) <= r < length (dicts w) + length accts ->
  (0 <= remaining_requests (dict (snd (main p false notest cc bio None (JParsed (Some accts)) w)) r))%Z.
Proof.
  apply (program_counters adaptive_inv (fun _ => account_adaptive) account_adaptive_init adaptive_send_ok).
  by intros tr (_ & _ & ? & _).
Qed.

(** An account in fixed pacing whose allowance divides its window, and
    whose window at the start time [t] has ended or is covered by its
    remaining requests at the fixed cadence from [t]. *)
Definition account_fixed (t : Z) (a : account) : Prop :=
  use_fixed_delay a = true /\ (1 <= allowed_requests a)%Z /\
  (timeframe a mod allowed_requests a = 0)%Z /\
  (timeframe_end a <= t \/
   0 <= remaining_requests a /\
   timeframe_end a <= t + remaining_requests a * (timeframe a / allowed_requests a))%Z.

Lemma account_fixed_init t a : account_fixed t a -> fixed_inv (tracker_init a t).
Proof.
  intros (Hf & Ha & Hm & Hw). pose proof (Z.div_mod (timeframe a) (allowed_requests a) ltac:(lia)).
  unfold tracker_init, quota_counters, window_check, window_expired, next_send_after, rollover.
  destruct (timeframe_end a <=? t)%Z eqn:He; cbn; rewrite Hf; unfold fixed_inv; cbn; rewrite ?Hf.
  - repeat split; lia.
  - destruct Hw as [Hw | Hw]; [lia|]. repeat split; lia.
Qed.

(** C22. The program never overdraws a fixed-pacing account whose
    allowance divides its window, unless a run restarts inside a window
    the remaining requests cannot cover at the fixed cadence (the case of
    [Quota.fixed_pacing_restart_overruns]): when every account of the
    file is in fixed pacing with such an allowance, and its window has
    ended or its remaining requests cover the rest of it, the program run
    without [--test] ends, however it ends, with the counter of every
    loaded dictionary non-negative. *)
Theorem program_never_overdraws_fixed p notest cc bio accts w :
  Forall (account_fixed (clock w)) accts ->
  forall r, length (dicts w) <= r < length (dicts w) + length accts ->
  (0 <= remaining_requests (dict (snd (main p false notest cc bio None (JParsed (Some accts)) w)) r))%Z.
Proof.
  apply (program_counters fixed_inv account_fixed account_fixed_init fixed_send_ok).
  by intros tr (_ & _ & _ & ? & _).
Qed.

(** ** Examples *)

Lemma run_never_overdraws_witness :
  let w := row_world [] in
  pool_quota_ok [0] [0] w /\
  pool_quota_ok [0] [0] (snd (main_run (cli_params None) [0%nat] w)) /\
  Forall (fun i => (0 <= remaining_requests (dict (snd (main_run (cli_params None) [0%nat] w))
                                                   (ms_config (obj (snd (main_run (cli_params None) [0%nat] w)) i))))%Z) [0%nat].
Proof.
  intros w. assert (Hw : pool_quota_ok [0] [0] w).
  { split; [|split].
    - intros j k Hj Hk _. apply list_elem_of_singleton in Hj, Hk. congruence.
    - constructor; [|constructor]. cbn. split; [lia|]. split; [lia|]. split; [by eexists|].
      unfold adaptive_inv; cbn. lia.
    - reflexivity. }
  split; [exact Hw|]. exact (run_never_overdraws _ _ _ _ Hw).
Defined.

Lemma program_never_overdraws_witness :
  let w := with_objs (example_world [] example_sheet 2) [] in
  Forall account_adaptive [example_account false 60 3] /\
  length (dicts w) <= 1 < length (dicts w) + length [example_account false 60 3] /\
  (0 <= remaining_requests
          (dict (snd (main (cli_params None) false false false sound_book None
                           (JParsed (Some [example_account false 60 3])) w)) 1))%Z.
Proof.
  intros w. assert (Hok : Forall account_adaptive [example_account false 60 3]).
  { constructor; [unfold account_adaptive; cbn; lia | constructor]. }
  assert (Hr : length (dicts w) <= 1 < length (dicts w) + length [example_account false 60 3]) by (cbn; lia).
  split; [exact Hok|]. split; [exact Hr|].
  exact (program_never_overdraws _ _ _ _ _ w Hok 1 Hr).
Defined.

(** The example world with its account in fixed pacing, 3 requests per
    minute, whose window has ended. *)
Definition fixed_row_world : world := with_dicts (row_world []) [example_account true 60 3].

Lemma run_never_overdraws_fixed_witness :
  let w := fixed_row_world in
  pool_fixed_ok [0] [0] w /\
  pool_fixed_ok [0] [0] (snd (main_run (cli_params None) [0%nat] w)) /\
  Forall (fun i => (0 <= remaining_requests (dict (snd (main_run (cli_params None) [0%nat] w))
                                                   (ms_config (obj (snd (main_run (cli_params None) [0%nat] w)) i))))%Z) [0%nat].
Proof.
  intros w. assert (Hw : pool_fixed_ok [0] [0] w).
  { split; [|split].
    - intros j k Hj Hk _. apply list_elem_of_singleton in Hj, Hk. congruence.
    - constructor; [|constructor]. cbn. split; [lia|]. split; [lia|]. split; [by eexists|].
      unfold fixed_inv; cbn. repeat split; vm_compute; congruence.
    - reflexivity. }
  split; [exact Hw|]. exact (run_never_overdraws_fixed _ _ _ _ Hw).
Defined.

Lemma program_never_overdraws_fixed_witness :
  let w := with_objs (example_world [] example_sheet 2) [] in
  Forall (account_fixed (clock w)) [example_account true 60 3] /\
  length (dicts w) <= 1 < length (dicts w) + length [example_account true 60 3] /\
  (0 <= remaining_requests
          (dict (snd (main (cli_params None) false false false sound_book None
                           (JParsed (Some [example_account true 60 3])) w)) 1))%Z.
Proof.
  intros w. assert (Hok : Forall (account_fixed (clock w)) [example_account true 60 3]).
  { constructor; [|constructor]. unfold account_fixed; cbn. split; [reflexivity|]. split; [lia|]. split; [reflexivity | left; vm_compute; congruence]. }
  assert (Hr : length (dicts w) <= 1 < length (dicts w) + length [example_account true 60 3]) by (cbn; lia).
  split; [exact Hok|]. split; [exact Hr|].
  exact (program_never_overdraws_fixed _ _ _ _ _ w Hok 1 Hr).
Defined.
